(** * SpyderX colorimeter driver and LUT generator: a shallow embedding

    The development follows [spyderx.py] (byte codec, USB session of the
    colorimeter) and [generate_lut.py] (the colour-cube scan).  Python
    exceptions are values of [exn]; code that talks to the USB stack or to
    the window system runs in a state-and-exception monad over a [World]
    that holds the session object and the answers of the outside world. *)

From Stdlib Require Import ZArith QArith Qpower Qabs Qround Lia Lqa Ascii String List.
From Stdlib.Strings Require Import Byte.
From stdpp Require Import base option list gmap strings.
Import ListNotations.

Local Open Scope string_scope.
Local Open Scope list_scope.
Local Open Scope Z_scope.

(* ================================================================== *)
(** * Part I: definitions *)
(* ================================================================== *)

(** ** Python exceptions and results *)

Inductive exn : Type :=
| USBError                      (* usb.core.USBError *)
| AttributeError                (* attribute access on None *)
| KeyError (key : string)       (* missing dictionary key *)
| ValueError (msg : string)
| IndexError
| StructError                   (* struct.error *)
| UnicodeDecodeError
| ZeroDivisionError.

Inductive result (A : Type) : Type :=
| Ok (a : A)
| Raise (e : exn).
Arguments Ok {A} a.
Arguments Raise {A} e.

#[export] Instance result_ret : MRet result := fun A a => Ok a.
#[export] Instance result_bind : MBind result := fun A B f r =>
  match r with
  | Ok a => f a
  | Raise e => Raise e
  end.

(** ** Byte codec ([spyderx.py], static methods of [SpyderX]) *)

Definition byteZ (b : byte) : Z := Z.of_N (Byte.to_N b).

(** [int.from_bytes(input_bytes, byteorder='big')] *)
Definition _read_nORD_be (input_bytes : list byte) : Z :=
  fold_left (fun acc b => 256 * acc + byteZ b) input_bytes 0.

(** [format(n, 'b')]: the binary digits of [n], most significant first. *)
Fixpoint bin_digits (p : positive) (acc : string) : string :=
  match p with
  | xH => String "1" acc
  | xO p' => bin_digits p' (String "0" acc)
  | xI p' => bin_digits p' (String "1" acc)
  end.

Definition format_b (n : N) : string :=
  match n with
  | N0 => "0"
  | Npos p => bin_digits p ""
  end.

Fixpoint zeros (n : nat) : string :=
  match n with
  | O => ""
  | S n' => String "0" (zeros n')
  end.

(** Zero padding on the left up to [width] characters. *)
Definition zfill (width : nat) (s : string) : string :=
  String.append (zeros (width - String.length s)) s.

(** [f'{byte:08b}'] *)
Definition format_08b (b : byte) : string :=
  zfill 8 (format_b (Byte.to_N b)).

(** [s[i]] on a string. *)
Definition str_index (s : string) (i : nat) : result ascii :=
  match String.get i s with
  | Some c => Ok c
  | None => Raise IndexError
  end.

(** [s[a:b]] and [s[a:]] for non-negative bounds. *)
Definition str_slice (s : string) (a b : nat) : string :=
  substring a (b - a) s.
Definition str_from (s : string) (a : nat) : string :=
  substring a (String.length s - a) s.

Definition digit_of (c : ascii) : option Z :=
  let n := Z.of_N (N_of_ascii c) in
  if (48 <=? n) && (n <=? 57) then Some (n - 48) else None.

(** [int(c)] for a one-character string. *)
Definition int_of_char (c : ascii) : result Z :=
  match digit_of c with
  | Some d => Ok d
  | None => Raise (ValueError "invalid literal for int() with base 10")
  end.

Fixpoint int_base2_from (acc : Z) (s : string) : option Z :=
  match s with
  | EmptyString => Some acc
  | String c s' =>
      match digit_of c with
      | Some d => if d <? 2 then int_base2_from (2 * acc + d) s' else None
      | None => None
      end
  end.

(** [int(s, 2)] on a string of binary digits; the empty string and any
    other character are rejected. *)
Definition int_base2 (s : string) : result Z :=
  match s with
  | EmptyString => Raise (ValueError "invalid literal for int() with base 2")
  | _ =>
      match int_base2_from 0 s with
      | Some v => Ok v
      | None => Raise (ValueError "invalid literal for int() with base 2")
      end
  end.

(** The value computed on the last line of [_read_IEEE754].  Every Python
    operation involved is exact on binary64 ([fraction] has at most 23
    significant bits, [1 + fraction] at most 24, and the powers of two lie
    between 2^-127 and 2^128), so the result is this rational number;
    [read_IEEE754_binary64] below proves that it is a binary64 value. *)
Definition ieee_value (sign exponent fraction_num : Z) : Q :=
  let fraction := (inject_Z fraction_num / inject_Z (2 ^ 23))%Q in
  (((-1) ^ sign) * (1 + fraction) * (2 ^ (exponent - 127)))%Q.

Definition _read_IEEE754 (input_bytes : list byte) : result Q :=
  let input_bytes := rev input_bytes in
  let binary := String.concat "" (map format_08b input_bytes) in
  c ← str_index binary 0;
  sign ← int_of_char c;
  exponent ← int_base2 (str_slice binary 1 9);
  fraction_num ← int_base2 (str_from binary 9);
  Ok (ieee_value sign exponent fraction_num).

(** The decoder in the words of the specification: reverse the four bytes,
    read them as one 32-bit word and split it into the sign (1 bit), the
    exponent (8 bits) and the fraction (23 bits). *)
Definition reversed_word (b0 b1 b2 b3 : byte) : Z :=
  Z.lor (Z.shiftl (byteZ b3) 24)
    (Z.lor (Z.shiftl (byteZ b2) 16)
       (Z.lor (Z.shiftl (byteZ b1) 8) (byteZ b0))).

Definition sign_field (w : Z) : Z := Z.land (Z.shiftr w 31) 1.
Definition exponent_field (w : Z) : Z := Z.land (Z.shiftr w 23) 255.
Definition fraction_field (w : Z) : Z := Z.land w (2 ^ 23 - 1).

Definition decodeReversedIEEE754_spec (b0 b1 b2 b3 : byte) : Q :=
  let w := reversed_word b0 b1 b2 b3 in
  let sign := sign_field w in
  let exponent := exponent_field w in
  let fraction := fraction_field w in
  (((-1) ^ sign) * (1 + inject_Z fraction / inject_Z (2 ^ 23))
   * (2 ^ (exponent - 127)))%Q.

(** Auxiliary view of the binary string as a list of bits, most significant
    first; used to reason about [_read_IEEE754]. *)
Definition bit_char (x : bool) : ascii := if x then "1"%char else "0"%char.

Fixpoint str_of_bits (l : list bool) : string :=
  match l with
  | [] => EmptyString
  | x :: l' => String (bit_char x) (str_of_bits l')
  end.

Definition msb (b : byte) : bool := N.testbit (Byte.to_N b) 7.

Definition low7 (b : byte) : list bool :=
  map (N.testbit (Byte.to_N b)) [6; 5; 4; 3; 2; 1; 0]%N.

Definition bits8 (b : byte) : list bool := msb b :: low7 b.

Definition bits_val_from (acc : Z) (l : list bool) : Z :=
  fold_left (fun a x => 2 * a + Z.b2z x) l acc.

(** Modelled from the spec: the encoder of the round-trip property ("an
    encoder that reverses byte order and packs sign/exponent/fraction").  The
    sources contain no encoder.  [float_fields] finds the sign, the biased
    exponent and the 23-bit fraction of a number (the fraction is truncated),
    [encode_fields] packs them into a 32-bit word, most significant byte
    first, and reverses the four bytes. *)
Definition byte_of_Z (z : Z) : byte :=
  default "000"%byte (Byte.of_N (Z.to_N (z mod 256))).

Definition pack_fields (sign exponent fraction : Z) : Z :=
  Z.lor (Z.shiftl sign 31) (Z.lor (Z.shiftl exponent 23) fraction).

Definition encode_fields (sign exponent fraction : Z) : list byte :=
  let w := pack_fields sign exponent fraction in
  rev [byte_of_Z (Z.shiftr w 24); byte_of_Z (Z.shiftr w 16);
       byte_of_Z (Z.shiftr w 8); byte_of_Z w].

(** The integer [k] with [2^k <= q < 2^(k+1)], for [q > 0]. *)
Definition Qlog2_floor (q : Q) : Z :=
  let k := Z.log2 (Qnum q) - Z.log2 (Zpos (Qden q)) in
  if Qle_bool (2 ^ k) q then k else k - 1.

Definition float_fields (f : Q) : Z * Z * Z :=
  let sign := if Qle_bool 0 f then 0 else 1 in
  let a := Qabs f in
  let k := Qlog2_floor a in
  (sign, k + 127, Qfloor ((a / 2 ^ k - 1) * inject_Z (2 ^ 23))).

Definition encodeReversedIEEE754 (f : Q) : list byte :=
  let '(sign, exponent, fraction) := float_fields f in
  encode_fields sign exponent fraction.

(** The numbers the format can hold: the exponent field must fit 8 bits. *)
Definition encodable (f : Q) : Prop :=
  (2 ^ (-127) <= Qabs f /\ Qabs f < 2 ^ 129)%Q.

(** A number is a binary64 value when it is [m * 2^e] for an integer [m] of
    at most 53 bits and an exponent in the range of the format. *)
Definition is_binary64 (q : Q) : Prop :=
  exists m e : Z,
    Z.abs m < 2 ^ 53 /\ -1074 <= e <= 971 /\ (q == inject_Z m * 2 ^ e)%Q.

(** ** The outside world

    What lies outside the two source files is taken as given: binary64
    arithmetic with UTF-8 decoding ([Externals]), the answers of the USB
    stack ([Reply]) and the events of the window system ([Event]). *)

Class Externals : Type := {
  float : Type;
  float_add : float -> float -> float;
  float_mul : float -> float -> float;
  float_of_int : Z -> float;          (* conversion of an integer *)
  float_of_Q : Q -> float;            (* the binary64 nearest to a rational *)
  utf8_decode : list byte -> option string   (* bytes.decode() *)
}.

(** One answer of the USB stack to one library call: [r_ok = false] makes the
    call raise [usb.core.USBError]; [r_flag] is the boolean answer (a device
    was found, a kernel driver is active); [r_data] is what a read returns. *)
Record Reply : Type := {
  r_ok : bool;
  r_flag : bool;
  r_data : list byte
}.

Inductive UsbCall : Type :=
| Find (idVendor idProduct : Z)
| SetConfiguration
| IsKernelDriverActive (interface : Z)
| DetachKernelDriver (interface : Z)
| ClaimInterface (interface : Z)
| CtrlTransfer (bmRequestType bRequest wValue wIndex : Z)
| BulkWrite (endpoint : Z) (data : list Z)
| BulkRead (endpoint : Z) (size : Z)
| DisposeResources.

Inductive UsbDevice : Type := SpyderXDevice.

Inductive Event : Type :=
| QUIT
| KEYDOWN (key : Z)
| MOUSEBUTTONDOWN
| OtherEvent.

Definition K_RETURN : Z := 13.

Definition vec3 (A : Type) : Type := (A * A * A)%type.

Section Program.
Context `{E : Externals}.

(** ** Session data ([self.spyderData], a dictionary with optional keys) *)

Record Calibration : Type := {
  matrix : vec3 (vec3 float);      (* rows of the 3x3 matrix *)
  v1 : Z;
  v2 : Z;
  v3 : Z;
  ccmat : vec3 (vec3 float)
}.

Record SetUp : Type := {
  s1 : Z;
  s2 : list byte;
  s3 : list byte
}.

Record SpyderData : Type := {
  isOpen : option bool;
  HWvn : option string;
  serNo : option string;
  calibration : option Calibration;
  amb : option (Z * Z * Z * Z);
  settUp : option SetUp;
  bcal : option (list Z);
  isBlackCal : option bool
}.

(** [self.spyderData = {}] *)
Definition empty_data : SpyderData :=
  {| isOpen := None; HWvn := None; serNo := None; calibration := None;
     amb := None; settUp := None; bcal := None; isBlackCal := None |}.

Definition set_isOpen (x : bool) (d : SpyderData) : SpyderData :=
  {| isOpen := Some x; HWvn := HWvn d; serNo := serNo d;
     calibration := calibration d; amb := amb d; settUp := settUp d;
     bcal := bcal d; isBlackCal := isBlackCal d |}.
Definition set_HWvn (x : string) (d : SpyderData) : SpyderData :=
  {| isOpen := isOpen d; HWvn := Some x; serNo := serNo d;
     calibration := calibration d; amb := amb d; settUp := settUp d;
     bcal := bcal d; isBlackCal := isBlackCal d |}.
Definition set_serNo (x : string) (d : SpyderData) : SpyderData :=
  {| isOpen := isOpen d; HWvn := HWvn d; serNo := Some x;
     calibration := calibration d; amb := amb d; settUp := settUp d;
     bcal := bcal d; isBlackCal := isBlackCal d |}.
Definition set_calibration (x : Calibration) (d : SpyderData) : SpyderData :=
  {| isOpen := isOpen d; HWvn := HWvn d; serNo := serNo d;
     calibration := Some x; amb := amb d; settUp := settUp d;
     bcal := bcal d; isBlackCal := isBlackCal d |}.
Definition set_amb (x : Z * Z * Z * Z) (d : SpyderData) : SpyderData :=
  {| isOpen := isOpen d; HWvn := HWvn d; serNo := serNo d;
     calibration := calibration d; amb := Some x; settUp := settUp d;
     bcal := bcal d; isBlackCal := isBlackCal d |}.
Definition set_settUp (x : SetUp) (d : SpyderData) : SpyderData :=
  {| isOpen := isOpen d; HWvn := HWvn d; serNo := serNo d;
     calibration := calibration d; amb := amb d; settUp := Some x;
     bcal := bcal d; isBlackCal := isBlackCal d |}.
Definition set_bcal (x : list Z) (d : SpyderData) : SpyderData :=
  {| isOpen := isOpen d; HWvn := HWvn d; serNo := serNo d;
     calibration := calibration d; amb := amb d; settUp := settUp d;
     bcal := Some x; isBlackCal := isBlackCal d |}.
Definition set_isBlackCal (x : bool) (d : SpyderData) : SpyderData :=
  {| isOpen := isOpen d; HWvn := HWvn d; serNo := serNo d;
     calibration := calibration d; amb := amb d; settUp := settUp d;
     bcal := bcal d; isBlackCal := Some x |}.

(** ** The world: the [SpyderX] object, the USB stack and pygame *)

Record World : Type := {
  dev : option UsbDevice;            (* self.dev *)
  spyderData : SpyderData;           (* self.spyderData *)
  backend : bool;                    (* libusb backend found by get_backend *)
  usb_replies : nat -> Reply;        (* answer to the n-th USB call *)
  usb_cursor : nat;                  (* number of answers consumed *)
  usb_log : list UsbCall;            (* calls made, most recent first *)
  ui_events : nat -> list Event;     (* n-th result of pygame.event.get() *)
  ui_cursor : nat;
  screen : list (Z * Z * Z);         (* colours shown, most recent first *)
  pygame_running : bool
}.

Definition with_dev (x : option UsbDevice) (w : World) : World :=
  {| dev := x; spyderData := spyderData w; backend := backend w;
     usb_replies := usb_replies w; usb_cursor := usb_cursor w;
     usb_log := usb_log w; ui_events := ui_events w; ui_cursor := ui_cursor w;
     screen := screen w; pygame_running := pygame_running w |}.
Definition with_data (x : SpyderData) (w : World) : World :=
  {| dev := dev w; spyderData := x; backend := backend w;
     usb_replies := usb_replies w; usb_cursor := usb_cursor w;
     usb_log := usb_log w; ui_events := ui_events w; ui_cursor := ui_cursor w;
     screen := screen w; pygame_running := pygame_running w |}.
Definition with_usb (c : UsbCall) (consumed : nat) (w : World) : World :=
  {| dev := dev w; spyderData := spyderData w; backend := backend w;
     usb_replies := usb_replies w; usb_cursor := (usb_cursor w + consumed)%nat;
     usb_log := c :: usb_log w; ui_events := ui_events w;
     ui_cursor := ui_cursor w;
     screen := screen w; pygame_running := pygame_running w |}.
Definition with_ui_polled (w : World) : World :=
  {| dev := dev w; spyderData := spyderData w; backend := backend w;
     usb_replies := usb_replies w; usb_cursor := usb_cursor w;
     usb_log := usb_log w; ui_events := ui_events w;
     ui_cursor := S (ui_cursor w);
     screen := screen w; pygame_running := pygame_running w |}.
Definition with_screen (c : Z * Z * Z) (w : World) : World :=
  {| dev := dev w; spyderData := spyderData w; backend := backend w;
     usb_replies := usb_replies w; usb_cursor := usb_cursor w;
     usb_log := usb_log w; ui_events := ui_events w; ui_cursor := ui_cursor w;
     screen := c :: screen w; pygame_running := pygame_running w |}.
Definition with_pygame_quit (w : World) : World :=
  {| dev := dev w; spyderData := spyderData w; backend := backend w;
     usb_replies := usb_replies w; usb_cursor := usb_cursor w;
     usb_log := usb_log w; ui_events := ui_events w; ui_cursor := ui_cursor w;
     screen := screen w; pygame_running := false |}.

(** ** State and exception monad *)

Definition M (A : Type) : Type := World -> result A * World.

#[export] Instance M_ret : MRet M := fun A a w => (Ok a, w).
#[export] Instance M_bind : MBind M := fun A B f m w =>
  match m w with
  | (Ok a, w') => f a w'
  | (Raise e, w') => (Raise e, w')
  end.

Definition raise {A : Type} (e : exn) : M A := fun w => (Raise e, w).
Definition lift {A : Type} (r : result A) : M A := fun w => (r, w).
Definition get_world : M World := fun w => (Ok w, w).
Definition modify (f : World -> World) : M unit := fun w => (Ok tt, f w).

(** [try: m except ...: h]: the handler picks the exceptions it catches. *)
Definition try_except {A : Type} (m : M A) (h : exn -> option (M A)) : M A :=
  fun w =>
    match m w with
    | (Ok a, w') => (Ok a, w')
    | (Raise e, w') =>
        match h e with
        | Some k => k w'
        | None => (Raise e, w')
        end
    end.

Definition only_USBError {A : Type} (k : M A) (e : exn) : option (M A) :=
  match e with
  | USBError => Some k
  | _ => None
  end.

(** ** Python sequences *)

(** [l[a:b]] and [l[i]] for non-negative indices. *)
Definition py_slice {A : Type} (l : list A) (a b : nat) : list A :=
  take (b - a) (drop a l).

Definition py_index {A : Type} (l : list A) (i : nat) : result A :=
  match l !! i with
  | Some x => Ok x
  | None => Raise IndexError
  end.

(** [bytes(ints)]: every element must lie in [range(256)]. *)
Fixpoint py_bytes (ints : list Z) : result (list byte) :=
  match ints with
  | [] => Ok []
  | z :: rest =>
      if (0 <=? z) && (z <? 256)
      then (bs ← py_bytes rest; Ok (byte_of_Z z :: bs))
      else Raise (ValueError "bytes must be in range(0, 256)")
  end.

Definition uint16_be (hi lo : byte) : Z := _read_nORD_be [hi; lo].

(** [struct.unpack('>HHHH', data)] and [struct.unpack('>HHBB', data)]: the
    buffer must have exactly the size of the format. *)
Definition unpack_HHHH (data : list byte) : result (list Z) :=
  match data with
  | [a0; a1; b0; b1; c0; c1; d0; d1] =>
      Ok [uint16_be a0 a1; uint16_be b0 b1; uint16_be c0 c1; uint16_be d0 d1]
  | _ => Raise StructError
  end.

Definition unpack_HHBB (data : list byte) : result (Z * Z * Z * Z) :=
  match data with
  | [a0; a1; b0; b1; c; d] =>
      Ok (uint16_be a0 a1, uint16_be b0 b1, byteZ c, byteZ d)
  | _ => Raise StructError
  end.

(** ** numpy on one-dimensional integer arrays and 3x3 float matrices *)

Definition wrap_int64 (z : Z) : Z := (z + 2 ^ 63) mod 2 ^ 64 - 2 ^ 63.

(** [a - b] on one-dimensional int64 arrays, with broadcasting of a
    one-element operand. *)
Definition np_sub (a b : list Z) : result (list Z) :=
  if (length a =? length b)%nat
  then Ok (zip_with (fun x y => wrap_int64 (x - y)) a b)
  else match a, b with
       | _, [y] => Ok (map (fun x => wrap_int64 (x - y)) a)
       | [x], _ => Ok (map (fun y => wrap_int64 (x - y)) b)
       | _, _ => Raise (ValueError "operands could not be broadcast together")
       end.

(** [np.dot(v, m)] for a vector [v] of three integers and a 3x3 float matrix
    [m]: component [j] is the sum over [i] of [v[i] * m[i][j]]. *)
Definition np_dot_vec_mat (v : vec3 Z) (m : vec3 (vec3 float)) : vec3 float :=
  let '(x0, x1, x2) := v in
  let '((m00, m01, m02), (m10, m11, m12), (m20, m21, m22)) := m in
  let f := float_of_int in
  (float_add (float_add (float_mul (f x0) m00) (float_mul (f x1) m10))
     (float_mul (f x2) m20),
   float_add (float_add (float_mul (f x0) m01) (float_mul (f x1) m11))
     (float_mul (f x2) m21),
   float_add (float_add (float_mul (f x0) m02) (float_mul (f x1) m12))
     (float_mul (f x2) m22)).

(** [np.dot(m, v)] for a 3x3 float matrix and a float vector: component [i]
    is the sum over [j] of [m[i][j] * v[j]]. *)
Definition np_dot_mat_vec (m : vec3 (vec3 float)) (v : vec3 float) : vec3 float :=
  let '(x0, x1, x2) := v in
  let row := fun r : vec3 float =>
    let '(a, b, c) := r in
    float_add (float_add (float_mul a x0) (float_mul b x1)) (float_mul c x2) in
  let '(r0, r1, r2) := m in
  (row r0, row r1, row r2).

Definition np_eye3 : vec3 (vec3 float) :=
  let o := float_of_int 1 in
  let z := float_of_int 0 in
  ((o, z, z), (z, o, z), (z, z, o)).

(** [raw[:3] = a]: the assignment to a slice of three elements takes an
    array of three elements, or broadcasts an array of one. *)
Definition first3 (a : list Z) : result (vec3 Z) :=
  match a with
  | [x0; x1; x2] => Ok (x0, x1, x2)
  | [x] => Ok (x, x, x)
  | _ => Raise (ValueError "could not broadcast input array into shape (3,)")
  end.

(** ** USB primitives *)

(** A call into the USB stack consumes the next answer. *)
Definition usb_call (c : UsbCall) : M Reply := fun w =>
  let r := usb_replies w (usb_cursor w) in
  if r_ok r then (Ok r, with_usb c 1 w) else (Raise USBError, with_usb c 1 w).

(** A method call on [self.dev]; [None] has no methods. *)
Definition dev_call (c : UsbCall) : M Reply := fun w =>
  match dev w with
  | None => (Raise AttributeError, w)
  | Some _ => usb_call c w
  end.

(** [usb.core.find(idVendor=..., idProduct=..., backend=...)] *)
Definition usb_find (idVendor idProduct : Z) : M (option UsbDevice) :=
  r ← usb_call (Find idVendor idProduct);
  mret (if r_flag r then Some SpyderXDevice else None).

(** [usb.util.dispose_resources(dev)] *)
Definition dispose_resources : M unit := modify (with_usb DisposeResources 0).

(** [self.spyderData[key]] *)
Definition lookup_key {A : Type} (key : string) (field : SpyderData -> option A)
  : M A := fun w =>
  match field (spyderData w) with
  | Some x => (Ok x, w)
  | None => (Raise (KeyError key), w)
  end.

(** [self.spyderData.get(key, False)] *)
Definition get_flag (field : SpyderData -> option bool) : M bool := fun w =>
  (Ok (default false (field (spyderData w))), w).

Definition update_data (f : SpyderData -> SpyderData) : M unit :=
  modify (fun w => with_data (f (spyderData w)) w).

(** ** class SpyderX *)

(** [SpyderX.__init__] *)
Definition SpyderX : M unit := fun w =>
  let w' := with_data empty_data (with_dev None w) in
  if backend w then (Ok tt, w')
  else (Raise (ValueError "Libusb backend not found. Check if the path is correct."), w').

Definition _control_transfer (bmRequestType bRequest wValue wIndex : Z) : M unit :=
  dev_call (CtrlTransfer bmRequestType bRequest wValue wIndex);; mret tt.

Definition _bulk_transfer (cmd : list Z) (outSize : Z) : M (list byte) :=
  dev_call (BulkWrite 1 cmd);;
  r ← dev_call (BulkRead 0x81 outSize);
  mret (r_data r).

Definition decode_str (bs : list byte) : M string :=
  match utf8_decode bs with
  | Some s => mret s
  | None => raise UnicodeDecodeError
  end.

Definition _get_hardware_version : M unit :=
  out ← _bulk_transfer [0xd9; 0x42; 0x33; 0x00; 0x00] 28;
  s ← decode_str (py_slice out 5 9);
  update_data (set_HWvn s).

Definition _get_serial_number : M unit :=
  out ← _bulk_transfer [0xc2; 0x5c; 0x37; 0x00; 0x00] 42;
  s ← decode_str (py_slice out 9 17);
  update_data (set_serNo s).

(** One row of the calibration matrix: entries [k = i*3 + j], [j = 0, 1, 2],
    each decoded from [out[k*4+4 : k*4+8]]. *)
Definition read_entry (out : list byte) (i j : nat) : result float :=
  let k := (i * 3 + j)%nat in
  q ← _read_IEEE754 (py_slice out (k * 4 + 4) (k * 4 + 8));
  Ok (float_of_Q q).

Definition read_row (out : list byte) (i : nat) : result (vec3 float) :=
  a ← read_entry out i 0; b ← read_entry out i 1; c ← read_entry out i 2;
  Ok (a, b, c).

Definition _get_factory_calibration : M unit :=
  out ← _bulk_transfer [0xcb; 0x05; 0x73; 0x00; 0x01; 0x00] 47;
  let out := drop 5 out in
  v1 ← lift (py_index out 1);
  let v2 := _read_nORD_be (py_slice out 2 4) in
  v3 ← lift (py_index out 40);
  r0 ← lift (read_row out 0);
  r1 ← lift (read_row out 1);
  r2 ← lift (read_row out 2);
  update_data (set_calibration
    {| matrix := (r0, r1, r2); v1 := byteZ v1; v2 := v2; v3 := byteZ v3;
       ccmat := np_eye3 |}).

Definition _get_amb_measure : M unit :=
  out ← _bulk_transfer [0xd4; 0xa1; 0xc5; 0x00; 0x02; 0x65; 0x10] 11;
  a ← lift (unpack_HHBB (drop 5 out));
  update_data (set_amb a).

Definition _setup_measurement : M unit :=
  cal ← lookup_key "calibration" calibration;
  out ← _bulk_transfer [0xc3; 0x29; 0x27; 0x00; 0x01; v1 cal] 15;
  x ← lift (py_index out 5);
  update_data (set_settUp
    {| s1 := byteZ x; s2 := py_slice out 6 10; s3 := py_slice out 10 14 |}).

Definition swallow (e : exn) : option (M unit) :=
  match e with
  | AttributeError | USBError => Some (mret tt)
  | _ => None
  end.

Definition initialize : M bool :=
  try_except
    (d ← usb_find 0x085C 0x0A00;
     modify (with_dev d);;
     match d with
     | None => mret false
     | Some _ =>
         try_except (dev_call SetConfiguration;; mret tt)
           (only_USBError (mret tt));;
         try_except
           (r ← dev_call (IsKernelDriverActive 0);
            (if r_flag r then dev_call (DetachKernelDriver 0);; mret tt
             else mret tt);;
            dev_call (ClaimInterface 0);; mret tt)
           swallow;;
         _control_transfer 0x02 1 0 1;;
         _control_transfer 0x02 1 0 129;;
         _control_transfer 0x41 2 2 0;;
         _get_hardware_version;;
         _get_serial_number;;
         _get_factory_calibration;;
         _get_amb_measure;;
         _setup_measurement;;
         update_data (set_isOpen true);;
         mret true
     end)
    (only_USBError (mret false)).

(** The exchange shared by [calibrate] and [measure]: the wake control
    transfer, the command built from [v2], [s1] and [s2], and the four
    big-endian 16-bit fields of the answer. *)
Definition acquire : M (list Z) :=
  _control_transfer 0x41 2 2 0;;
  cal ← lookup_key "calibration" calibration;
  su ← lookup_key "settUp" settUp;
  send ← lift (py_bytes ([Z.shiftr (v2 cal) 8; Z.land (v2 cal) 0xFF; s1 su]
                          ++ map byteZ (s2 su)));
  out ← _bulk_transfer ([0xd2; 0x3f; 0xb9; 0x00; 0x07] ++ map byteZ send) 13;
  lift (unpack_HHHH (drop 5 out)).

Definition s3_first3 : M (list Z) :=
  su ← lookup_key "settUp" settUp;
  mret (map byteZ (py_slice (s3 su) 0 3)).

Definition calibrate : M unit :=
  opened ← get_flag isOpen;
  (if negb opened then initialize;; mret tt else mret tt);;
  raw ← acquire;
  s ← s3_first3;
  b ← lift (np_sub (py_slice raw 0 3) s);
  update_data (set_bcal b);;
  update_data (set_isBlackCal true).

Definition measure : M (vec3 float) :=
  opened ← get_flag isOpen;
  (if negb opened then raise (ValueError "SpyderX not initialized") else mret tt);;
  calibrated ← get_flag isBlackCal;
  (if negb calibrated then raise (ValueError "Black calibration not performed")
   else mret tt);;
  raw ← acquire;
  s ← s3_first3;
  d ← lift (np_sub (py_slice raw 0 3) s);
  b ← lookup_key "bcal" bcal;
  adjusted ← lift (np_sub d b);
  adjusted3 ← lift (first3 adjusted);
  cal ← lookup_key "calibration" calibration;
  mret (np_dot_vec_mat adjusted3 (matrix cal)).

Definition close : M unit :=
  w ← get_world;
  match dev w with
  | Some _ => dispose_resources
  | None => mret tt
  end;;
  update_data (set_isOpen false).

(** ** generate_lut.py *)

Definition q_lit (q : Q) : float := float_of_Q q.

(** Hunt-Pointer-Estevez matrix. *)
Definition xyz_to_lms_matrix : vec3 (vec3 float) :=
  ((q_lit (4002 # 10000), q_lit (7076 # 10000), q_lit (-808 # 10000)),
   (q_lit (-2263 # 10000), q_lit (11653 # 10000), q_lit (457 # 10000)),
   (q_lit 0, q_lit 0, q_lit (9182 # 10000))).

Definition xyz_to_lms (xyz : vec3 float) : vec3 float :=
  np_dot_mat_vec xyz_to_lms_matrix xyz.

(** [pygame.event.get()], [pygame.quit()], [screen.fill(c)] followed by
    [pygame.display.flip()]. *)
Definition event_get : M (list Event) := fun w =>
  (Ok (ui_events w (ui_cursor w)), with_ui_polled w).
Definition pygame_quit : M unit := modify with_pygame_quit.
Definition screen_fill (c : Z * Z * Z) : M unit := modify (with_screen c).

Definition is_QUIT (ev : Event) : bool :=
  match ev with
  | QUIT => true
  | _ => false
  end.

(** One pass of the [for event in pygame.event.get()] loop of
    [wait_for_enter]: either the function returns, or the loop ends with a
    new value of [waiting]. *)
Inductive wait_step : Type :=
| Returned (b : bool)
| Pending (waiting : bool).

Fixpoint wait_events (evs : list Event) (waiting : bool) : wait_step :=
  match evs with
  | [] => Pending waiting
  | QUIT :: _ => Returned false
  | KEYDOWN key :: rest =>
      wait_events rest (if key =? K_RETURN then false else waiting)
  | MOUSEBUTTONDOWN :: rest => wait_events rest false
  | OtherEvent :: rest => wait_events rest waiting
  end.

(** [wait_for_enter()]; the [while waiting] loop polls at most [fuel] times
    and the result is [None] when the operator has not answered by then. *)
Fixpoint wait_loop (fuel : nat) : M (option bool) :=
  match fuel with
  | O => mret None
  | S fuel' =>
      evs ← event_get;
      match wait_events evs true with
      | Returned b => pygame_quit;; mret (Some b)
      | Pending true => wait_loop fuel'
      | Pending false => mret (Some true)
      end
  end.

Definition wait_for_enter (fuel : nat) : M (option bool) :=
  screen_fill (255, 255, 255);;
  wait_loop fuel.

(** [range(n)] *)
Definition py_range (n : Z) : list Z := seqZ 0 n.

(** A [for] loop over [xs] whose body may return from the enclosing
    function: [inl] carries the local variables on, [inr] is the returned
    value. *)
Fixpoint for_each {A S R : Type} (xs : list A) (body : A -> S -> M (S + R))
  (s : S) : M (S + R) :=
  match xs with
  | [] => mret (inl s)
  | x :: xs' =>
      r ← body x s;
      match r with
      | inl s' => for_each xs' body s'
      | inr v => mret (inr v)
      end
  end.

(** [int(index * 255 / (resolution - 1))].  The true division is correctly
    rounded and its result is truncated; for the resolutions of interest
    ([resolution - 1 < 2^45]) the rounded quotient cannot reach the next
    integer, so the value is the truncated exact quotient. *)
Definition to_255 (index resolution : Z) : result Z :=
  if resolution - 1 =? 0 then Raise ZeroDivisionError
  else Ok (Z.quot (index * 255) (resolution - 1)).

Record Locals : Type := {
  lut : gmap (Z * Z * Z) (vec3 float);
  current_color : Z
}.

(** The body of the innermost loop. *)
Definition sample (resolution r g b : Z) (l : Locals)
  : M (Locals + gmap (Z * Z * Z) (vec3 float)) :=
  r_255 ← lift (to_255 r resolution);
  g_255 ← lift (to_255 g resolution);
  b_255 ← lift (to_255 b resolution);
  screen_fill (r_255, g_255, b_255);;
  xyz ← measure;
  let lms := xyz_to_lms xyz in
  let l' := {| lut := <[(r, g, b) := lms]> (lut l);
               current_color := current_color l + 1 |} in
  evs ← event_get;
  if existsb is_QUIT evs
  then pygame_quit;; close;; mret (inr (lut l'))
  else mret (inl l').

(** The three nested loops of [generate_lut], and the code after them. *)
Definition scan_loops (resolution : Z) (l : Locals)
  : M (Locals + gmap (Z * Z * Z) (vec3 float)) :=
  for_each (py_range resolution) (fun r =>
    for_each (py_range resolution) (fun g =>
      for_each (py_range resolution) (fun b =>
        sample resolution r g b))) l.

Definition scan (resolution : Z) : M (gmap (Z * Z * Z) (vec3 float)) :=
  r ← scan_loops resolution {| lut := ∅; current_color := 0 |};
  match r with
  | inr table => mret table
  | inl l => close;; pygame_quit;; mret (lut l)
  end.

Inductive Outcome : Type :=
| StillWaiting                                   (* no answer within [fuel] polls *)
| ReturnNone                                     (* return None *)
| ReturnLut (table : gmap (Z * Z * Z) (vec3 float)).

Definition generate_lut (fuel : nat) (resolution : Z) : M Outcome :=
  SpyderX;;
  initialize;;
  ready ← wait_for_enter fuel;
  match ready with
  | None => mret StillWaiting
  | Some false => close;; mret ReturnNone
  | Some true =>
      screen_fill (0, 0, 0);;
      calibrate;;
      table ← scan resolution;
      mret (ReturnLut table)
  end.

End Program.

(** ** A concrete instance and concrete worlds

    Exact rational arithmetic stands for binary64 and ASCII for UTF-8; the
    worlds below are scripted conversations with a device. *)

Definition ascii_decode (bs : list byte) : option string :=
  if forallb (fun b => byteZ b <? 128) bs
  then Some (string_of_list_byte bs)
  else None.

Definition Q_externals : Externals :=
  {| float := Q;
     float_add := fun a b => Qred (a + b);
     float_mul := fun a b => Qred (a * b);
     float_of_int := inject_Z;
     float_of_Q := Qred;
     utf8_decode := ascii_decode |}.

Definition ok_reply : Reply := {| r_ok := true; r_flag := false; r_data := [] |}.
Definition yes_reply : Reply := {| r_ok := true; r_flag := true; r_data := [] |}.
Definition fail_reply : Reply := {| r_ok := false; r_flag := false; r_data := [] |}.
Definition data_reply (ints : list Z) : Reply :=
  {| r_ok := true; r_flag := false; r_data := map byte_of_Z ints |}.

Definition zeros_Z (n : nat) : list Z := replicate n 0.

(** The answers of a device during a successful [initialize]: found,
    configured, no kernel driver, interface claimed, three control
    transfers, then five command exchanges.  The calibration block carries
    [v1 = 7], [v2 = 258], [v3 = 9] and the matrix ((1, 2, 1/2), (2, 1, 2),
    (1/2, 2, 1)); the setup answer carries [s1 = 3], [s2 = (1,2,3,4)] and
    [s3 = (10,20,15,0)]. *)
Definition one_f : list Z := [0; 0; 0x80; 0x3f].
Definition two_f : list Z := [0; 0; 0; 0x40].
Definition half_f : list Z := [0; 0; 0; 0x3f].

Definition init_script : list Reply :=
  [ yes_reply; ok_reply; ok_reply; ok_reply; ok_reply; ok_reply; ok_reply;
    ok_reply; data_reply (zeros_Z 28);
    ok_reply; data_reply (zeros_Z 42);
    ok_reply; data_reply (zeros_Z 5 ++ [0; 7; 1; 2]
                            ++ one_f ++ two_f ++ half_f
                            ++ two_f ++ one_f ++ two_f
                            ++ half_f ++ two_f ++ one_f ++ [9; 0]);
    ok_reply; data_reply (zeros_Z 11);
    ok_reply; data_reply (zeros_Z 5 ++ [3; 1; 2; 3; 4; 10; 20; 15; 0; 0]) ].

(** The three answers of one acquisition with the given raw counts. *)
Definition frame (a b c d : Z) : list Reply :=
  [ ok_reply; ok_reply; data_reply (zeros_Z 5 ++ [0; a; 0; b; 0; c; 0; d]) ].

Definition script_replies (script : list Reply) (after : Reply) : nat -> Reply :=
  fun n => nth n script after.

Definition no_events : nat -> list Event := fun _ => [].

Definition new_world (replies : nat -> Reply) (events : nat -> list Event)
  : @World Q_externals :=
  {| dev := None; spyderData := empty_data; backend := true;
     usb_replies := replies; usb_cursor := 0; usb_log := [];
     ui_events := events; ui_cursor := 0; screen := [];
     pygame_running := true |}.

(** Running a computation for its result or for its final world. *)
Definition run {A : Type} `{E : Externals} (m : M A) (w : World) : result A :=
  fst (m w).
Definition exec {A : Type} `{E : Externals} (m : M A) (w : World) : World :=
  snd (m w).

(** ** Specifications of monadic code

    [triple P m Q X]: started in a world satisfying [P], the computation [m]
    either returns [a] in a world satisfying [Q a] or raises [e] in a world
    satisfying [X e].  [m] is a total function, so every run ends in one of
    the two ways. *)

(** The two errors of [measure], under the names the specification gives
    them; in the code both are [ValueError]s, told apart by their message. *)
Definition NotInitializedError : exn := ValueError "SpyderX not initialized".
Definition NotCalibratedError : exn := ValueError "Black calibration not performed".

(** Python's [round(a / b)] for [b > 0]: to the nearest integer, ties to the
    even one. *)
Definition py_round_div (a b : Z) : Z :=
  let q := a / b in
  let r := a mod b in
  if 2 * r <? b then q
  else if b <? 2 * r then q + 1
  else if Z.even q then q else q + 1.

(** The quantization in the words of the specification:
    [round(index * 255 / (resolution - 1))]. *)
Definition quantize_spec (index resolution : Z) : Z :=
  py_round_div (index * 255) (resolution - 1).

Section Specifications.
Context `{E : Externals}.

Definition triple {A : Type} (P : World -> Prop) (m : M A)
  (Q : A -> World -> Prop) (X : exn -> World -> Prop) : Prop :=
  forall w, P w ->
    match m w with
    | (Ok a, w') => Q a w'
    | (Raise e, w') => X e w'
    end.

(** [m] maintains [J], whether it returns or raises. *)
Definition inv_step {A : Type} (J : World -> Prop) (m : M A) : Prop :=
  triple J m (fun _ => J) (fun _ => J).

(** What no method of [SpyderX] changes: the outside world, except that
    answers of the USB stack get consumed. *)
Definition env_frame (w0 w : World) : Prop :=
  usb_replies w = usb_replies w0 /\ ui_events w = ui_events w0 /\
  ui_cursor w = ui_cursor w0 /\ screen w = screen w0 /\
  backend w = backend w0 /\ pygame_running w = pygame_running w0 /\
  (usb_cursor w0 <= usb_cursor w)%nat.

(** The black calibration is untouched. *)
Definition cal_frame (w0 w : World) : Prop :=
  bcal (spyderData w) = bcal (spyderData w0) /\
  isBlackCal (spyderData w) = isBlackCal (spyderData w0).

(** The open flag and the setup data are untouched. *)
Definition open_frame (w0 w : World) : Prop :=
  isOpen (spyderData w) = isOpen (spyderData w0) /\
  settUp (spyderData w) = settUp (spyderData w0).

(** [close] never fails; it disposes of the device when there is one and
    stores [isOpen = False]. *)
Definition closed_world (w : World) : World :=
  let w1 := match dev w with
            | Some _ => with_usb DisposeResources 0 w
            | None => w
            end in
  with_data (set_isOpen false (spyderData w1)) w1.

(** An invariant that the bookkeeping of USB calls does not disturb. *)
Definition usb_stable (J : World -> Prop) : Prop :=
  forall c n w, J w -> J (with_usb c n w).

(** An invariant that a change of the session data does not disturb. *)
Definition data_stable (J : World -> Prop) (f : SpyderData -> SpyderData) : Prop :=
  forall w, J w -> J (with_data (f (spyderData w)) w).

(** What [initialize] maintains until its last command exchange. *)
Definition init_inv (w0 w : World) : Prop :=
  env_frame w0 w /\ cal_frame w0 w /\ open_frame w0 w.

(** The outcome of [initialize] started in [w0]. *)
Definition init_post (w0 : World) (r : bool) (w : World) : Prop :=
  if r
  then env_frame w0 w /\ cal_frame w0 w /\
       isOpen (spyderData w) = Some true /\ is_Some (dev w) /\
       is_Some (calibration (spyderData w)) /\ is_Some (settUp (spyderData w))
  else init_inv w0 w.

Definition init_exn (w0 : World) (e : exn) (w : World) : Prop :=
  init_inv w0 w /\ e <> USBError.

(** The invariant of the part of [initialize] that talks to a device. *)
Definition init_dev_inv (w0 : World) (u : UsbDevice) (w : World) : Prop :=
  init_inv w0 w /\ dev w = Some u.

(** The command that [calibrate] and [measure] send, and the world after
    one successful acquisition. *)
Definition acquire_cmd (cal : Calibration) (su : SetUp) : list Z :=
  [0xd2; 0x3f; 0xb9; 0x00; 0x07]
  ++ ([Z.shiftr (v2 cal) 8; Z.land (v2 cal) 0xFF; s1 su] ++ map byteZ (s2 su)).

Definition acquired (cal : Calibration) (su : SetUp) (w : World) : World :=
  with_usb (BulkRead 0x81 13) 1
    (with_usb (BulkWrite 1 (acquire_cmd cal su)) 1
       (with_usb (CtrlTransfer 0x41 2 2 0) 1 w)).

(** The USB stack answers the three calls of one acquisition, the first of
    them being its [n]-th call, and the read returns a full 13-byte frame. *)
Definition good_frame (w : World) (n : nat) : Prop :=
  r_ok (usb_replies w n) = true /\
  r_ok (usb_replies w (n + 1)) = true /\
  r_ok (usb_replies w (n + 2)) = true /\
  length (r_data (usb_replies w (n + 2))) = 13%nat.

(** A session on which [measure] can run: open, black-calibrated, holding
    the data that [initialize] and [calibrate] store.  The baseline [s3] is
    a slice of a device answer: numpy subtracts its first three bytes
    elementwise, or its only byte from every count. *)
Definition ready (w : World) : Prop :=
  exists cal su b,
    is_Some (dev w) /\
    isOpen (spyderData w) = Some true /\
    isBlackCal (spyderData w) = Some true /\
    calibration (spyderData w) = Some cal /\
    settUp (spyderData w) = Some su /\
    bcal (spyderData w) = Some b /\
    0 <= v2 cal < 65536 /\ 0 <= s1 su < 256 /\
    (3 <= length (s3 su) \/ length (s3 su) = 1)%nat /\ length b = 3%nat.

(** The session of [w] is the one of [w0]: same device handle, same data. *)
Definition same_session (w0 w : World) : Prop :=
  dev w = dev w0 /\ spyderData w = spyderData w0.

(** [w'] differs from [w] by [n] consumed answers of the USB stack. *)
Definition usb_advance (n : nat) (w w' : World) : Prop :=
  dev w' = dev w /\ spyderData w' = spyderData w /\
  usb_replies w' = usb_replies w /\ usb_cursor w' = (usb_cursor w + n)%nat /\
  ui_events w' = ui_events w /\ ui_cursor w' = ui_cursor w /\
  screen w' = screen w.

(** The grid points in the order in which the three nested loops visit
    them. *)
Definition grid (resolution : Z) : list (Z * Z * Z) :=
  r ← py_range resolution; g ← py_range resolution; b ← py_range resolution;
  [(r, g, b)].

Definition sample_at (resolution : Z) (p : Z * Z * Z) (l : Locals)
  : M (Locals + gmap (Z * Z * Z) (vec3 float)) :=
  sample resolution p.1.1 p.1.2 p.2 l.

(** [w'] is [w] after [n] more answers of the USB stack and [m] more polls
    of the event queue; the session is the same. *)
Definition progress (n m : nat) (w w' : World) : Prop :=
  dev w' = dev w /\ spyderData w' = spyderData w /\
  usb_replies w' = usb_replies w /\ usb_cursor w' = (usb_cursor w + n)%nat /\
  ui_events w' = ui_events w /\ ui_cursor w' = (ui_cursor w + m)%nat.

(** The part of [generate_lut] before the loops went through: the operator
    confirmed within [fuel] polls and [calibrate] returned, leaving the world
    [w2]. *)
Definition scan_starts_at (fuel : nat) (w w2 : World) : Prop :=
  exists w1,
    (SpyderX;; initialize;; wait_for_enter fuel) w = (Ok (Some true), w1) /\
    (screen_fill (0, 0, 0);; calibrate) w1 = (Ok tt, w2).

(** No QUIT event in the [n]-th batch of events. *)
Definition no_quit (w : World) (n : nat) : Prop :=
  existsb is_QUIT (ui_events w n) = false.

(** What [calibrate] does after the optional call of [initialize]. *)
Definition calibrate_body : M unit :=
  raw ← acquire;
  s ← s3_first3;
  b ← lift (np_sub (py_slice raw 0 3) s);
  update_data (set_bcal b);;
  update_data (set_isBlackCal true).

(** The product of a row vector with a matrix, column by column. *)
Definition dot3 (v : vec3 Z) (c : vec3 float) : float :=
  let '(x0, x1, x2) := v in
  let '(c0, c1, c2) := c in
  float_add (float_add (float_mul (float_of_int x0) c0)
                       (float_mul (float_of_int x1) c1))
            (float_mul (float_of_int x2) c2).

Definition column (j : nat) (m : vec3 (vec3 float)) : vec3 float :=
  let '((m00, m01, m02), (m10, m11, m12), (m20, m21, m22)) := m in
  match j with
  | 0%nat => (m00, m10, m20)
  | 1%nat => (m01, m11, m21)
  | _ => (m02, m12, m22)
  end.

Definition row_vector_times_matrix (v : vec3 Z) (m : vec3 (vec3 float))
  : vec3 float :=
  (dot3 v (column 0 m), dot3 v (column 1 m), dot3 v (column 2 m)).

(** The scenario of the specification: a calibrated session with matrix
    [m], [s3 = (10, 20, 15)] and [bcal = (5, 5, 5)], and a device that
    answers the next acquisition with the raw counts (100, 200, 150, 0). *)
Definition scenario_cal (m : vec3 (vec3 float)) : Calibration :=
  {| matrix := m; v1 := 7; v2 := 258; v3 := 9; ccmat := np_eye3 |}.

Definition scenario_setup : SetUp :=
  {| s1 := 3; s2 := map byte_of_Z [1; 2; 3; 4];
     s3 := map byte_of_Z [10; 20; 15; 0] |}.

Definition scenario_data (m : vec3 (vec3 float)) : SpyderData :=
  {| isOpen := Some true; HWvn := Some ""; serNo := Some "";
     calibration := Some (scenario_cal m);
     amb := Some (0, 0, 0, 0);
     settUp := Some scenario_setup;
     bcal := Some [5; 5; 5]; isBlackCal := Some true |}.

Definition scenario_world (m : vec3 (vec3 float)) : World :=
  {| dev := Some SpyderXDevice; spyderData := scenario_data m; backend := true;
     usb_replies := script_replies (frame 100 200 150 0) fail_reply;
     usb_cursor := 0; usb_log := [];
     ui_events := no_events; ui_cursor := 0; screen := [];
     pygame_running := true |}.

End Specifications.

(** ** Scripted worlds *)

(** A device that answers [initialize], then the black frame (15, 25, 20, 0)
    and from then on the frame (100, 200, 150, 0); the operator clicks at
    the first poll of the event queue. *)
Definition measure_reply : Reply :=
  data_reply (zeros_Z 5 ++ [0; 100; 0; 200; 0; 150; 0; 0]).

Definition click_then (later : nat -> list Event) : nat -> list Event :=
  fun n => match n with
           | O => [MOUSEBUTTONDOWN]
           | S n' => later n'
           end.

Definition lab_world : @World Q_externals :=
  new_world (script_replies (init_script ++ frame 15 25 20 0) measure_reply)
    (click_then no_events).

(** The world in which the loops of [generate_lut fuel] start. *)
Definition confirmed `{E : Externals} (fuel : nat) (w : World) : World :=
  exec (SpyderX;; initialize;; wait_for_enter fuel) w.

Definition scan_start `{E : Externals} (fuel : nat) (w : World) : World :=
  exec (screen_fill (0, 0, 0);; calibrate) (confirmed fuel w).

Definition lab_scan_start : @World Q_externals := scan_start 3 lab_world.

(** The operator closes the window after the second sample. *)
Definition cancel_world : @World Q_externals :=
  new_world (script_replies (init_script ++ frame 15 25 20 0) measure_reply)
    (click_then (fun n => if (n =? 1)%nat then [QUIT] else [])).

Definition cancel_scan_start : @World Q_externals := scan_start 3 cancel_world.

(** The bulk write of the second measurement fails. *)
Definition fail_world : @World Q_externals :=
  new_world
    (script_replies (init_script ++ frame 15 25 20 0 ++ frame 100 200 150 0
                     ++ [ok_reply; fail_reply]) measure_reply)
    (click_then no_events).

Definition fail_scan_start : @World Q_externals := scan_start 3 fail_world.

(** No device is plugged in. *)
Definition no_device_world : @World Q_externals :=
  new_world (script_replies [] ok_reply) no_events.

(** A session that is initialized, black-calibrated, closed and initialized
    again. *)
Definition reopen_world : @World Q_externals :=
  new_world
    (script_replies (init_script ++ frame 15 25 20 0 ++ init_script) measure_reply)
    no_events.

(** A session that is initialized and closed; the next [initialize] finds
    the device but its first control transfer fails, after which the device
    answers again. *)
Definition hiccup_world : @World Q_externals :=
  new_world
    (script_replies (init_script ++ [yes_reply; ok_reply; ok_reply; ok_reply; fail_reply])
       measure_reply)
    no_events.

Definition hiccup_closed : @World Q_externals :=
  exec (SpyderX;; initialize;; close) hiccup_world.

(** The matrix that [init_script] carries. *)
Definition lab_matrix : vec3 (vec3 (@float Q_externals)) :=
  ((1, 2, 1 # 2), (2, 1, 2), (1 # 2, 2, 1))%Q.

(** ** Further notions used in the statements *)

(** Component [i] of a triple and entry [(i, j)] of a 3x3 matrix, counted
    from 0. *)
Definition vec3_get {A : Type} (v : vec3 A) (i : nat) : A :=
  let '(a, b, c) := v in
  match i with
  | 0%nat => a
  | 1%nat => b
  | _ => c
  end.

Definition matrix_entry {A : Type} (m : vec3 (vec3 A)) (i j : nat) : A :=
  vec3_get (vec3_get m i) j.

Section DriverNotions.
Context `{E : Externals}.

(** The [k]-th answer that the USB stack has in store for [w]. *)
Definition reply_at (w : World) (k : nat) : Reply :=
  usb_replies w (usb_cursor w + k).

(** A device that cooperates with [initialize]: it is found, reports no
    kernel driver, answers the three control transfers and the five command
    exchanges, and its answers are long enough: identifiers that decode to
    [hw] and [sn], a calibration block of at least 46 bytes, an ambient
    block of 11 bytes and a setup block of at least 6 bytes.  The answers to
    [set_configuration] (the second call) and to [claim_interface] (the
    fourth) are left open: they may fail. *)
Definition cooperative (w : World) (hw sn : string) : Prop :=
  r_ok (reply_at w 0) = true /\ r_flag (reply_at w 0) = true /\
  r_ok (reply_at w 2) = true /\ r_flag (reply_at w 2) = false /\
  (forall k, (4 <= k < 17)%nat -> r_ok (reply_at w k) = true) /\
  utf8_decode (py_slice (r_data (reply_at w 8)) 5 9) = Some hw /\
  utf8_decode (py_slice (r_data (reply_at w 10)) 9 17) = Some sn /\
  (46 <= length (r_data (reply_at w 12)))%nat /\
  length (r_data (reply_at w 14)) = 11%nat /\
  (6 <= length (r_data (reply_at w 16)))%nat.

(** [w] is [w0] after exactly [n] more calls into the USB stack: the
    session, the window system and the answers in store are the same. *)
Definition consumed (w0 : World) (n : nat) (w : World) : Prop :=
  dev w = dev w0 /\ spyderData w = spyderData w0 /\ backend w = backend w0 /\
  usb_replies w = usb_replies w0 /\ usb_cursor w = (usb_cursor w0 + n)%nat /\
  ui_events w = ui_events w0 /\ ui_cursor w = ui_cursor w0 /\
  screen w = screen w0 /\ pygame_running w = pygame_running w0.

Definition consumed_upto (w0 : World) (n : nat) (w : World) : Prop :=
  exists k, (k <= n)%nat /\ consumed w0 k w.

(** An event that ends the wait of [wait_for_enter] with a confirmation: a
    mouse click or the Return key. *)
Definition confirms (ev : Event) : bool :=
  match ev with
  | MOUSEBUTTONDOWN => true
  | KEYDOWN key => key =? K_RETURN
  | _ => false
  end.

(** What [measure] computes from the four raw counts, and from the answer
    of the device that carries them behind its 5-byte header: the part of
    [measure] that follows the exchange with the device. *)
Definition adjust (cal : Calibration) (su : SetUp) (b : list Z) (raw : list Z)
  : result (vec3 float) :=
  d ← np_sub (py_slice raw 0 3) (map byteZ (py_slice (s3 su) 0 3));
  adjusted ← np_sub d b;
  adjusted3 ← first3 adjusted;
  Ok (np_dot_vec_mat adjusted3 (matrix cal)).

Definition xyz_of_frame (cal : Calibration) (su : SetUp) (b : list Z)
  (data : list byte) : result (vec3 float) :=
  raw ← unpack_HHHH (drop 5 data);
  adjust cal su b raw.

(** [ready], with the calibration, the setup block and the black counts
    named. *)
Definition ready_with (cal : Calibration) (su : SetUp) (b : list Z) (w : World)
  : Prop :=
  is_Some (dev w) /\
  isOpen (spyderData w) = Some true /\
  isBlackCal (spyderData w) = Some true /\
  calibration (spyderData w) = Some cal /\
  settUp (spyderData w) = Some su /\
  bcal (spyderData w) = Some b /\
  0 <= v2 cal < 65536 /\ 0 <= s1 su < 256 /\
  (3 <= length (s3 su) \/ length (s3 su) = 1)%nat /\ length b = 3%nat.

(** The colour that the loop body shows for a grid point. *)
Definition colour_of (resolution : Z) (p : Z * Z * Z) : Z * Z * Z :=
  (Z.quot (p.1.1 * 255) (resolution - 1),
   Z.quot (p.1.2 * 255) (resolution - 1),
   Z.quot (p.2 * 255) (resolution - 1)).

End DriverNotions.

(** ** [main] of [spyderx.py] *)

Section EntryPoint.
Context `{E : Externals}.

(** [try: m finally: f]: [f] runs whether [m] returns or raises, and the
    outcome of [m] stands unless [f] raises itself. *)
Definition try_finally {A : Type} (m : M A) (f : M unit) : M A := fun w =>
  match m w with
  | (r, w') =>
      match f w' with
      | (Ok _, w'') => (r, w'')
      | (Raise e, w'') => (Raise e, w'')
      end
  end.

(** The [while True] loop of [main]: measure, convert, print, sleep.  The
    loop ends by an exception only; the operator's Ctrl-C is taken to arrive
    during [time.sleep(2)] after [n] passes, and [main] catches it, so that
    the loop then ends without an error. *)
Fixpoint measure_loop (n : nat) : M unit :=
  match n with
  | O => mret tt
  | S n' =>
      xyz ← measure;
      let lms := xyz_to_lms xyz in
      measure_loop n'
  end.

(** [main()]: the session object is created outside the [try]; any other
    exception is printed and raised again; [close] is in the [finally]
    clause. *)
Definition main (n : nat) : M unit :=
  SpyderX;;
  try_finally
    (initialize ≫= fun ok : bool =>
     if ok then calibrate;; measure_loop n else mret tt)
    close.

End EntryPoint.

(** ** More scripted worlds *)

(** A session object with a device handle and nothing stored, in front of
    the given answers. *)
Definition handle_world (replies : list Reply) : @World Q_externals :=
  {| dev := Some SpyderXDevice; spyderData := empty_data; backend := true;
     usb_replies := script_replies replies fail_reply;
     usb_cursor := 0; usb_log := [];
     ui_events := no_events; ui_cursor := 0; screen := [];
     pygame_running := true |}.

(** The calibration block of [init_script]. *)
Definition calibration_block : list Z :=
  zeros_Z 5 ++ [0; 7; 1; 2]
  ++ one_f ++ two_f ++ half_f ++ two_f ++ one_f ++ two_f
  ++ half_f ++ two_f ++ one_f ++ [9; 0].

Definition calibration_world : @World Q_externals :=
  handle_world [ok_reply; data_reply calibration_block].

Definition ambient_world : @World Q_externals :=
  handle_world [ok_reply; data_reply (zeros_Z 5 ++ [1; 2; 3; 4; 5; 6])].

(** The session of the scenario, in front of a black frame and a
    measurement frame. *)
Definition two_frame_world : @World Q_externals :=
  {| dev := Some SpyderXDevice; spyderData := scenario_data lab_matrix;
     backend := true;
     usb_replies := script_replies (frame 15 25 20 0 ++ frame 100 200 150 0) fail_reply;
     usb_cursor := 0; usb_log := [];
     ui_events := no_events; ui_cursor := 0; screen := [];
     pygame_running := true |}.

(** The identifiers that [init_script] carries: zero bytes. *)
Definition nul_string (n : nat) : string :=
  string_of_list_byte (replicate n "000"%byte).

(** The operator lets one batch of events pass and then, in one batch,
    clicks and closes the window. *)
Definition quit_world : @World Q_externals :=
  new_world (script_replies init_script measure_reply)
    (fun n => match n with
              | O => [OtherEvent]
              | S _ => [MOUSEBUTTONDOWN; QUIT]
              end).

(** No device is plugged in, and the operator presses Return. *)
Definition no_device_return_world : @World Q_externals :=
  new_world (script_replies [] ok_reply) (fun _ => [KEYDOWN K_RETURN]).

(** The device answers, but its calibration block has 20 bytes only. *)
Definition short_calibration_world : @World Q_externals :=
  new_world (script_replies (take 12 init_script ++ [data_reply (zeros_Z 20)]) ok_reply)
    no_events.

(** ** [main] of [generate_lut.py] *)

Section LutEntryPoint.
Context `{E : Externals}.

(** What [main] has done when it ends: [save_lut] was called with a table
    and a file name, or it was not.  ([np.save] writes a file; the call is
    recorded in the result.) *)
Inductive MainOutcome : Type :=
| MainWaiting                    (* no answer at the prompt within [fuel] polls *)
| NotSaved
| Saved (filename : string) (table : gmap (Z * Z * Z) (vec3 float)).

(** [main()] after the command line is parsed: [lut = generate_lut(...)],
    then [if lut: save_lut(lut, filename=...)].  [None] and the empty
    dictionary are both false. *)
Definition lut_main (fuel : nat) (resolution : Z) (output_file : string)
  : M MainOutcome :=
  out ← generate_lut fuel resolution;
  match out with
  | StillWaiting => mret MainWaiting
  | ReturnNone => mret NotSaved
  | ReturnLut table =>
      if (size table =? 0)%nat then mret NotSaved
      else mret (Saved output_file table)
  end.

End LutEntryPoint.

(* ================================================================== *)
(** * Part II: properties *)
(* ================================================================== *)

(** ** Byte codec *)

Lemma byteZ_range (b : byte) : 0 <= byteZ b < 256.
Proof.
  unfold byteZ. pose proof (Byte.to_N_bounded b) as H.
  split; [apply N2Z.is_nonneg|].
  apply N.lt_succ_r in H. change (N.succ 255) with 256%N in H.
  apply N2Z.inj_lt in H. exact H.
Qed.

Lemma format_08b_bits (b : byte) : format_08b b = str_of_bits (bits8 b).
Proof. destruct b; reflexivity. Qed.

Lemma msb_val (b : byte) : Z.b2z (msb b) = byteZ b / 128.
Proof. destruct b; reflexivity. Qed.

Lemma low7_val (b : byte) : bits_val_from 0 (low7 b) = byteZ b mod 128.
Proof. destruct b; reflexivity. Qed.

Lemma bits8_val (b : byte) : bits_val_from 0 (bits8 b) = byteZ b.
Proof. destruct b; reflexivity. Qed.

Lemma bits_val_from_app (acc : Z) (l1 l2 : list bool) :
  bits_val_from acc (l1 ++ l2) = bits_val_from (bits_val_from acc l1) l2.
Proof. unfold bits_val_from. apply fold_left_app. Qed.

Lemma bits_val_from_shift (l : list bool) (acc : Z) :
  bits_val_from acc l = acc * 2 ^ Z.of_nat (length l) + bits_val_from 0 l.
Proof.
  revert acc. induction l as [|x l IH]; intros acc.
  - cbn. lia.
  - change (bits_val_from acc (x :: l)) with (bits_val_from (2 * acc + Z.b2z x) l).
    change (bits_val_from 0 (x :: l)) with (bits_val_from (2 * 0 + Z.b2z x) l).
    rewrite (IH (2 * acc + Z.b2z x)), (IH (2 * 0 + Z.b2z x)).
    rewrite length_cons, Nat2Z.inj_succ, Z.pow_succ_r by lia. lia.
Qed.

Lemma str_of_bits_app (l1 l2 : list bool) :
  str_of_bits (l1 ++ l2) = String.append (str_of_bits l1) (str_of_bits l2).
Proof. induction l1 as [|x l1 IH]; cbn; [reflexivity|]. now rewrite IH. Qed.

Lemma length_str_of_bits (l : list bool) :
  String.length (str_of_bits l) = length l.
Proof. induction l as [|x l IH]; cbn; [reflexivity|]. now rewrite IH. Qed.

Lemma substring_bits (l : list bool) (a n : nat) :
  substring a n (str_of_bits l) = str_of_bits (take n (drop a l)).
Proof.
  revert a n. induction l as [|x l IH]; intros a n.
  - destruct a, n; reflexivity.
  - destruct a as [|a].
    + destruct n as [|n]; [reflexivity|]. cbn. f_equal. apply (IH 0%nat n).
    + cbn. apply IH.
Qed.

Lemma digit_of_bit (x : bool) : digit_of (bit_char x) = Some (Z.b2z x).
Proof. destruct x; reflexivity. Qed.

Lemma int_base2_from_bits (l : list bool) (acc : Z) :
  int_base2_from acc (str_of_bits l) = Some (bits_val_from acc l).
Proof.
  revert acc. induction l as [|x l IH]; intros acc; [reflexivity|].
  cbn [str_of_bits int_base2_from]. rewrite digit_of_bit.
  replace (Z.b2z x <? 2) with true by (destruct x; reflexivity).
  apply IH.
Qed.

Lemma int_base2_bits (l : list bool) :
  l <> [] -> int_base2 (str_of_bits l) = Ok (bits_val_from 0 l).
Proof.
  intros Hl. destruct l as [|x l]; [congruence|].
  unfold int_base2. rewrite int_base2_from_bits. reflexivity.
Qed.

Lemma binary_bits (bs : list byte) :
  String.concat "" (map format_08b bs) = str_of_bits (flat_map bits8 bs).
Proof.
  induction bs as [|b bs IH]; [reflexivity|].
  cbn [map flat_map]. rewrite str_of_bits_app, <- IH, <- format_08b_bits.
  destruct bs as [|b' bs]; cbn [map String.concat].
  - generalize (format_08b b). intros s. induction s as [|c s IHs]; [reflexivity|].
    change (String c s = String c (String.append s "")). now rewrite <- IHs.
  - reflexivity.
Qed.

(** The three fields as [_read_IEEE754] reads them off the binary string,
    expressed on the values of the four input bytes. *)
Lemma read_IEEE754_fields (b0 b1 b2 b3 : byte) :
  _read_IEEE754 [b0; b1; b2; b3] =
  Ok (ieee_value (byteZ b3 / 128)
        (2 * (byteZ b3 mod 128) + byteZ b2 / 128)
        (65536 * (byteZ b2 mod 128) + 256 * byteZ b1 + byteZ b0)).
Proof.
  unfold _read_IEEE754. cbn [rev app]. rewrite binary_bits.
  set (L := flat_map bits8 [b3; b2; b1; b0]).
  assert (HL : L = msb b3 :: low7 b3 ++ (msb b2 :: low7 b2) ++ bits8 b1 ++ bits8 b0)
    by reflexivity.
  unfold str_slice, str_from. rewrite !substring_bits, length_str_of_bits.
  replace (take (9 - 1) (drop 1 L)) with (low7 b3 ++ [msb b2]) by reflexivity.
  replace (take (length L - 9) (drop 9 L)) with (low7 b2 ++ bits8 b1 ++ bits8 b0)
    by reflexivity.
  replace (str_index (str_of_bits L) 0) with (Ok (A:=ascii) (bit_char (msb b3)))
    by reflexivity.
  cbn [mbind result_bind]. unfold int_of_char. rewrite digit_of_bit.
  rewrite !int_base2_bits by (unfold low7; cbn; congruence).
  cbn [mbind result_bind]. f_equal.
  rewrite msb_val, !bits_val_from_app.
  rewrite low7_val.
  rewrite (bits_val_from_shift [msb b2]), (bits_val_from_shift (bits8 b0)),
    (bits_val_from_shift (bits8 b1)), low7_val, !bits8_val.
  change (bits_val_from 0 [msb b2]) with (2 * 0 + Z.b2z (msb b2)).
  rewrite msb_val.
  f_equal; cbn [length bits8 low7 map]; lia.
Qed.

(** *** Bit fields of the reversed word *)

Lemma lor_shiftl_add (hi lo n : Z) :
  0 <= n -> 0 <= lo < 2 ^ n -> Z.lor (Z.shiftl hi n) lo = hi * 2 ^ n + lo.
Proof.
  intros Hn Hlo.
  assert (Hdisj : Z.land (Z.shiftl hi n) lo = 0).
  { apply Z.bits_inj'. intros i Hi.
    rewrite Z.land_spec, Z.bits_0.
    destruct (Z.lt_ge_cases i n) as [Hlt|Hge].
    - rewrite Z.shiftl_spec_low by lia. reflexivity.
    - rewrite <- (Z.mod_small lo (2 ^ n)) by lia.
      rewrite Z.mod_pow2_bits_high by lia. apply andb_false_r. }
  pose proof (Z.add_lor_land (Z.shiftl hi n) lo) as H.
  rewrite Hdisj in H. rewrite <- (Z.shiftl_mul_pow2 hi n) by lia. lia.
Qed.

Lemma reversed_word_val (b0 b1 b2 b3 : byte) :
  reversed_word b0 b1 b2 b3 =
  byteZ b3 * 2 ^ 24 + byteZ b2 * 2 ^ 16 + byteZ b1 * 2 ^ 8 + byteZ b0.
Proof.
  pose proof (byteZ_range b0). pose proof (byteZ_range b1).
  pose proof (byteZ_range b2). pose proof (byteZ_range b3).
  unfold reversed_word.
  rewrite (lor_shiftl_add (byteZ b1) (byteZ b0) 8) by lia.
  rewrite (lor_shiftl_add (byteZ b2) _ 16) by lia.
  rewrite (lor_shiftl_add (byteZ b3) _ 24) by lia.
  lia.
Qed.

Lemma sign_field_val (b0 b1 b2 b3 : byte) :
  sign_field (reversed_word b0 b1 b2 b3) = byteZ b3 / 128.
Proof.
  pose proof (byteZ_range b0). pose proof (byteZ_range b1).
  pose proof (byteZ_range b2). pose proof (byteZ_range b3).
  unfold sign_field. rewrite reversed_word_val.
  rewrite Z.shiftr_div_pow2 by lia.
  change 1 with (Z.ones 1). rewrite Z.land_ones by lia.
  change (2 ^ 31) with 2147483648. change (2 ^ 24) with 16777216.
  change (2 ^ 16) with 65536. change (2 ^ 8) with 256. change (2 ^ 1) with 2.
  Z.div_mod_to_equations. lia.
Qed.

Lemma exponent_field_val (b0 b1 b2 b3 : byte) :
  exponent_field (reversed_word b0 b1 b2 b3) =
  2 * (byteZ b3 mod 128) + byteZ b2 / 128.
Proof.
  pose proof (byteZ_range b0). pose proof (byteZ_range b1).
  pose proof (byteZ_range b2). pose proof (byteZ_range b3).
  unfold exponent_field. rewrite reversed_word_val.
  rewrite Z.shiftr_div_pow2 by lia.
  change 255 with (Z.ones 8). rewrite Z.land_ones by lia.
  change (2 ^ 23) with 8388608. change (2 ^ 24) with 16777216.
  change (2 ^ 16) with 65536. change (2 ^ 8) with 256.
  Z.div_mod_to_equations. lia.
Qed.

Lemma fraction_field_val (b0 b1 b2 b3 : byte) :
  fraction_field (reversed_word b0 b1 b2 b3) =
  65536 * (byteZ b2 mod 128) + 256 * byteZ b1 + byteZ b0.
Proof.
  pose proof (byteZ_range b0). pose proof (byteZ_range b1).
  pose proof (byteZ_range b2). pose proof (byteZ_range b3).
  unfold fraction_field. rewrite reversed_word_val.
  change (2 ^ 23 - 1) with (Z.ones 23). rewrite Z.land_ones by lia.
  change (2 ^ 23) with 8388608. change (2 ^ 24) with 16777216.
  change (2 ^ 16) with 65536. change (2 ^ 8) with 256.
  Z.div_mod_to_equations. lia.
Qed.

Lemma read_IEEE754_spec (b0 b1 b2 b3 : byte) :
  _read_IEEE754 [b0; b1; b2; b3] = Ok (decodeReversedIEEE754_spec b0 b1 b2 b3).
Proof.
  rewrite read_IEEE754_fields. unfold decodeReversedIEEE754_spec.
  cbv zeta. rewrite sign_field_val, exponent_field_val, fraction_field_val.
  reflexivity.
Qed.

(** *** Range of the decoded values *)

Lemma Qpow2_pos (k : Z) : (0 < 2 ^ k)%Q.
Proof. apply Qpower_0_lt. reflexivity. Qed.

Lemma Qpow2_nonzero (k : Z) : ~ (2 ^ k == 0)%Q.
Proof. intros H. pose proof (Qpow2_pos k) as Hp. rewrite H in Hp. discriminate. Qed.

Lemma mantissa_range (fr : Z) :
  0 <= fr < 2 ^ 23 ->
  (1 <= 1 + inject_Z fr / inject_Z (2 ^ 23) /\
   1 + inject_Z fr / inject_Z (2 ^ 23) < 2)%Q.
Proof.
  intros [H0 H1].
  assert (Hm : (1 + inject_Z fr / inject_Z (2 ^ 23) ==
                inject_Z (2 ^ 23 + fr) / inject_Z (2 ^ 23))%Q).
  { rewrite inject_Z_plus. field. discriminate. }
  rewrite Hm. split.
  - apply Qle_shift_div_l; [reflexivity|]. rewrite Qmult_1_l.
    rewrite <- Zle_Qle. lia.
  - apply Qlt_shift_div_r; [reflexivity|].
    change (2 * inject_Z (2 ^ 23))%Q with (inject_Z (2 * 2 ^ 23)).
    rewrite <- Zlt_Qlt. lia.
Qed.

Lemma ieee_value_abs (s e fr : Z) :
  s = 0 \/ s = 1 -> 0 <= fr < 2 ^ 23 ->
  (Qabs (ieee_value s e fr) ==
   (1 + inject_Z fr / inject_Z (2 ^ 23)) * 2 ^ (e - 127))%Q.
Proof.
  intros Hs Hfr. destruct (mantissa_range fr Hfr) as [Hlo _].
  unfold ieee_value. cbv zeta. rewrite !Qabs_Qmult.
  rewrite (Qabs_pos (2 ^ (e - 127))) by (apply Qlt_le_weak, Qpow2_pos).
  rewrite (Qabs_pos (1 + _)) by (eapply Qle_trans; [|exact Hlo]; discriminate).
  destruct Hs as [-> | ->]; cbn [Qpower Qpower_positive]; rewrite Qmult_1_l; reflexivity.
Qed.

Lemma ieee_value_bounds (s e fr : Z) :
  s = 0 \/ s = 1 -> 0 <= fr < 2 ^ 23 ->
  (2 ^ (e - 127) <= Qabs (ieee_value s e fr) /\
   Qabs (ieee_value s e fr) < 2 ^ (e - 126))%Q.
Proof.
  intros Hs Hfr. rewrite (ieee_value_abs s e fr Hs Hfr).
  destruct (mantissa_range fr Hfr) as [Hlo Hhi]. split.
  - rewrite <- (Qmult_1_l (2 ^ (e - 127))) at 1.
    apply Qmult_le_compat_r; [exact Hlo|]. apply Qlt_le_weak, Qpow2_pos.
  - replace (e - 126) with (1 + (e - 127)) by lia.
    rewrite Qpower_plus by discriminate.
    apply Qmult_lt_compat_r; [apply Qpow2_pos|exact Hhi].
Qed.

Lemma ieee_value_scaled (s e fr : Z) :
  s = 0 \/ s = 1 ->
  (ieee_value s e fr == inject_Z ((1 - 2 * s) * (2 ^ 23 + fr)) * 2 ^ (e - 150))%Q.
Proof.
  intros Hs. unfold ieee_value. cbv zeta.
  replace (e - 127) with ((e - 150) + 23) by lia.
  rewrite Qpower_plus by discriminate.
  rewrite inject_Z_mult, inject_Z_plus.
  assert (H23 : (2 ^ 23 == inject_Z (2 ^ 23))%Q) by reflexivity.
  rewrite H23.
  destruct Hs as [-> | ->].
  - change ((-1) ^ 0)%Q with 1%Q. change (inject_Z (1 - 2 * 0)) with 1%Q.
    field. discriminate.
  - change ((-1) ^ 1)%Q with (-1)%Q. change (inject_Z (1 - 2 * 1)) with (-1)%Q.
    field. discriminate.
Qed.

(** The value that the decoder returns is a binary64 number, so the Python
    floating-point computation of [_read_IEEE754] is exact. *)
Lemma read_IEEE754_binary64 (s e fr : Z) :
  s = 0 \/ s = 1 -> 0 <= e <= 255 -> 0 <= fr < 2 ^ 23 ->
  is_binary64 (ieee_value s e fr).
Proof.
  intros Hs He Hfr.
  exists ((1 - 2 * s) * (2 ^ 23 + fr)), (e - 150). split; [|split].
  - change (2 ^ 23) with 8388608 in *. change (2 ^ 53) with 9007199254740992.
    destruct Hs as [-> | ->]; lia.
  - lia.
  - apply ieee_value_scaled, Hs.
Qed.

Lemma code_fields_range (b0 b1 b2 b3 : byte) :
  (byteZ b3 / 128 = 0 \/ byteZ b3 / 128 = 1) /\
  0 <= 2 * (byteZ b3 mod 128) + byteZ b2 / 128 <= 255 /\
  0 <= 65536 * (byteZ b2 mod 128) + 256 * byteZ b1 + byteZ b0 < 2 ^ 23.
Proof.
  pose proof (byteZ_range b0). pose proof (byteZ_range b1).
  pose proof (byteZ_range b2). pose proof (byteZ_range b3).
  change (2 ^ 23) with 8388608.
  repeat split; Z.div_mod_to_equations; lia.
Qed.

(** *** The encoder and the round trip *)

Lemma byteZ_byte_of_Z (z : Z) : byteZ (byte_of_Z z) = z mod 256.
Proof.
  unfold byte_of_Z, byteZ.
  assert (Hr : 0 <= z mod 256 < 256) by (apply Z.mod_pos_bound; lia).
  destruct (Byte.of_N (Z.to_N (z mod 256))) as [b|] eqn:Hb.
  - apply Byte.to_of_N in Hb. change (Z.of_N (Byte.to_N b) = z mod 256). rewrite Hb. lia.
  - apply Byte.of_N_None_iff in Hb. lia.
Qed.

Lemma byte_of_Z_byteZ (b : byte) : byte_of_Z (byteZ b) = b.
Proof.
  unfold byte_of_Z, byteZ. pose proof (byteZ_range b) as Hr. unfold byteZ in Hr.
  rewrite Z.mod_small by lia. rewrite N2Z.id, Byte.of_to_N. reflexivity.
Qed.

Lemma byte_of_Z_mod (z z' : Z) : z mod 256 = z' mod 256 -> byte_of_Z z = byte_of_Z z'.
Proof. unfold byte_of_Z. intros ->. reflexivity. Qed.

Lemma pack_fields_val (s e fr : Z) :
  0 <= e < 256 -> 0 <= fr < 2 ^ 23 ->
  pack_fields s e fr = s * 2 ^ 31 + e * 2 ^ 23 + fr.
Proof.
  intros He Hfr. unfold pack_fields.
  rewrite (lor_shiftl_add e fr 23) by lia.
  rewrite (lor_shiftl_add s _ 31); [lia|lia|].
  change (2 ^ 23) with 8388608 in *. change (2 ^ 31) with 2147483648. lia.
Qed.

Lemma read_encode_fields (s e fr : Z) :
  s = 0 \/ s = 1 -> 0 <= e <= 255 -> 0 <= fr < 2 ^ 23 ->
  _read_IEEE754 (encode_fields s e fr) = Ok (ieee_value s e fr).
Proof.
  intros Hs He Hfr. unfold encode_fields. cbv zeta. cbn [rev app].
  rewrite read_IEEE754_fields, !byteZ_byte_of_Z.
  rewrite pack_fields_val by lia.
  rewrite !Z.shiftr_div_pow2 by lia.
  change (2 ^ 23) with 8388608 in *. change (2 ^ 31) with 2147483648.
  change (2 ^ 24) with 16777216. change (2 ^ 16) with 65536.
  change (2 ^ 8) with 256.
  f_equal. f_equal.
  - destruct Hs as [-> | ->]; Z.div_mod_to_equations; lia.
  - destruct Hs as [-> | ->]; Z.div_mod_to_equations; lia.
  - destruct Hs as [-> | ->]; Z.div_mod_to_equations; lia.
Qed.

Lemma encode_fields_of_bytes (b0 b1 b2 b3 : byte) :
  encode_fields (byteZ b3 / 128)
    (2 * (byteZ b3 mod 128) + byteZ b2 / 128)
    (65536 * (byteZ b2 mod 128) + 256 * byteZ b1 + byteZ b0)
  = [b0; b1; b2; b3].
Proof.
  pose proof (byteZ_range b0). pose proof (byteZ_range b1).
  pose proof (byteZ_range b2). pose proof (byteZ_range b3).
  destruct (code_fields_range b0 b1 b2 b3) as (Hs & He & Hfr).
  unfold encode_fields. cbv zeta. cbn [rev app].
  rewrite pack_fields_val by lia.
  rewrite !Z.shiftr_div_pow2 by lia.
  change (2 ^ 23) with 8388608 in *. change (2 ^ 31) with 2147483648.
  change (2 ^ 24) with 16777216. change (2 ^ 16) with 65536.
  change (2 ^ 8) with 256.
  transitivity [byte_of_Z (byteZ b0); byte_of_Z (byteZ b1);
                byte_of_Z (byteZ b2); byte_of_Z (byteZ b3)];
    [|now rewrite !byte_of_Z_byteZ].
  repeat (apply (f_equal2 (@cons byte));
          [apply byte_of_Z_mod; Z.div_mod_to_equations; lia|]).
  reflexivity.
Qed.

Lemma Qdiv_Z_lt (a b c d : Z) :
  0 < b -> 0 < d -> a * d < c * b ->
  (inject_Z a / inject_Z b < inject_Z c / inject_Z d)%Q.
Proof.
  intros Hb Hd H.
  assert (Hb' : (0 < inject_Z b)%Q) by (rewrite (Zlt_Qlt 0 b) in Hb; exact Hb).
  assert (Hd' : (0 < inject_Z d)%Q) by (rewrite (Zlt_Qlt 0 d) in Hd; exact Hd).
  apply Qlt_shift_div_l; [exact Hd'|].
  assert (E : (inject_Z a / inject_Z b * inject_Z d ==
               inject_Z (a * d) / inject_Z b)%Q).
  { rewrite inject_Z_mult. field. intros E0. rewrite E0 in Hb'. discriminate. }
  rewrite E. apply Qlt_shift_div_r; [exact Hb'|].
  rewrite <- inject_Z_mult, <- Zlt_Qlt. exact H.
Qed.

Lemma Qpow2_minus (n m : Z) :
  0 <= n -> 0 <= m -> (2 ^ (n - m) == inject_Z (2 ^ n) / inject_Z (2 ^ m))%Q.
Proof.
  intros Hn Hm. rewrite Qpower_minus by discriminate.
  rewrite !Zpower_Qpower by lia. reflexivity.
Qed.

Lemma Qlog2_floor_spec (q : Q) :
  (0 < q)%Q ->
  (2 ^ Qlog2_floor q <= q /\ q < 2 ^ (Qlog2_floor q + 1))%Q.
Proof.
  intros Hq. destruct q as [n d].
  assert (Hn : 0 < n) by (unfold Qlt in Hq; cbn in Hq; lia).
  pose proof (Z.log2_nonneg n) as Hln. pose proof (Z.log2_nonneg (Zpos d)) as Hld.
  destruct (Z.log2_spec n Hn) as [Hn1 Hn2].
  destruct (Z.log2_spec (Zpos d) (Pos2Z.is_pos d)) as [Hd1 Hd2].
  assert (Hn1' : 0 < 2 ^ Z.log2 n) by (apply Z.pow_pos_nonneg; lia).
  assert (Hd1' : 0 < 2 ^ Z.log2 (Z.pos d)) by (apply Z.pow_pos_nonneg; lia).
  assert (Eq : (n # d == inject_Z n / inject_Z (Zpos d))%Q) by apply Qmake_Qdiv.
  set (k := Z.log2 n - Z.log2 (Zpos d)).
  assert (Hlow : (2 ^ (k - 1) < n # d)%Q).
  { replace (k - 1) with (Z.log2 n - Z.succ (Z.log2 (Zpos d))) by (unfold k; lia).
    rewrite Qpow2_minus, Eq by lia.
    apply Qdiv_Z_lt; [apply Z.pow_pos_nonneg; lia|lia|]. nia. }
  assert (Hhigh : (n # d < 2 ^ (k + 1))%Q).
  { replace (k + 1) with (Z.succ (Z.log2 n) - Z.log2 (Zpos d)) by (unfold k; lia).
    rewrite Qpow2_minus, Eq by lia.
    apply Qdiv_Z_lt; [lia|lia|]. nia. }
  unfold Qlog2_floor. cbn [Qnum Qden]. fold k.
  destruct (Qle_bool (2 ^ k) (n # d)) eqn:Hc.
  - split; [apply Qle_bool_iff, Hc|exact Hhigh].
  - split; [apply Qlt_le_weak, Hlow|].
    replace (k - 1 + 1) with k by lia.
    apply Qnot_le_lt. intros Hle. apply Qle_bool_iff in Hle. congruence.
Qed.

Lemma Qlog2_floor_unique (q : Q) (k : Z) :
  (2 ^ k <= q)%Q -> (q < 2 ^ (k + 1))%Q -> Qlog2_floor q = k.
Proof.
  intros H1 H2.
  assert (Hq : (0 < q)%Q) by (eapply Qlt_le_trans; [apply (Qpow2_pos k)|exact H1]).
  destruct (Qlog2_floor_spec q Hq) as [H3 H4].
  assert (Ha : Qlog2_floor q < k + 1).
  { apply (Qpower_lt_compat_l_inv 2); [|reflexivity].
    eapply Qle_lt_trans; [exact H3|exact H2]. }
  assert (Hb : k < Qlog2_floor q + 1).
  { apply (Qpower_lt_compat_l_inv 2); [|reflexivity].
    eapply Qle_lt_trans; [exact H1|exact H4]. }
  lia.
Qed.

Lemma ieee_value_pos (e fr : Z) :
  (ieee_value 0 e fr ==
   2 ^ (e - 127) + inject_Z fr * 2 ^ (e - 127) / inject_Z (2 ^ 23))%Q.
Proof.
  unfold ieee_value. cbv zeta. change ((-1) ^ 0)%Q with 1%Q. field. discriminate.
Qed.

Lemma ieee_value_neg (e fr : Z) : (ieee_value 1 e fr == - ieee_value 0 e fr)%Q.
Proof.
  unfold ieee_value. cbv zeta.
  change ((-1) ^ 0)%Q with 1%Q. change ((-1) ^ 1)%Q with (-1)%Q. ring.
Qed.

Lemma float_fields_of_value (s e fr : Z) :
  s = 0 \/ s = 1 -> 0 <= fr < 2 ^ 23 ->
  float_fields (ieee_value s e fr) = (s, e, fr).
Proof.
  intros Hs Hfr.
  pose proof (ieee_value_abs s e fr Hs Hfr) as Habs.
  destruct (ieee_value_bounds s e fr Hs Hfr) as [Hlo Hhi].
  destruct (mantissa_range fr Hfr) as [Hm _].
  pose proof (Qpow2_pos (e - 127)) as Hp.
  assert (Hk : Qlog2_floor (Qabs (ieee_value s e fr)) = e - 127).
  { apply Qlog2_floor_unique; [exact Hlo|].
    replace (e - 127 + 1) with (e - 126) by lia. exact Hhi. }
  assert (Hv0 : (0 < ieee_value 0 e fr)%Q).
  { rewrite <- (Qabs_pos (ieee_value 0 e fr)).
    - eapply Qlt_le_trans; [exact Hp|].
      apply (ieee_value_bounds 0 e fr); [now left|exact Hfr].
    - unfold ieee_value. cbv zeta. change ((-1) ^ 0)%Q with 1%Q.
      rewrite Qmult_1_l. apply Qmult_le_0_compat; [lra|lra]. }
  unfold float_fields. rewrite Hk.
  f_equal; [f_equal|].
  - destruct Hs as [-> | ->].
    + replace (Qle_bool 0 (ieee_value 0 e fr)) with true; [reflexivity|].
      symmetry. apply Qle_bool_iff. lra.
    + destruct (Qle_bool 0 (ieee_value 1 e fr)) eqn:Hc; [|reflexivity].
      apply Qle_bool_iff in Hc. rewrite ieee_value_neg in Hc. lra.
  - lia.
  - assert (E : ((Qabs (ieee_value s e fr) / 2 ^ (e - 127) - 1) * inject_Z (2 ^ 23)
                 == inject_Z fr)%Q).
    { rewrite Habs. field. split; [discriminate|apply Qpow2_nonzero]. }
    rewrite E. apply Qfloor_Z.
Qed.

Lemma float_fields_ok (f : Q) :
  encodable f ->
  exists s e fr : Z,
    float_fields f = (s, e, fr) /\
    (s = 0 \/ s = 1) /\ 0 <= e <= 255 /\ 0 <= fr < 2 ^ 23 /\
    (Qabs (ieee_value s e fr - f) < Qabs f * 2 ^ (-23))%Q.
Proof.
  intros [Henc1 Henc2].
  set (a := Qabs f) in *.
  assert (Ha : (0 < a)%Q) by (eapply Qlt_le_trans; [apply (Qpow2_pos (-127))|exact Henc1]).
  destruct (Qlog2_floor_spec a Ha) as [Hk1 Hk2].
  set (k := Qlog2_floor a) in *.
  assert (Hkr : -127 <= k <= 128).
  { split.
    - assert (-127 < k + 1); [|lia].
      apply (Qpower_lt_compat_l_inv 2); [|reflexivity].
      eapply Qle_lt_trans; [exact Henc1|exact Hk2].
    - assert (k < 129); [|lia].
      apply (Qpower_lt_compat_l_inv 2); [|reflexivity].
      eapply Qle_lt_trans; [exact Hk1|exact Henc2]. }
  pose proof (Qpow2_pos k) as Hp.
  assert (Hp2 : (2 ^ (k + 1) == 2 * 2 ^ k)%Q).
  { rewrite Qpower_plus by discriminate. change (2 ^ 1)%Q with 2%Q. ring. }
  rewrite Hp2 in Hk2.
  set (c := inject_Z (2 ^ 23)).
  assert (Hc : (c == 8388608)%Q) by reflexivity.
  set (y := ((a / 2 ^ k - 1) * c)%Q).
  set (fr := Qfloor y).
  pose proof (Qfloor_le y) as Hf1. pose proof (Qlt_floor y) as Hf2.
  fold fr in Hf1, Hf2. rewrite inject_Z_plus in Hf2.
  change (inject_Z 1) with 1%Q in Hf2.
  assert (Hx : (a / 2 ^ k * 2 ^ k == a)%Q) by (field; apply Qpow2_nonzero).
  set (p := (2 ^ k)%Q) in *. set (x := (a / p)%Q) in *.
  assert (Hx1 : (1 <= x)%Q).
  { apply Qle_shift_div_l; [exact Hp|]. lra. }
  assert (Hx2 : (x < 2)%Q).
  { apply Qlt_shift_div_r; [exact Hp|]. lra. }
  assert (Hy1 : (0 <= y)%Q) by (unfold y; nra).
  assert (Hy2 : (y < c)%Q) by (unfold y; nra).
  assert (Hfr : 0 <= fr < 2 ^ 23).
  { split.
    - change 0 with (Qfloor 0). apply Qfloor_resp_le. exact Hy1.
    - rewrite Zlt_Qlt. fold c. lra. }
  set (T := (inject_Z fr * p)%Q).
  assert (HT1 : (T <= (a - p) * c)%Q).
  { unfold T. assert (H : (inject_Z fr * p <= y * p)%Q)
      by (apply Qmult_le_compat_r; [exact Hf1|lra]).
    assert (E : (y * p == (a - p) * c)%Q).
    { unfold y. rewrite <- Hx. ring. }
    rewrite E in H. exact H. }
  assert (HT2 : ((a - p) * c < T + p)%Q).
  { unfold T. assert (H : (y * p < (inject_Z fr + 1) * p)%Q)
      by (apply Qmult_lt_compat_r; [exact Hp|exact Hf2]).
    assert (E : (y * p == (a - p) * c)%Q).
    { unfold y. rewrite <- Hx. ring. }
    rewrite E in H. lra. }
  assert (Heps : (2 ^ (-23) == 1 / c)%Q) by reflexivity.
  assert (Hval : (ieee_value 0 (k + 127) fr == p + T / c)%Q).
  { rewrite ieee_value_pos. replace (k + 127 - 127) with k by lia.
    fold p c. unfold T. reflexivity. }
  assert (Hdiv : (T / c * c == T)%Q) by (field; rewrite Hc; discriminate).
  assert (Hdiv2 : (a * (1 / c) * c == a)%Q) by (field; rewrite Hc; discriminate).
  set (u := (T / c)%Q) in *. set (w := (a * (1 / c))%Q) in *.
  destruct (Qle_bool 0 f) eqn:Hsign.
  - exists 0, (k + 127), fr. split; [|split; [|split; [|split]]].
    + unfold float_fields. fold a. fold k. fold p. fold c. fold x. fold y. fold fr.
      rewrite Hsign. reflexivity.
    + now left.
    + lia.
    + exact Hfr.
    + apply Qle_bool_iff in Hsign.
      assert (Haf : (a == f)%Q) by (unfold a; apply Qabs_pos; exact Hsign).
      rewrite Heps. fold w. rewrite Hval.
      apply Qabs_diff_Qlt_condition. rewrite <- Haf. split; nra.
  - exists 1, (k + 127), fr. split; [|split; [|split; [|split]]].
    + unfold float_fields. fold a. fold k. fold p. fold c. fold x. fold y. fold fr.
      rewrite Hsign. reflexivity.
    + now right.
    + lia.
    + exact Hfr.
    + assert (Hneg : (f <= 0)%Q).
      { apply Qlt_le_weak, Qnot_le_lt. intros Hle.
        apply Qle_bool_iff in Hle. congruence. }
      assert (Haf : (a == - f)%Q) by (unfold a; apply Qabs_neg; exact Hneg).
      rewrite Heps. fold w. rewrite ieee_value_neg, Hval.
      apply Qabs_diff_Qlt_condition.
      assert (Hf : (f == - a)%Q) by (rewrite Haf; ring).
      rewrite Hf. split; nra.
Qed.

(** ** The decoder of reversed floats: the claims *)

(** C7: for every 4-byte input the decoder reverses the byte order and
    evaluates (-1)^sign * (1 + fraction/2^23) * 2^(exponent-127) on the 1-bit
    sign, the 8-bit exponent and the 23-bit fraction of the resulting word;
    it is the inverse of the encoder: encoding a decoded value gives the four
    bytes back (so decoding that again gives the same value), and for every
    number [f] that the format can hold, [decode (encode f)] is [f] within
    float32 precision (relative error below 2^-23). *)
Theorem decodeReversedIEEE754_roundtrip :
  (forall b0 b1 b2 b3 : byte,
     _read_IEEE754 [b0; b1; b2; b3] = Ok (decodeReversedIEEE754_spec b0 b1 b2 b3) /\
     encodeReversedIEEE754 (decodeReversedIEEE754_spec b0 b1 b2 b3) = [b0; b1; b2; b3]) /\
  (forall f : Q, encodable f ->
     exists v : Q,
       _read_IEEE754 (encodeReversedIEEE754 f) = Ok v /\
       (Qabs (v - f) < Qabs f * 2 ^ (-23))%Q).
Proof.
  split.
  - intros b0 b1 b2 b3. split; [apply read_IEEE754_spec|].
    destruct (code_fields_range b0 b1 b2 b3) as (Hs & He & Hfr).
    assert (Hspec : decodeReversedIEEE754_spec b0 b1 b2 b3 =
                    ieee_value (byteZ b3 / 128)
                      (2 * (byteZ b3 mod 128) + byteZ b2 / 128)
                      (65536 * (byteZ b2 mod 128) + 256 * byteZ b1 + byteZ b0)).
    { unfold decodeReversedIEEE754_spec. cbv zeta.
      rewrite sign_field_val, exponent_field_val, fraction_field_val.
      reflexivity. }
    rewrite Hspec. unfold encodeReversedIEEE754.
    rewrite float_fields_of_value by assumption.
    apply encode_fields_of_bytes.
  - intros f Hf.
    destruct (float_fields_ok f Hf) as (s & e & fr & Hff & Hs & He & Hfr & Herr).
    exists (ieee_value s e fr). split; [|exact Herr].
    unfold encodeReversedIEEE754. rewrite Hff.
    apply read_encode_fields; assumption.
Qed.

(** C9: for every 4-byte input the decoder returns a nonzero finite number
    (a binary64 value) whose absolute value lies in [2^-127, 2^129); it never
    returns 0.0, a NaN or an infinity, and the all-zero bytes decode to
    2^-127. *)
Theorem read_IEEE754_never_zero :
  (forall b0 b1 b2 b3 : byte,
     exists v : Q,
       _read_IEEE754 [b0; b1; b2; b3] = Ok v /\
       ~ (v == 0)%Q /\
       (2 ^ (-127) <= Qabs v)%Q /\ (Qabs v < 2 ^ 129)%Q /\
       is_binary64 v) /\
  (exists v : Q,
     _read_IEEE754 ["000"%byte; "000"%byte; "000"%byte; "000"%byte] = Ok v /\
     (v == 2 ^ (-127))%Q).
Proof.
  split.
  - intros b0 b1 b2 b3.
    destruct (code_fields_range b0 b1 b2 b3) as (Hs & He & Hfr).
    eexists. split; [apply read_IEEE754_fields|].
    destruct (ieee_value_bounds _ (2 * (byteZ b3 mod 128) + byteZ b2 / 128) _ Hs Hfr)
      as [Hlo Hhi].
    set (e := 2 * (byteZ b3 mod 128) + byteZ b2 / 128) in *.
    set (v := ieee_value _ e _) in *.
    assert (Hmin : (2 ^ (-127) <= Qabs v)%Q).
    { eapply Qle_trans; [|exact Hlo].
      apply Qpower_le_compat_l; [lia|discriminate]. }
    split; [|split; [exact Hmin|split]].
    + intros Hz. rewrite Hz in Hmin. vm_compute in Hmin. apply Hmin. reflexivity.
    + eapply Qlt_le_trans; [exact Hhi|].
      apply Qpower_le_compat_l; [lia|discriminate].
    + apply read_IEEE754_binary64; [exact Hs|lia|exact Hfr].
  - eexists. split; [apply read_IEEE754_fields|]. reflexivity.
Qed.

(** ** The session *)

Section SessionFacts.
Context `{E : Externals}.

(** ** The session *)


Lemma bind_ok {A B : Type} (m : M A) (f : A -> M B) (w w' : World) (a : A) :
  m w = (Ok a, w') -> (m ≫= f) w = f a w'.
Proof. intros H. unfold mbind, M_bind. rewrite H. reflexivity. Qed.

Lemma bind_raise {A B : Type} (m : M A) (f : A -> M B) (w w' : World) (e : exn) :
  m w = (Raise e, w') -> (m ≫= f) w = (Raise e, w').
Proof. intros H. unfold mbind, M_bind. rewrite H. reflexivity. Qed.

Lemma get_flag_eq (field : SpyderData -> option bool) (w : World) :
  get_flag field w = (Ok (default false (field (spyderData w))), w).
Proof. reflexivity. Qed.

Lemma measure_not_open (w : World) :
  default false (isOpen (spyderData w)) = false ->
  measure w = (Raise (ValueError "SpyderX not initialized"), w).
Proof.
  intros H. unfold measure.
  rewrite (bind_ok _ _ w w false) by (rewrite get_flag_eq, H; reflexivity).
  reflexivity.
Qed.

Lemma measure_not_calibrated (w : World) :
  default false (isOpen (spyderData w)) = true ->
  default false (isBlackCal (spyderData w)) = false ->
  measure w = (Raise (ValueError "Black calibration not performed"), w).
Proof.
  intros H1 H2. unfold measure.
  rewrite (bind_ok _ _ w w true) by (rewrite get_flag_eq, H1; reflexivity).
  cbn [negb].
  rewrite (bind_ok _ _ w w tt) by reflexivity.
  rewrite (bind_ok _ _ w w false) by (rewrite get_flag_eq, H2; reflexivity).
  reflexivity.
Qed.

Lemma close_eq (w : World) : close w = (Ok tt, closed_world w).
Proof.
  unfold close, closed_world.
  rewrite (bind_ok _ _ w w w) by reflexivity.
  destruct (dev w) as [d|] eqn:Hd; reflexivity.
Qed.

Lemma closed_world_data (w : World) :
  spyderData (closed_world w) = set_isOpen false (spyderData w).
Proof. unfold closed_world. destruct (dev w); reflexivity. Qed.

Lemma closed_world_dev (w : World) : dev (closed_world w) = dev w.
Proof. unfold closed_world. destruct (dev w) eqn:Hd; cbn; exact Hd. Qed.

(** *** Rules *)

Lemma triple_conseq {A : Type} (P P' : World -> Prop) (m : M A)
  (Q Q' : A -> World -> Prop) (X X' : exn -> World -> Prop) :
  triple P m Q X ->
  (forall w, P' w -> P w) ->
  (forall a w, Q a w -> Q' a w) ->
  (forall e w, X e w -> X' e w) ->
  triple P' m Q' X'.
Proof.
  intros H HP HQ HX w Hw. specialize (H w (HP w Hw)).
  destruct (m w) as [[a|e] w']; auto.
Qed.

Lemma triple_ret {A : Type} (P : World -> Prop) (a : A)
  (Q : A -> World -> Prop) (X : exn -> World -> Prop) :
  (forall w, P w -> Q a w) -> triple P (mret a) Q X.
Proof. intros H w Hw. apply H, Hw. Qed.

Lemma triple_bind {A B : Type} (P : World -> Prop) (m : M A) (f : A -> M B)
  (Q1 : A -> World -> Prop) (Q : B -> World -> Prop) (X : exn -> World -> Prop) :
  triple P m Q1 X ->
  (forall a, triple (Q1 a) (f a) Q X) ->
  triple P (m ≫= f) Q X.
Proof.
  intros Hm Hf w Hw. specialize (Hm w Hw).
  unfold mbind, M_bind. destruct (m w) as [[a|e] w'].
  - apply (Hf a w' Hm).
  - exact Hm.
Qed.

Lemma triple_try {A : Type} (P : World -> Prop) (m : M A)
  (h : exn -> option (M A)) (Q : A -> World -> Prop)
  (X1 X : exn -> World -> Prop) :
  triple P m Q X1 ->
  (forall e, match h e with
             | Some k => triple (X1 e) k Q X
             | None => forall w, X1 e w -> X e w
             end) ->
  triple P (try_except m h) Q X.
Proof.
  intros Hm Hh w Hw. specialize (Hm w Hw).
  unfold try_except. destruct (m w) as [[a|e] w'].
  - exact Hm.
  - specialize (Hh e). destruct (h e) as [k|].
    + apply (Hh w' Hm).
    + apply (Hh w' Hm).
Qed.

Lemma inv_ret {A : Type} (J : World -> Prop) (a : A) : inv_step J (mret a).
Proof. apply triple_ret. auto. Qed.

Lemma inv_bind {A B : Type} (J : World -> Prop) (m : M A) (f : A -> M B) :
  inv_step J m -> (forall a, inv_step J (f a)) -> inv_step J (m ≫= f).
Proof. intros Hm Hf. eapply triple_bind; [exact Hm|exact Hf]. Qed.

Lemma inv_try {A : Type} (J : World -> Prop) (m : M A) (h : exn -> option (M A)) :
  inv_step J m -> (forall e k, h e = Some k -> inv_step J k) ->
  inv_step J (try_except m h).
Proof.
  intros Hm Hh. eapply triple_try; [exact Hm|].
  intros e. destruct (h e) as [k|] eqn:He; [apply (Hh e k He)|auto].
Qed.

Lemma inv_lift {A : Type} (J : World -> Prop) (r : result A) : inv_step J (lift r).
Proof. intros w Hw. unfold lift. destruct r; exact Hw. Qed.

Lemma inv_raise {A : Type} (J : World -> Prop) (e : exn) : inv_step J (raise (A:=A) e).
Proof. intros w Hw. exact Hw. Qed.

Lemma inv_lookup_key {A : Type} (J : World -> Prop) (key : string)
  (field : SpyderData -> option A) : inv_step J (lookup_key key field).
Proof. intros w Hw. unfold lookup_key. destruct (field (spyderData w)); exact Hw. Qed.

Lemma inv_modify (J : World -> Prop) (f : World -> World) :
  (forall w, J w -> J (f w)) -> inv_step J (modify f).
Proof. intros H w Hw. exact (H w Hw). Qed.

Lemma inv_usb_call (J : World -> Prop) (c : UsbCall) :
  usb_stable J -> inv_step J (usb_call c).
Proof.
  intros HJ w Hw. unfold usb_call.
  destruct (r_ok (usb_replies w (usb_cursor w))); apply HJ, Hw.
Qed.

Lemma inv_dev_call (J : World -> Prop) (c : UsbCall) :
  usb_stable J -> inv_step J (dev_call c).
Proof.
  intros HJ w Hw. unfold dev_call. destruct (dev w); [|exact Hw].
  apply (inv_usb_call J c HJ w Hw).
Qed.

Lemma inv_control_transfer (J : World -> Prop) (a b c d : Z) :
  usb_stable J -> inv_step J (_control_transfer a b c d).
Proof.
  intros HJ. apply inv_bind; [apply inv_dev_call, HJ|]. intros _. apply inv_ret.
Qed.

Lemma inv_bulk_transfer (J : World -> Prop) (cmd : list Z) (n : Z) :
  usb_stable J -> inv_step J (_bulk_transfer cmd n).
Proof.
  intros HJ. apply inv_bind; [apply inv_dev_call, HJ|]. intros _.
  apply inv_bind; [apply inv_dev_call, HJ|]. intros r. apply inv_ret.
Qed.

Lemma inv_decode_str (J : World -> Prop) (bs : list byte) : inv_step J (decode_str bs).
Proof. unfold decode_str. destruct (utf8_decode bs); [apply inv_ret|apply inv_raise]. Qed.

Lemma inv_update_data (J : World -> Prop) (f : SpyderData -> SpyderData) :
  data_stable J f -> inv_step J (update_data f).
Proof. intros H. apply inv_modify. exact H. Qed.

Lemma triple_step {A B : Type} (K : World -> Prop) (m : M A) (f : A -> M B)
  (Q : B -> World -> Prop) (X : exn -> World -> Prop) :
  inv_step K m ->
  (forall e w, K w -> X e w) ->
  (forall a, triple K (f a) Q X) ->
  triple K (m ≫= f) Q X.
Proof.
  intros Hm HX Hf. eapply triple_bind; [|exact Hf].
  eapply triple_conseq; [exact Hm| | |]; auto.
Qed.

Lemma triple_lookup_key {A : Type} (P : World -> Prop) (key : string)
  (field : SpyderData -> option A) :
  triple P (lookup_key key field)
    (fun a w => P w /\ field (spyderData w) = Some a)
    (fun e w => P w /\ e = KeyError key /\ field (spyderData w) = None).
Proof.
  intros w Hw. unfold lookup_key.
  destruct (field (spyderData w)) eqn:Hf; auto.
Qed.

(** *** [initialize] *)

Ltac frame_solve :=
  unfold init_inv, env_frame, cal_frame, open_frame in *; cbn in *;
  intuition (try lia; try congruence).

Lemma init_inv_refl (w : World) : init_inv w w.
Proof. frame_solve. Qed.

Lemma init_inv_usb (w0 : World) : usb_stable (init_inv w0).
Proof. intros c n w H. frame_solve. Qed.

Lemma init_inv_dev (w0 : World) (d : option UsbDevice) (w : World) :
  init_inv w0 w -> init_inv w0 (with_dev d w).
Proof. intros H. frame_solve. Qed.

Lemma init_dev_inv_usb (w0 : World) (u : UsbDevice) : usb_stable (init_dev_inv w0 u).
Proof. intros c n w [H Hd]. split; [apply init_inv_usb, H|exact Hd]. Qed.

Lemma init_dev_inv_HWvn w0 u s : data_stable (init_dev_inv w0 u) (set_HWvn s).
Proof. intros w [H Hd]. split; [frame_solve|exact Hd]. Qed.

Lemma init_dev_inv_serNo w0 u s : data_stable (init_dev_inv w0 u) (set_serNo s).
Proof. intros w [H Hd]. split; [frame_solve|exact Hd]. Qed.

Lemma init_dev_inv_calibration w0 u c :
  data_stable (init_dev_inv w0 u) (set_calibration c).
Proof. intros w [H Hd]. split; [frame_solve|exact Hd]. Qed.

Lemma init_dev_inv_amb w0 u a : data_stable (init_dev_inv w0 u) (set_amb a).
Proof. intros w [H Hd]. split; [frame_solve|exact Hd]. Qed.

Lemma inv_get_hardware_version (J : World -> Prop) :
  usb_stable J -> (forall s, data_stable J (set_HWvn s)) ->
  inv_step J _get_hardware_version.
Proof.
  intros HU HD. unfold _get_hardware_version.
  apply inv_bind; [apply inv_bulk_transfer, HU|]. intros out.
  apply inv_bind; [apply inv_decode_str|]. intros s.
  apply inv_update_data, HD.
Qed.

Lemma inv_get_serial_number (J : World -> Prop) :
  usb_stable J -> (forall s, data_stable J (set_serNo s)) ->
  inv_step J _get_serial_number.
Proof.
  intros HU HD. unfold _get_serial_number.
  apply inv_bind; [apply inv_bulk_transfer, HU|]. intros out.
  apply inv_bind; [apply inv_decode_str|]. intros s.
  apply inv_update_data, HD.
Qed.

Lemma inv_get_factory_calibration (J : World -> Prop) :
  usb_stable J -> (forall c, data_stable J (set_calibration c)) ->
  inv_step J _get_factory_calibration.
Proof.
  intros HU HD. unfold _get_factory_calibration.
  apply inv_bind; [apply inv_bulk_transfer, HU|]. intros out. cbv zeta.
  repeat (apply inv_bind; [apply inv_lift|]; intros ?).
  apply inv_update_data, HD.
Qed.

Lemma inv_get_amb_measure (J : World -> Prop) :
  usb_stable J -> (forall a, data_stable J (set_amb a)) ->
  inv_step J _get_amb_measure.
Proof.
  intros HU HD. unfold _get_amb_measure.
  apply inv_bind; [apply inv_bulk_transfer, HU|]. intros out.
  apply inv_bind; [apply inv_lift|]. intros a.
  apply inv_update_data, HD.
Qed.

Lemma inv_configure (J : World -> Prop) :
  usb_stable J ->
  inv_step J (try_except (dev_call SetConfiguration;; mret tt)
                (only_USBError (mret tt))).
Proof.
  intros HU. apply inv_try.
  - apply inv_bind; [apply inv_dev_call, HU|]. intros _. apply inv_ret.
  - intros e k He. destruct e; cbn in He; try discriminate.
    injection He as <-. apply inv_ret.
Qed.

Lemma inv_claim (J : World -> Prop) :
  usb_stable J ->
  inv_step J (try_except
    (r ← dev_call (IsKernelDriverActive 0);
     (if r_flag r then dev_call (DetachKernelDriver 0);; mret tt else mret tt);;
     dev_call (ClaimInterface 0);; mret tt) swallow).
Proof.
  intros HU. apply inv_try.
  - apply inv_bind; [apply inv_dev_call, HU|]. intros r.
    apply inv_bind.
    + destruct (r_flag r); [|apply inv_ret].
      apply inv_bind; [apply inv_dev_call, HU|]. intros _. apply inv_ret.
    + intros _. apply inv_bind; [apply inv_dev_call, HU|]. intros _. apply inv_ret.
  - intros e k He. destruct e; cbn in He; try discriminate;
      injection He as <-; apply inv_ret.
Qed.

Lemma setup_measurement_spec (w0 : World) (u : UsbDevice) :
  triple (init_dev_inv w0 u) _setup_measurement
    (fun _ w => env_frame w0 w /\ cal_frame w0 w /\ dev w = Some u /\
                is_Some (calibration (spyderData w)) /\
                is_Some (settUp (spyderData w)))
    (fun _ w => init_dev_inv w0 u w).
Proof.
  unfold _setup_measurement.
  eapply triple_bind.
  { eapply triple_conseq; [apply (triple_lookup_key (init_dev_inv w0 u))| | |];
      [auto|intros a w H; exact H|intros e w [H _]; exact H]. }
  intros cal. cbv beta.
  set (K := fun w => init_dev_inv w0 u w /\ calibration (spyderData w) = Some cal).
  assert (HK : usb_stable K).
  { intros c n w [H Hc]. split; [apply init_dev_inv_usb, H|exact Hc]. }
  change (triple K
    (out ← _bulk_transfer [195; 41; 39; 0; 1; v1 cal] 15;
     x ← lift (py_index out 5);
     update_data (set_settUp {| s1 := byteZ x; s2 := py_slice out 6 10;
                                s3 := py_slice out 10 14 |}))
    (fun _ w => env_frame w0 w /\ cal_frame w0 w /\ dev w = Some u /\
                is_Some (calibration (spyderData w)) /\
                is_Some (settUp (spyderData w)))
    (fun _ w => init_dev_inv w0 u w)).
  apply triple_step; [apply inv_bulk_transfer, HK|intros e w [H _]; exact H|].
  intros out.
  apply triple_step; [apply inv_lift|intros e w [H _]; exact H|].
  intros x. intros w [[H Hd] Hc]. cbn.
  repeat split; try (frame_solve; fail); try exact Hd.
  - rewrite Hc. eauto.
  - eauto.
Qed.

Lemma initialize_spec (w0 : World) :
  triple (eq w0) initialize (init_post w0) (init_exn w0).
Proof.
  unfold initialize.
  eapply (triple_try _ _ _ _ (fun _ => init_inv w0)).
  - eapply triple_bind.
    { eapply (triple_conseq (init_inv w0)).
      - unfold usb_find. apply inv_bind; [apply inv_usb_call, init_inv_usb|].
        intros r. apply inv_ret.
      - intros w <-. apply init_inv_refl.
      - intros a w H. exact H.
      - intros e w H. exact H. }
    intros d. cbv beta.
    eapply (triple_bind _ _ _ (fun _ w => init_inv w0 w /\ dev w = d)).
    { intros w H. cbn. split; [apply init_inv_dev, H|reflexivity]. }
    intros _. destruct d as [u|].
    + change (fun w => init_inv w0 w /\ dev w = Some u) with (init_dev_inv w0 u).
      pose proof (init_dev_inv_usb w0 u) as HU.
      apply triple_step; [apply inv_configure, HU|intros e w [H _]; exact H|intros _].
      apply triple_step; [apply inv_claim, HU|intros e w [H _]; exact H|intros _].
      do 3 (apply triple_step;
            [apply inv_control_transfer, HU|intros e w [H _]; exact H|intros _]).
      apply triple_step;
        [apply inv_get_hardware_version; [exact HU|apply init_dev_inv_HWvn]
        |intros e w [H _]; exact H|intros _].
      apply triple_step;
        [apply inv_get_serial_number; [exact HU|apply init_dev_inv_serNo]
        |intros e w [H _]; exact H|intros _].
      apply triple_step;
        [apply inv_get_factory_calibration; [exact HU|apply init_dev_inv_calibration]
        |intros e w [H _]; exact H|intros _].
      apply triple_step;
        [apply inv_get_amb_measure; [exact HU|apply init_dev_inv_amb]
        |intros e w [H _]; exact H|intros _].
      eapply triple_bind.
      { eapply triple_conseq; [apply (setup_measurement_spec w0 u)| | |];
          [auto|intros a w H; exact H|intros e w [H _]; exact H]. }
      intros x. cbv beta.
      intros w (Hf & Hc & Hd & Hcal & Hset).
      unfold init_post, mbind, M_bind, update_data, modify, mret, M_ret. cbn.
      split; [frame_solve|]. split; [frame_solve|].
      split; [reflexivity|]. split; [rewrite Hd; eauto|].
      split; [exact Hcal|exact Hset].
    + apply triple_ret. intros w [H _]. exact H.
  - intros e. destruct e; cbn; try (intros w H; split; [exact H|discriminate]).
    apply triple_ret. intros w H. exact H.
Qed.

Lemma initialize_no_device (w : World) :
  r_ok (usb_replies w (usb_cursor w)) = true ->
  r_flag (usb_replies w (usb_cursor w)) = false ->
  initialize w = (Ok false, with_dev None (with_usb (Find 0x085C 0x0A00) 1 w)).
Proof.
  intros Hok Hflag.
  unfold initialize, try_except, usb_find, usb_call, mbind, M_bind.
  rewrite Hok, Hflag. reflexivity.
Qed.

(** *** One acquisition *)

Lemma control_transfer_ok (w : World) (u : UsbDevice) (a b c d : Z) :
  dev w = Some u -> r_ok (usb_replies w (usb_cursor w)) = true ->
  _control_transfer a b c d w = (Ok tt, with_usb (CtrlTransfer a b c d) 1 w).
Proof.
  intros Hd Hok. unfold _control_transfer, dev_call, usb_call, mbind, M_bind.
  rewrite Hd, Hok. reflexivity.
Qed.

Lemma control_transfer_fail (w : World) (u : UsbDevice) (a b c d : Z) :
  dev w = Some u -> r_ok (usb_replies w (usb_cursor w)) = false ->
  _control_transfer a b c d w = (Raise USBError, with_usb (CtrlTransfer a b c d) 1 w).
Proof.
  intros Hd Hok. unfold _control_transfer, dev_call, usb_call, mbind, M_bind.
  rewrite Hd, Hok. reflexivity.
Qed.

Lemma control_transfer_no_device (w : World) (a b c d : Z) :
  dev w = None -> _control_transfer a b c d w = (Raise AttributeError, w).
Proof.
  intros Hd. unfold _control_transfer, dev_call, mbind, M_bind.
  rewrite Hd. reflexivity.
Qed.

Lemma bulk_transfer_ok (w : World) (u : UsbDevice) (cmd : list Z) (n : Z) :
  dev w = Some u ->
  r_ok (usb_replies w (usb_cursor w)) = true ->
  r_ok (usb_replies w (usb_cursor w + 1)) = true ->
  _bulk_transfer cmd n w =
  (Ok (r_data (usb_replies w (usb_cursor w + 1))),
   with_usb (BulkRead 0x81 n) 1 (with_usb (BulkWrite 1 cmd) 1 w)).
Proof.
  intros Hd H0 H1. unfold _bulk_transfer, dev_call, usb_call, mbind, M_bind.
  rewrite Hd, H0. cbn. rewrite Hd, H1. reflexivity.
Qed.

Lemma py_bytes_ok (ints : list Z) :
  Forall (fun z => 0 <= z < 256) ints -> py_bytes ints = Ok (map byte_of_Z ints).
Proof.
  induction 1 as [|z ints Hz _ IH]; [reflexivity|].
  cbn [py_bytes map].
  replace ((0 <=? z) && (z <? 256)) with true by (symmetry; apply andb_true_iff; lia).
  rewrite IH. reflexivity.
Qed.

Lemma map_byteZ_byte_of_Z (ints : list Z) :
  Forall (fun z => 0 <= z < 256) ints -> map byteZ (map byte_of_Z ints) = ints.
Proof.
  induction 1 as [|z ints Hz _ IH]; [reflexivity|].
  cbn [map]. rewrite IH, byteZ_byte_of_Z, Z.mod_small by lia. reflexivity.
Qed.

Lemma send_in_range (cal : Calibration) (su : SetUp) :
  0 <= v2 cal < 65536 -> 0 <= s1 su < 256 ->
  Forall (fun z => 0 <= z < 256)
    ([Z.shiftr (v2 cal) 8; Z.land (v2 cal) 0xFF; s1 su] ++ map byteZ (s2 su)).
Proof.
  intros Hv Hs.
  repeat apply Forall_cons_2.
  - rewrite Z.shiftr_div_pow2 by lia. change (2 ^ 8) with 256.
    Z.div_mod_to_equations. lia.
  - change 255 with (Z.ones 8). rewrite Z.land_ones by lia.
    apply Z.mod_pos_bound. lia.
  - exact Hs.
  - apply Forall_map, Forall_forall. intros b _. apply byteZ_range.
Qed.

Lemma acquire_ok (w : World) (u : UsbDevice) (cal : Calibration) (su : SetUp)
  (hdr : list byte) (a0 a1 b0 b1 c0 c1 d0 d1 : byte) :
  dev w = Some u ->
  calibration (spyderData w) = Some cal ->
  settUp (spyderData w) = Some su ->
  0 <= v2 cal < 65536 -> 0 <= s1 su < 256 ->
  r_ok (usb_replies w (usb_cursor w)) = true ->
  r_ok (usb_replies w (usb_cursor w + 1)) = true ->
  r_ok (usb_replies w (usb_cursor w + 2)) = true ->
  length hdr = 5%nat ->
  r_data (usb_replies w (usb_cursor w + 2)) = hdr ++ [a0; a1; b0; b1; c0; c1; d0; d1] ->
  acquire w =
  (Ok [uint16_be a0 a1; uint16_be b0 b1; uint16_be c0 c1; uint16_be d0 d1],
   acquired cal su w).
Proof.
  intros Hd Hcal Hsu Hv Hs H0 H1 H2 Hlen Hdata.
  pose proof (send_in_range cal su Hv Hs) as Hrange.
  unfold acquire.
  rewrite (bind_ok _ _ _ _ tt (control_transfer_ok w u _ _ _ _ Hd H0)).
  set (w1 := with_usb (CtrlTransfer 65 2 2 0) 1 w).
  rewrite (bind_ok _ _ w1 w1 cal) by (unfold lookup_key; cbn; rewrite Hcal; reflexivity).
  rewrite (bind_ok _ _ w1 w1 su) by (unfold lookup_key; cbn; rewrite Hsu; reflexivity).
  rewrite (bind_ok _ _ w1 w1 (map byte_of_Z
    ([Z.shiftr (v2 cal) 8; Z.land (v2 cal) 255; s1 su] ++ map byteZ (s2 su))))
    by (unfold lift; rewrite py_bytes_ok by exact Hrange; reflexivity).
  rewrite (map_byteZ_byte_of_Z _ Hrange).
  assert (Hb := bulk_transfer_ok w1 u (acquire_cmd cal su) 13).
  cbn [w1 dev with_usb usb_cursor usb_replies] in Hb.
  replace (usb_cursor w + 1 + 1)%nat with (usb_cursor w + 2)%nat in Hb by lia.
  specialize (Hb Hd H1 H2).
  unfold acquire_cmd in Hb.
  rewrite (bind_ok _ _ _ _ _ Hb).
  unfold lift, acquired, acquire_cmd. rewrite Hdata.
  rewrite drop_app_length' by (symmetry; exact Hlen). reflexivity.
Qed.

(** *** [calibrate] and [measure] on an open session *)

Lemma wrap_int64_small (z : Z) : - 2 ^ 63 <= z < 2 ^ 63 -> wrap_int64 z = z.
Proof.
  intros H. unfold wrap_int64.
  change (2 ^ 63) with 9223372036854775808 in *.
  change (2 ^ 64) with 18446744073709551616.
  rewrite Z.mod_small by lia. lia.
Qed.

Lemma uint16_be_range (hi lo : byte) : 0 <= uint16_be hi lo < 65536.
Proof.
  pose proof (byteZ_range hi). pose proof (byteZ_range lo).
  unfold uint16_be, _read_nORD_be. cbn [fold_left]. lia.
Qed.

Lemma bind_lift {A B : Type} (r : result A) (f : A -> M B) (w : World) :
  (lift r ≫= f) w =
  match r with
  | Ok a => f a w
  | Raise e => (Raise e, w)
  end.
Proof. unfold lift, mbind, M_bind. destruct r; reflexivity. Qed.

Lemma py_slice_first3 {A : Type} (x0 x1 x2 : A) (rest : list A) :
  py_slice (x0 :: x1 :: x2 :: rest) 0 3 = [x0; x1; x2].
Proof. unfold py_slice. cbn. destruct rest; reflexivity. Qed.

Lemma s3_first3_eq (w : World) (su : SetUp) :
  settUp (spyderData w) = Some su ->
  s3_first3 w = (Ok (map byteZ (py_slice (s3 su) 0 3)), w).
Proof.
  intros Hsu. unfold s3_first3.
  rewrite (bind_ok _ _ w w su) by (unfold lookup_key; rewrite Hsu; reflexivity).
  reflexivity.
Qed.

Lemma calibrate_open (w : World) (u : UsbDevice) (cal : Calibration) (su : SetUp)
  (hdr : list byte) (a0 a1 b0 b1 c0 c1 d0 d1 x0 x1 x2 : byte) (rest : list byte) :
  default false (isOpen (spyderData w)) = true ->
  dev w = Some u ->
  calibration (spyderData w) = Some cal ->
  settUp (spyderData w) = Some su ->
  0 <= v2 cal < 65536 -> 0 <= s1 su < 256 ->
  s3 su = x0 :: x1 :: x2 :: rest ->
  r_ok (usb_replies w (usb_cursor w)) = true ->
  r_ok (usb_replies w (usb_cursor w + 1)) = true ->
  r_ok (usb_replies w (usb_cursor w + 2)) = true ->
  length hdr = 5%nat ->
  r_data (usb_replies w (usb_cursor w + 2)) = hdr ++ [a0; a1; b0; b1; c0; c1; d0; d1] ->
  calibrate w =
  (Ok tt,
   with_data
     (set_isBlackCal true
        (set_bcal [uint16_be a0 a1 - byteZ x0; uint16_be b0 b1 - byteZ x1;
                   uint16_be c0 c1 - byteZ x2] (spyderData w)))
     (acquired cal su w)).
Proof.
  intros Hopen Hd Hcal Hsu Hv Hs Hs3 H0 H1 H2 Hlen Hdata.
  pose proof (uint16_be_range a0 a1). pose proof (uint16_be_range b0 b1).
  pose proof (uint16_be_range c0 c1).
  pose proof (byteZ_range x0). pose proof (byteZ_range x1).
  pose proof (byteZ_range x2).
  unfold calibrate.
  rewrite (bind_ok _ _ w w true) by (rewrite get_flag_eq, Hopen; reflexivity).
  cbn [negb]. rewrite (bind_ok _ _ w w tt) by reflexivity.
  rewrite (bind_ok _ _ _ _ _
    (acquire_ok w u cal su hdr a0 a1 b0 b1 c0 c1 d0 d1
       Hd Hcal Hsu Hv Hs H0 H1 H2 Hlen Hdata)).
  rewrite (bind_ok _ _ _ _ _ (s3_first3_eq (acquired cal su w) su Hsu)).
  rewrite Hs3, !py_slice_first3. cbn [map].
  rewrite bind_lift. unfold np_sub. cbn [length Nat.eqb zip_with].
  rewrite !wrap_int64_small by (change (2 ^ 63) with 9223372036854775808; lia).
  reflexivity.
Qed.

Lemma measure_ok_wrapped (w : World) (u : UsbDevice) (cal : Calibration) (su : SetUp)
  (hdr : list byte) (a0 a1 b0 b1 c0 c1 d0 d1 x0 x1 x2 : byte) (rest : list byte)
  (k0 k1 k2 : Z) :
  default false (isOpen (spyderData w)) = true ->
  default false (isBlackCal (spyderData w)) = true ->
  dev w = Some u ->
  calibration (spyderData w) = Some cal ->
  settUp (spyderData w) = Some su ->
  bcal (spyderData w) = Some [k0; k1; k2] ->
  0 <= v2 cal < 65536 -> 0 <= s1 su < 256 ->
  s3 su = x0 :: x1 :: x2 :: rest ->
  r_ok (usb_replies w (usb_cursor w)) = true ->
  r_ok (usb_replies w (usb_cursor w + 1)) = true ->
  r_ok (usb_replies w (usb_cursor w + 2)) = true ->
  length hdr = 5%nat ->
  r_data (usb_replies w (usb_cursor w + 2)) = hdr ++ [a0; a1; b0; b1; c0; c1; d0; d1] ->
  measure w =
  (Ok (np_dot_vec_mat
         (wrap_int64 (uint16_be a0 a1 - byteZ x0 - k0),
          wrap_int64 (uint16_be b0 b1 - byteZ x1 - k1),
          wrap_int64 (uint16_be c0 c1 - byteZ x2 - k2)) (matrix cal)),
   acquired cal su w).
Proof.
  intros Hopen Hbc Hd Hcal Hsu Hb Hv Hs Hs3 H0 H1 H2 Hlen Hdata.
  pose proof (uint16_be_range a0 a1). pose proof (uint16_be_range b0 b1).
  pose proof (uint16_be_range c0 c1).
  pose proof (byteZ_range x0). pose proof (byteZ_range x1).
  pose proof (byteZ_range x2).
  unfold measure.
  rewrite (bind_ok _ _ w w true) by (rewrite get_flag_eq, Hopen; reflexivity).
  cbn [negb]. rewrite (bind_ok _ _ w w tt) by reflexivity.
  rewrite (bind_ok _ _ w w true) by (rewrite get_flag_eq, Hbc; reflexivity).
  cbn [negb]. rewrite (bind_ok _ _ w w tt) by reflexivity.
  rewrite (bind_ok _ _ _ _ _
    (acquire_ok w u cal su hdr a0 a1 b0 b1 c0 c1 d0 d1
       Hd Hcal Hsu Hv Hs H0 H1 H2 Hlen Hdata)).
  set (w3 := acquired cal su w).
  rewrite (bind_ok _ _ _ _ _ (s3_first3_eq w3 su Hsu)).
  rewrite Hs3, !py_slice_first3. cbn [map].
  rewrite bind_lift. unfold np_sub at 1. cbn [length Nat.eqb zip_with].
  rewrite (bind_ok _ _ w3 w3 [k0; k1; k2])
    by (unfold lookup_key; cbn; rewrite Hb; reflexivity).
  rewrite bind_lift. unfold np_sub. cbn [length Nat.eqb zip_with].
  rewrite bind_lift. cbn [first3].
  rewrite (bind_ok _ _ w3 w3 cal)
    by (unfold lookup_key; cbn; rewrite Hcal; reflexivity).
  rewrite (wrap_int64_small (uint16_be a0 a1 - byteZ x0)),
    (wrap_int64_small (uint16_be b0 b1 - byteZ x1)),
    (wrap_int64_small (uint16_be c0 c1 - byteZ x2))
    by (change (2 ^ 63) with 9223372036854775808; lia).
  reflexivity.
Qed.

Lemma measure_ok (w : World) (u : UsbDevice) (cal : Calibration) (su : SetUp)
  (hdr : list byte) (a0 a1 b0 b1 c0 c1 d0 d1 x0 x1 x2 : byte) (rest : list byte)
  (k0 k1 k2 : Z) :
  default false (isOpen (spyderData w)) = true ->
  default false (isBlackCal (spyderData w)) = true ->
  dev w = Some u ->
  calibration (spyderData w) = Some cal ->
  settUp (spyderData w) = Some su ->
  bcal (spyderData w) = Some [k0; k1; k2] ->
  0 <= v2 cal < 65536 -> 0 <= s1 su < 256 ->
  s3 su = x0 :: x1 :: x2 :: rest ->
  - 2 ^ 62 <= k0 <= 2 ^ 62 -> - 2 ^ 62 <= k1 <= 2 ^ 62 -> - 2 ^ 62 <= k2 <= 2 ^ 62 ->
  r_ok (usb_replies w (usb_cursor w)) = true ->
  r_ok (usb_replies w (usb_cursor w + 1)) = true ->
  r_ok (usb_replies w (usb_cursor w + 2)) = true ->
  length hdr = 5%nat ->
  r_data (usb_replies w (usb_cursor w + 2)) = hdr ++ [a0; a1; b0; b1; c0; c1; d0; d1] ->
  measure w =
  (Ok (np_dot_vec_mat
         (uint16_be a0 a1 - byteZ x0 - k0, uint16_be b0 b1 - byteZ x1 - k1,
          uint16_be c0 c1 - byteZ x2 - k2) (matrix cal)),
   acquired cal su w).
Proof.
  intros Hopen Hbc Hd Hcal Hsu Hb Hv Hs Hs3 Hk0 Hk1 Hk2 H0 H1 H2 Hlen Hdata.
  pose proof (uint16_be_range a0 a1). pose proof (uint16_be_range b0 b1).
  pose proof (uint16_be_range c0 c1).
  pose proof (byteZ_range x0). pose proof (byteZ_range x1).
  pose proof (byteZ_range x2).
  rewrite (measure_ok_wrapped w u cal su hdr a0 a1 b0 b1 c0 c1 d0 d1 x0 x1 x2
             rest k0 k1 k2) by assumption.
  change (2 ^ 62) with 4611686018427387904 in *.
  rewrite !wrap_int64_small by (change (2 ^ 63) with 9223372036854775808; lia).
  reflexivity.
Qed.

Lemma frame_split (data : list byte) :
  length data = 13%nat ->
  exists hdr a0 a1 b0 b1 c0 c1 d0 d1,
    length hdr = 5%nat /\ data = hdr ++ [a0; a1; b0; b1; c0; c1; d0; d1].
Proof.
  intros H.
  do 13 (destruct data as [|? data]; [discriminate|]).
  destruct data; [|discriminate].
  eexists [_; _; _; _; _]. repeat eexists.
Qed.

Lemma acquired_advance (cal : Calibration) (su : SetUp) (w : World) :
  usb_advance 3 w (acquired cal su w).
Proof. unfold usb_advance, acquired. cbn. repeat split; lia. Qed.

Lemma usb_advance_ready (n : nat) (w w' : World) :
  usb_advance n w w' -> ready w -> ready w'.
Proof.
  intros (Hd & Hs & _) (cal & su & b & H). exists cal, su, b.
  rewrite Hd, Hs. exact H.
Qed.

(** On a ready session a full frame makes [measure] return. *)
Lemma measure_ready (w : World) :
  ready w -> good_frame w (usb_cursor w) ->
  exists xyz w', measure w = (Ok xyz, w') /\ usb_advance 3 w w'.
Proof.
  intros (cal & su & b & Hd & Hopen & Hbc & Hcal & Hsu & Hb & Hv & Hs & Hs3 & Hlen)
         (H0 & H1 & H2 & Hdata).
  destruct Hd as [u Hd].
  destruct (frame_split _ Hdata) as (hdr & a0 & a1 & b0 & b1 & c0 & c1 & d0 & d1 & Hh & Hdt).
  destruct b as [|k0 [|k1 [|k2 [|]]]]; try discriminate.
  unfold measure.
  rewrite (bind_ok _ _ w w true) by (rewrite get_flag_eq, Hopen; reflexivity).
  cbn [negb]. rewrite (bind_ok _ _ w w tt) by reflexivity.
  rewrite (bind_ok _ _ w w true) by (rewrite get_flag_eq, Hbc; reflexivity).
  cbn [negb]. rewrite (bind_ok _ _ w w tt) by reflexivity.
  rewrite (bind_ok _ _ _ _ _
    (acquire_ok w u cal su hdr a0 a1 b0 b1 c0 c1 d0 d1
       Hd Hcal Hsu Hv Hs H0 H1 H2 Hh Hdt)).
  set (w3 := acquired cal su w).
  rewrite (bind_ok _ _ _ _ _ (s3_first3_eq w3 su Hsu)).
  rewrite py_slice_first3, bind_lift.
  assert (Hsub : exists e0 e1 e2,
    np_sub [uint16_be a0 a1; uint16_be b0 b1; uint16_be c0 c1]
           (map byteZ (py_slice (s3 su) 0 3)) = Ok [e0; e1; e2]).
  { destruct (s3 su) as [|x0 [|x1 [|x2 rest]]]; cbn in Hs3;
      [lia| |lia|rewrite py_slice_first3]; eexists _, _, _; reflexivity. }
  destruct Hsub as (e0 & e1 & e2 & ->).
  rewrite (bind_ok _ _ w3 w3 [k0; k1; k2])
    by (unfold lookup_key; cbn; rewrite Hb; reflexivity).
  rewrite bind_lift. unfold np_sub. cbn [length Nat.eqb zip_with].
  rewrite bind_lift. cbn [first3].
  rewrite (bind_ok _ _ w3 w3 cal)
    by (unfold lookup_key; cbn; rewrite Hcal; reflexivity).
  eexists _, _. split; [reflexivity|apply (acquired_advance cal su w)].
Qed.

(** On a ready session a failing USB call makes [measure] raise
    [USBError]. *)
Lemma measure_usb_fail (w : World) :
  ready w ->
  r_ok (usb_replies w (usb_cursor w)) = false \/
  r_ok (usb_replies w (usb_cursor w + 1)) = false \/
  r_ok (usb_replies w (usb_cursor w + 2)) = false ->
  exists w', measure w = (Raise USBError, w').
Proof.
  intros (cal & su & b & Hd & Hopen & Hbc & Hcal & Hsu & Hb & Hv & Hs & Hs3 & Hlen) Hfail.
  destruct Hd as [u Hd].
  pose proof (send_in_range cal su Hv Hs) as Hrange.
  unfold measure.
  rewrite (bind_ok _ _ w w true) by (rewrite get_flag_eq, Hopen; reflexivity).
  cbn [negb]. rewrite (bind_ok _ _ w w tt) by reflexivity.
  rewrite (bind_ok _ _ w w true) by (rewrite get_flag_eq, Hbc; reflexivity).
  cbn [negb]. rewrite (bind_ok _ _ w w tt) by reflexivity.
  unfold acquire.
  destruct (r_ok (usb_replies w (usb_cursor w))) eqn:H0.
  2:{ eexists. erewrite bind_raise; [reflexivity|].
      erewrite bind_raise; [reflexivity|].
      apply (control_transfer_fail w u); assumption. }
  set (w1 := with_usb (CtrlTransfer 65 2 2 0) 1 w).
  assert (Hacq : forall {B} (k : list Z -> M B),
    exists w', ((_control_transfer 65 2 2 0;;
       cal ← lookup_key "calibration" calibration;
       su ← lookup_key "settUp" settUp;
       send ← lift (py_bytes ([Z.shiftr (v2 cal) 8; Z.land (v2 cal) 255; s1 su]
                               ++ map byteZ (s2 su)));
       out ← _bulk_transfer ([210; 63; 185; 0; 7] ++ map byteZ send) 13;
       lift (unpack_HHHH (drop 5 out))) ≫= k) w = (Raise USBError, w')).
  { intros B k.
    assert (Hstep : forall w'', (_bulk_transfer
        ([210; 63; 185; 0; 7] ++
         ([Z.shiftr (v2 cal) 8; Z.land (v2 cal) 255; s1 su] ++ map byteZ (s2 su)))
        13) w1 = (Raise USBError, w'') ->
      exists w', ((_control_transfer 65 2 2 0;;
       cal ← lookup_key "calibration" calibration;
       su ← lookup_key "settUp" settUp;
       send ← lift (py_bytes ([Z.shiftr (v2 cal) 8; Z.land (v2 cal) 255; s1 su]
                               ++ map byteZ (s2 su)));
       out ← _bulk_transfer ([210; 63; 185; 0; 7] ++ map byteZ send) 13;
       lift (unpack_HHHH (drop 5 out))) ≫= k) w = (Raise USBError, w')).
    { intros w'' Hb'. exists w''. erewrite bind_raise; [reflexivity|].
      rewrite (bind_ok _ _ _ _ tt (control_transfer_ok w u _ _ _ _ Hd H0)).
      fold w1.
      rewrite (bind_ok _ _ w1 w1 cal) by (unfold lookup_key; cbn; rewrite Hcal; reflexivity).
      rewrite (bind_ok _ _ w1 w1 su) by (unfold lookup_key; cbn; rewrite Hsu; reflexivity).
      rewrite bind_lift, (py_bytes_ok _ Hrange), (map_byteZ_byte_of_Z _ Hrange).
      erewrite bind_raise; [reflexivity|exact Hb']. }
    unfold _bulk_transfer, dev_call, usb_call, mbind, M_bind in Hstep.
    cbn in Hstep. rewrite Hd in Hstep.
    destruct (r_ok (usb_replies w (usb_cursor w + 1))) eqn:H1.
    - cbn in Hstep. rewrite Hd in Hstep.
      replace (usb_cursor w + 1 + 1)%nat with (usb_cursor w + 2)%nat in Hstep by lia.
      destruct Hfail as [Hf|[Hf|Hf]]; try congruence.
      rewrite Hf in Hstep. eapply Hstep. reflexivity.
    - eapply Hstep. reflexivity. }
  apply Hacq.
Qed.

(** ** The scan *)

Lemma for_each_app {A S R : Type} (xs ys : list A) (body : A -> S -> M (S + R))
  (s : S) (w : World) :
  for_each (xs ++ ys) body s w =
  match for_each xs body s w with
  | (Ok (inl s'), w') => for_each ys body s' w'
  | (Ok (inr v), w') => (Ok (inr v), w')
  | (Raise e, w') => (Raise e, w')
  end.
Proof.
  revert s w. induction xs as [|x xs IH]; intros s w; [reflexivity|].
  cbn [app for_each]. unfold mbind, M_bind.
  destruct (body x s w) as [[[s'|v]|e] w']; [apply IH|reflexivity|reflexivity].
Qed.

Lemma for_each_ext {A S R : Type} (xs : list A) (body body' : A -> S -> M (S + R)) :
  (forall x s w, body x s w = body' x s w) ->
  forall s w, for_each xs body s w = for_each xs body' s w.
Proof.
  intros H. induction xs as [|x xs IH]; intros s w; [reflexivity|].
  cbn [for_each]. unfold mbind, M_bind. rewrite H.
  destruct (body' x s w) as [[[s'|v]|e] w']; [apply IH|reflexivity|reflexivity].
Qed.

Lemma for_each_bind {A B S R : Type} (xs : list A) (f : A -> list B)
  (body : B -> S -> M (S + R)) (s : S) (w : World) :
  for_each (xs ≫= f) body s w = for_each xs (fun x => for_each (f x) body) s w.
Proof.
  revert s w. induction xs as [|x xs IH]; intros s w; [reflexivity|].
  rewrite bind_cons, for_each_app. cbn [for_each]. unfold mbind at 2, M_bind.
  destruct (for_each (f x) body s w) as [[[s'|v]|e] w']; [apply IH|reflexivity|reflexivity].
Qed.

Lemma for_each_one {A S R : Type} (x : A) (body : A -> S -> M (S + R))
  (s : S) (w : World) :
  for_each [x] body s w = body x s w.
Proof.
  cbn [for_each]. unfold mbind, M_bind.
  destruct (body x s w) as [[[s'|v]|e] w']; reflexivity.
Qed.

(** The nested loops visit the grid points in order. *)
Lemma scan_loops_grid (resolution : Z) (l : Locals) (w : World) :
  scan_loops resolution l w = for_each (grid resolution) (sample_at resolution) l w.
Proof.
  unfold scan_loops, grid. rewrite for_each_bind.
  apply for_each_ext. intros r s1 w1. rewrite for_each_bind.
  apply for_each_ext. intros g s2 w2. rewrite for_each_bind.
  apply for_each_ext. intros b s3 w3. rewrite for_each_one. reflexivity.
Qed.

Lemma length_list_bind {A B : Type} (f : A -> list B) (n : nat) (xs : list A) :
  (forall x, length (f x) = n) -> length (xs ≫= f) = (length xs * n)%nat.
Proof.
  intros H. induction xs as [|x xs IH]; [reflexivity|].
  rewrite bind_cons, length_app, H, IH. cbn. lia.
Qed.

Lemma length_grid (resolution : Z) :
  length (grid resolution) = (Z.to_nat resolution ^ 3)%nat.
Proof.
  unfold grid, py_range.
  rewrite (length_list_bind _ (Z.to_nat resolution * Z.to_nat resolution)).
  - rewrite length_seqZ. cbn. lia.
  - intros r. rewrite (length_list_bind _ (Z.to_nat resolution)).
    + rewrite length_seqZ. reflexivity.
    + intros g. rewrite (length_list_bind _ 1%nat).
      * rewrite length_seqZ. lia.
      * reflexivity.
Qed.

Lemma elem_of_grid (resolution r g b : Z) :
  (r, g, b) ∈ grid resolution <->
  0 <= r < resolution /\ 0 <= g < resolution /\ 0 <= b < resolution.
Proof.
  unfold grid, py_range. rewrite list_elem_of_bind. split.
  - intros (r' & H & Hr). apply list_elem_of_bind in H as (g' & H & Hg).
    apply list_elem_of_bind in H as (b' & H & Hb).
    apply list_elem_of_singleton in H. injection H as -> -> ->.
    apply elem_of_seqZ in Hr, Hg, Hb. lia.
  - intros (Hr & Hg & Hb). exists r. split; [|apply elem_of_seqZ; lia].
    apply list_elem_of_bind. exists g. split; [|apply elem_of_seqZ; lia].
    apply list_elem_of_bind. exists b. split; [|apply elem_of_seqZ; lia].
    apply list_elem_of_singleton. reflexivity.
Qed.

Lemma NoDup_grid (resolution : Z) : NoDup (grid resolution).
Proof.
  unfold grid, py_range. apply NoDup_bind; [| |apply NoDup_seqZ].
  - intros r1 r2 [[r g] b] _ _ H1 H2.
    apply list_elem_of_bind in H1 as (g1 & H1 & _).
    apply list_elem_of_bind in H1 as (b1 & H1 & _).
    apply list_elem_of_bind in H2 as (g2 & H2 & _).
    apply list_elem_of_bind in H2 as (b2 & H2 & _).
    apply list_elem_of_singleton in H1, H2. congruence.
  - intros r _. apply NoDup_bind; [| |apply NoDup_seqZ].
    + intros g1 g2 [[r' g] b] _ _ H1 H2.
      apply list_elem_of_bind in H1 as (b1 & H1 & _).
      apply list_elem_of_bind in H2 as (b2 & H2 & _).
      apply list_elem_of_singleton in H1, H2. congruence.
    + intros g _. apply NoDup_bind; [| |apply NoDup_seqZ].
      * intros b1 b2 [[r' g'] b] _ _ H1 H2.
        apply list_elem_of_singleton in H1, H2. congruence.
      * intros b _. apply NoDup_singleton.
Qed.

Lemma to_255_ok (index resolution : Z) :
  resolution <> 1 ->
  to_255 index resolution = Ok (Z.quot (index * 255) (resolution - 1)).
Proof.
  intros H. unfold to_255.
  destruct (Z.eqb_spec (resolution - 1) 0); [lia|reflexivity].
Qed.

Lemma ready_screen (c : Z * Z * Z) (w : World) : ready w -> ready (with_screen c w).
Proof. intros H. exact H. Qed.

Lemma progress_ready (n m : nat) (w w' : World) :
  progress n m w w' -> ready w -> ready w'.
Proof.
  intros (Hd & Hs & _) (cal & su & b & H). exists cal, su, b.
  rewrite Hd, Hs. exact H.
Qed.

Lemma progress_trans (n1 m1 n2 m2 : nat) (w1 w2 w3 : World) :
  progress n1 m1 w1 w2 -> progress n2 m2 w2 w3 ->
  progress (n1 + n2) (m1 + m2) w1 w3.
Proof.
  intros (A1 & A2 & A3 & A4 & A5 & A6) (B1 & B2 & B3 & B4 & B5 & B6).
  unfold progress. rewrite B1, B2, B3, B4, B5, B6, A1, A2, A3, A4, A5, A6.
  repeat split; lia.
Qed.

(** The three outcomes of one pass through the loop body. *)
Lemma sample_measured (resolution r g b : Z) (l : Locals) (w : World) :
  resolution <> 1 -> ready w -> good_frame w (usb_cursor w) ->
  exists lms w',
    progress 3 1 w w' /\
    screen w' = (Z.quot (r * 255) (resolution - 1), Z.quot (g * 255) (resolution - 1),
                 Z.quot (b * 255) (resolution - 1)) :: screen w /\
    sample resolution r g b l w =
    if existsb is_QUIT (ui_events w (ui_cursor w))
    then (Ok (inr (<[(r, g, b) := lms]> (lut l))), closed_world (with_pygame_quit w'))
    else (Ok (inl {| lut := <[(r, g, b) := lms]> (lut l);
                     current_color := current_color l + 1 |}), w').
Proof.
  intros Hres Hready Hframe.
  set (c := (Z.quot (r * 255) (resolution - 1), Z.quot (g * 255) (resolution - 1),
             Z.quot (b * 255) (resolution - 1))).
  destruct (measure_ready (with_screen c w) (ready_screen c w Hready) Hframe)
    as (xyz & w2 & Hm & Hadv).
  destruct Hadv as (A1 & A2 & A3 & A4 & A5 & A6 & A7). cbn in A1, A2, A3, A4, A5, A6.
  exists (xyz_to_lms xyz), (with_ui_polled w2). split.
  { unfold progress. cbn. rewrite A1, A2, A3, A4, A5, A6. repeat split; lia. }
  split; [cbn; rewrite A7; reflexivity|].
  unfold sample.
  do 3 (rewrite bind_lift, to_255_ok by exact Hres; cbv beta iota).
  rewrite (bind_ok _ _ w (with_screen c w) tt) by reflexivity.
  rewrite (bind_ok _ _ _ _ _ Hm).
  rewrite (bind_ok _ _ w2 (with_ui_polled w2) (ui_events w2 (ui_cursor w2))) by reflexivity.
  rewrite A5, A6.
  destruct (existsb is_QUIT (ui_events w (ui_cursor w))); [|reflexivity].
  rewrite (bind_ok _ _ _ (with_pygame_quit (with_ui_polled w2)) tt) by reflexivity.
  rewrite (bind_ok _ _ _ _ tt (close_eq _)). reflexivity.
Qed.

Lemma sample_usb_fail (resolution r g b : Z) (l : Locals) (w : World) :
  resolution <> 1 -> ready w ->
  r_ok (usb_replies w (usb_cursor w)) = false \/
  r_ok (usb_replies w (usb_cursor w + 1)) = false \/
  r_ok (usb_replies w (usb_cursor w + 2)) = false ->
  exists w', sample resolution r g b l w = (Raise USBError, w').
Proof.
  intros Hres Hready Hfail.
  set (c := (Z.quot (r * 255) (resolution - 1), Z.quot (g * 255) (resolution - 1),
             Z.quot (b * 255) (resolution - 1))).
  destruct (measure_usb_fail (with_screen c w) (ready_screen c w Hready) Hfail)
    as (w2 & Hm).
  exists w2. unfold sample.
  do 3 (rewrite bind_lift, to_255_ok by exact Hres; cbv beta iota).
  rewrite (bind_ok _ _ w (with_screen c w) tt) by reflexivity.
  rewrite (bind_raise _ _ _ _ _ Hm). reflexivity.
Qed.

(** A run of the loop body over [pts] on a device that keeps answering,
    with no QUIT event: every point gets its entry. *)
Lemma for_each_samples (resolution : Z) (pts : list (Z * Z * Z)) :
  resolution <> 1 ->
  forall (l : Locals) (w : World),
    ready w ->
    (forall i, (i < length pts)%nat -> good_frame w (usb_cursor w + 3 * i)) ->
    (forall i, (i < length pts)%nat -> no_quit w (ui_cursor w + i)) ->
    exists l' w',
      for_each pts (sample_at resolution) l w = (Ok (inl l'), w') /\
      progress (3 * length pts) (length pts) w w' /\
      dom (lut l') = dom (lut l) ∪ list_to_set pts.
Proof.
  intros Hres. induction pts as [|p pts IH]; intros l w Hready Hframes Hquiet.
  - exists l, w. split; [reflexivity|]. split.
    + unfold progress. cbn. repeat split; lia.
    + cbn. set_solver.
  - destruct p as [[r g] b].
    assert (Hf0 : good_frame w (usb_cursor w)).
    { specialize (Hframes 0%nat). rewrite Nat.mul_0_r, Nat.add_0_r in Hframes.
      apply Hframes. cbn. lia. }
    destruct (sample_measured resolution r g b l w Hres Hready Hf0)
      as (lms & w1 & Hp & _ & Hs).
    assert (Hq0 : existsb is_QUIT (ui_events w (ui_cursor w)) = false).
    { specialize (Hquiet 0%nat). rewrite Nat.add_0_r in Hquiet.
      apply Hquiet. cbn. lia. }
    rewrite Hq0 in Hs.
    pose proof Hp as (P1 & P2 & P3 & P4 & P5 & P6).
    destruct (IH {| lut := <[(r, g, b) := lms]> (lut l);
                    current_color := current_color l + 1 |} w1)
      as (l' & w' & Hrun & Hp' & Hdom).
    + apply (progress_ready _ _ _ _ Hp Hready).
    + intros i Hi. unfold good_frame. rewrite P3, P4.
      replace (usb_cursor w + 3 + 3 * i)%nat with (usb_cursor w + 3 * S i)%nat by lia.
      apply Hframes. cbn. lia.
    + intros i Hi. unfold no_quit. rewrite P5, P6.
      replace (ui_cursor w + 1 + i)%nat with (ui_cursor w + S i)%nat by lia.
      apply Hquiet. cbn. lia.
    + exists l', w'. split; [|split].
      * cbn [for_each]. unfold sample_at at 1. cbn [fst snd].
        rewrite (bind_ok _ _ _ _ _ Hs). exact Hrun.
      * pose proof (progress_trans _ _ _ _ _ _ _ Hp Hp') as Ht.
        replace (3 * length ((r, g, b) :: pts))%nat with (3 + 3 * length pts)%nat
          by (cbn [length]; lia).
        exact Ht.
      * rewrite Hdom. cbn [lut]. rewrite dom_insert_L. cbn [list_to_set foldr].
        set_solver.
Qed.

Lemma size_of_dom (table : gmap (Z * Z * Z) (vec3 float)) (pts : list (Z * Z * Z)) :
  NoDup pts -> dom table = list_to_set pts -> size table = length pts.
Proof.
  intros Hnd Hdom. rewrite <- size_dom, Hdom. apply size_list_to_set, Hnd.
Qed.

Lemma scan_eq (resolution : Z) (w : World) :
  scan resolution w =
  match for_each (grid resolution) (sample_at resolution)
          {| lut := ∅; current_color := 0 |} w with
  | (Ok (inl l), w') => (Ok (lut l), with_pygame_quit (closed_world w'))
  | (Ok (inr table), w') => (Ok table, w')
  | (Raise e, w') => (Raise e, w')
  end.
Proof.
  unfold scan. unfold mbind at 1, M_bind. rewrite scan_loops_grid.
  destruct (for_each _ _ _ w) as [[[l|table]|e] w']; try reflexivity.
  rewrite (bind_ok _ _ _ _ tt (close_eq w')). reflexivity.
Qed.

Lemma grid_length_Z (resolution : Z) :
  0 <= resolution -> Z.of_nat (length (grid resolution)) = resolution ^ 3.
Proof.
  intros H. rewrite length_grid.
  rewrite Nat2Z.inj_pow, Z2Nat.id by lia. reflexivity.
Qed.

(** *** [calibrate] on a closed session *)

Lemma calibrate_closed (w : World) :
  default false (isOpen (spyderData w)) = false ->
  calibrate w =
  match initialize w with
  | (Ok _, w1) => calibrate_body w1
  | (Raise e, w1) => (Raise e, w1)
  end.
Proof.
  intros Hclosed. unfold calibrate.
  rewrite (bind_ok _ _ w w false) by (rewrite get_flag_eq, Hclosed; reflexivity).
  cbn [negb]. unfold calibrate_body, mbind, M_bind.
  destruct (initialize w) as [[r|e] w1]; reflexivity.
Qed.

Lemma acquire_without_setup (w : World) :
  settUp (spyderData w) = None ->
  exists e w',
    acquire w = (Raise e, w') /\
    spyderData w' = spyderData w /\
    ((e = AttributeError /\ dev w = None) \/
     (e = USBError /\ r_ok (usb_replies w (usb_cursor w)) = false) \/
     (e = KeyError "calibration" /\ calibration (spyderData w) = None) \/
     e = KeyError "settUp").
Proof.
  intros Hsu. unfold acquire.
  destruct (dev w) as [u|] eqn:Hd.
  - destruct (r_ok (usb_replies w (usb_cursor w))) eqn:H0.
    + rewrite (bind_ok _ _ _ _ tt (control_transfer_ok w u _ _ _ _ Hd H0)).
      set (w1 := with_usb (CtrlTransfer 65 2 2 0) 1 w).
      destruct (calibration (spyderData w)) as [cal|] eqn:Hcal.
      * rewrite (bind_ok _ _ w1 w1 cal)
          by (unfold lookup_key; cbn; rewrite Hcal; reflexivity).
        exists (KeyError "settUp"), w1. split; [|split; [reflexivity|auto]].
        apply bind_raise. unfold lookup_key. cbn. rewrite Hsu. reflexivity.
      * exists (KeyError "calibration"), w1. split; [|split; [reflexivity|auto]].
        apply bind_raise. unfold lookup_key. cbn. rewrite Hcal. reflexivity.
    + exists USBError, (with_usb (CtrlTransfer 65 2 2 0) 1 w).
      split; [|split; [reflexivity|auto]].
      apply bind_raise. apply (control_transfer_fail w u); assumption.
  - exists AttributeError, w. split; [|split; [reflexivity|auto]].
    apply bind_raise. apply control_transfer_no_device, Hd.
Qed.


(** *** From the start of [generate_lut] to the loops *)

Lemma py_bytes_inv (ints : list Z) (bs : list byte) :
  py_bytes ints = Ok bs -> Forall (fun z => 0 <= z < 256) ints.
Proof.
  revert bs. induction ints as [|z ints IH]; intros bs H; [constructor|].
  cbn [py_bytes] in H.
  destruct ((0 <=? z) && (z <? 256)) eqn:Hz; [|discriminate].
  apply andb_true_iff in Hz. destruct Hz as [Hz1 Hz2].
  destruct (py_bytes ints) as [bs'|e]; [|discriminate].
  constructor; [lia|]. apply (IH bs'). reflexivity.
Qed.

Lemma unpack_HHHH_length (data : list byte) (raw : list Z) :
  unpack_HHHH data = Ok raw -> length raw = 4%nat.
Proof.
  unfold unpack_HHHH. intros H.
  do 8 (destruct data as [|? data]; [discriminate|]).
  destruct data; [|discriminate]. injection H as <-. reflexivity.
Qed.

Lemma same_session_usb (w0 : World) : usb_stable (same_session w0).
Proof. intros c n w H. exact H. Qed.

(** What a successful acquisition tells about the session. *)
Lemma acquire_inv (w w' : World) (raw : list Z) :
  acquire w = (Ok raw, w') ->
  exists cal su,
    is_Some (dev w) /\
    calibration (spyderData w) = Some cal /\ settUp (spyderData w) = Some su /\
    0 <= v2 cal < 65536 /\ 0 <= s1 su < 256 /\ length raw = 4%nat /\
    same_session w w'.
Proof.
  unfold acquire. intros H.
  destruct (dev w) as [u|] eqn:Hd.
  2:{ rewrite (bind_raise _ _ _ _ _ (control_transfer_no_device w _ _ _ _ Hd)) in H.
      discriminate. }
  destruct (r_ok (usb_replies w (usb_cursor w))) eqn:H0.
  2:{ rewrite (bind_raise _ _ _ _ _ (control_transfer_fail w u _ _ _ _ Hd H0)) in H.
      discriminate. }
  rewrite (bind_ok _ _ _ _ tt (control_transfer_ok w u _ _ _ _ Hd H0)) in H.
  set (w1 := with_usb (CtrlTransfer 65 2 2 0) 1 w) in H.
  destruct (calibration (spyderData w)) as [cal|] eqn:Hcal.
  2:{ erewrite bind_raise in H; [discriminate|].
      unfold lookup_key. cbn. rewrite Hcal. reflexivity. }
  rewrite (bind_ok _ _ w1 w1 cal) in H
    by (unfold lookup_key; cbn; rewrite Hcal; reflexivity).
  destruct (settUp (spyderData w)) as [su|] eqn:Hsu.
  2:{ erewrite bind_raise in H; [discriminate|].
      unfold lookup_key. cbn. rewrite Hsu. reflexivity. }
  rewrite (bind_ok _ _ w1 w1 su) in H
    by (unfold lookup_key; cbn; rewrite Hsu; reflexivity).
  rewrite bind_lift in H.
  destruct (py_bytes _) as [send|e] eqn:Hsend; [|discriminate].
  apply py_bytes_inv in Hsend.
  inversion Hsend as [|? ? Hhi Hrest]; subst.
  inversion Hrest as [|? ? _ Hrest']; subst.
  inversion Hrest' as [|? ? Hs1 _]; subst.
  pose proof (inv_bulk_transfer (same_session w)
    ([210; 63; 185; 0; 7] ++ map byteZ send) 13 (same_session_usb w) w1) as Hb.
  specialize (Hb (conj eq_refl eq_refl)).
  unfold mbind, M_bind in H.
  destruct (_bulk_transfer _ 13 w1) as [[out|e] w4]; [|discriminate].
  unfold lift in H. injection H as Hraw <-.
  exists cal, su. split; [eauto|]. split; [reflexivity|]. split; [reflexivity|].
  split.
  { rewrite Z.shiftr_div_pow2 in Hhi by lia. change (2 ^ 8) with 256 in Hhi.
    Z.div_mod_to_equations. lia. }
  split; [exact Hs1|]. split; [exact (unpack_HHHH_length _ _ Hraw)|]. exact Hb.
Qed.

Lemma np_sub_three (a0 a1 a2 : Z) (s b : list Z) :
  np_sub [a0; a1; a2] s = Ok b ->
  (length s = 3 \/ length s = 1)%nat /\ length b = 3%nat.
Proof.
  unfold np_sub. intros H.
  destruct s as [|y0 [|y1 [|y2 [|y3 s]]]]; cbn in H; try discriminate;
    injection H as <-; split; auto.
Qed.

Lemma length_first3_bytes (l : list byte) :
  (length (map byteZ (py_slice l 0 3)) = 3 \/ length (map byteZ (py_slice l 0 3)) = 1)%nat ->
  (3 <= length l \/ length l = 1)%nat.
Proof.
  unfold py_slice. rewrite length_map, length_take, drop_0. lia.
Qed.

(** When the part of [calibrate] after [initialize] returns, on an open
    session, the session is ready. *)
Lemma calibrate_body_ready (w w2 : World) :
  isOpen (spyderData w) = Some true ->
  calibrate_body w = (Ok tt, w2) -> ready w2.
Proof.
  intros Hopen H. unfold calibrate_body in H.
  destruct (acquire w) as [[raw|e] w1] eqn:Hacq.
  2:{ rewrite (bind_raise _ _ _ _ _ Hacq) in H. discriminate. }
  rewrite (bind_ok _ _ _ _ _ Hacq) in H.
  destruct (acquire_inv w w1 raw Hacq)
    as (cal & su & Hd & Hcal & Hsu & Hv & Hs & Hlen & Hd1 & Hs1).
  rewrite (bind_ok _ _ _ _ _ (s3_first3_eq w1 su ltac:(rewrite Hs1; exact Hsu))) in H.
  destruct raw as [|r0 [|r1 [|r2 [|r3 [|]]]]]; try discriminate.
  rewrite py_slice_first3, bind_lift in H.
  destruct (np_sub _ _) as [b|e] eqn:Hsub; [|discriminate].
  destruct (np_sub_three _ _ _ _ _ Hsub) as [Hl3 Hlb].
  apply length_first3_bytes in Hl3.
  unfold update_data, modify, mbind, M_bind in H. injection H as <-.
  exists cal, su, b. cbn. rewrite Hd1, Hs1, Hcal, Hsu, Hopen. auto 10.
Qed.

Lemma calibrate_open_body (w : World) :
  default false (isOpen (spyderData w)) = true -> calibrate w = calibrate_body w.
Proof.
  intros Hopen. unfold calibrate.
  rewrite (bind_ok _ _ w w true) by (rewrite get_flag_eq, Hopen; reflexivity).
  cbn [negb]. rewrite (bind_ok _ _ w w tt) by reflexivity. reflexivity.
Qed.

(** When [calibrate] returns on a session that never held setup data
    without being open, the session is ready. *)
Lemma calibrate_ready (w w2 : World) :
  isOpen (spyderData w) = Some true \/ settUp (spyderData w) = None ->
  calibrate w = (Ok tt, w2) -> ready w2.
Proof.
  intros Hw H.
  destruct (default false (isOpen (spyderData w))) eqn:Hopen.
  - rewrite calibrate_open_body in H by exact Hopen.
    apply (calibrate_body_ready w w2); [|exact H].
    destruct (isOpen (spyderData w)) as [[]|]; try discriminate. reflexivity.
  - rewrite calibrate_closed in H by exact Hopen.
    pose proof (initialize_spec w w eq_refl) as Hspec.
    destruct (initialize w) as [[r|e] w1]; [|discriminate].
    destruct r.
    + destruct Hspec as (_ & _ & Ho & _).
      apply (calibrate_body_ready w1 w2 Ho H).
    + destruct Hspec as (_ & _ & Ho & Hsu).
      destruct Hw as [Hw|Hw]; [rewrite Hw in Hopen; discriminate|].
      rewrite Hw in Hsu.
      destruct (acquire_without_setup w1 Hsu) as (e & w' & Hacq & _).
      unfold calibrate_body in H.
      rewrite (bind_raise _ _ _ _ _ Hacq) in H. discriminate.
Qed.

Lemma wait_loop_session (fuel : nat) (w w' : World) (r : option bool) :
  wait_loop fuel w = (Ok r, w') -> same_session w w'.
Proof.
  revert w. induction fuel as [|fuel IH]; intros w H.
  - injection H as _ <-. split; reflexivity.
  - cbn [wait_loop] in H. unfold mbind, M_bind, event_get in H.
    destruct (wait_events _ true) as [b|[|]].
    + injection H as _ <-. split; reflexivity.
    + apply IH in H. exact H.
    + injection H as _ <-. split; reflexivity.
Qed.

(** The part of [generate_lut] before the loops leaves a ready session
    whenever it goes through. *)
Lemma prelude_ready (fuel : nat) (w w2 : World) :
  scan_starts_at fuel w w2 -> ready w2.
Proof.
  intros (w1 & Hpre & Hcal).
  unfold mbind, M_bind in Hpre, Hcal.
  destruct (SpyderX w) as [[[]|e] wa] eqn:Hnew; [|discriminate].
  pose proof (initialize_spec wa wa eq_refl) as Hspec.
  destruct (initialize wa) as [[r|e] wb]; [|discriminate].
  unfold wait_for_enter, mbind, M_bind, screen_fill, modify in Hpre.
  destruct (wait_loop fuel (with_screen (255, 255, 255) wb)) as [[ans|e] wc] eqn:Hwait;
    [|discriminate].
  injection Hpre as -> ->.
  apply wait_loop_session in Hwait. destruct Hwait as [_ Hdata]. cbn in Hdata.
  unfold screen_fill, modify in Hcal.
  apply (calibrate_ready (with_screen (0, 0, 0) w1) w2); [|exact Hcal].
  cbn. rewrite Hdata.
  destruct r.
  - left. apply Hspec.
  - right. destruct Hspec as (_ & _ & _ & Hsu). rewrite Hsu.
    unfold SpyderX in Hnew. destruct (backend w); [|discriminate].
    injection Hnew as <-. reflexivity.
Qed.

(** The loops on a ready session, with a device that answers every
    acquisition and no QUIT event: every grid point gets its entry. *)
Lemma scan_all_points (resolution : Z) (w : World) :
  2 <= resolution ->
  ready w ->
  (forall i, (i < length (grid resolution))%nat ->
     good_frame w (usb_cursor w + 3 * i)) ->
  (forall i, (i < length (grid resolution))%nat -> no_quit w (ui_cursor w + i)) ->
  exists table w',
    scan resolution w = (Ok table, w') /\
    Z.of_nat (size table) = resolution ^ 3 /\
    (forall r g b, is_Some (table !! (r, g, b)) ->
       0 <= r <= resolution - 1 /\ 0 <= g <= resolution - 1 /\
       0 <= b <= resolution - 1).
Proof.
  intros Hres Hready Hframes Hquiet.
  destruct (for_each_samples resolution (grid resolution) ltac:(lia)
              {| lut := ∅; current_color := 0 |} w Hready Hframes Hquiet)
    as (l' & w' & Hrun & _ & Hdom).
  cbn [lut] in Hdom. rewrite dom_empty_L, (left_id_L ∅ (∪)) in Hdom.
  exists (lut l'), (with_pygame_quit (closed_world w')).
  split; [rewrite scan_eq, Hrun; reflexivity|]. split.
  - rewrite (size_of_dom _ _ (NoDup_grid resolution) Hdom).
    apply grid_length_Z. lia.
  - intros r g b Hin. apply elem_of_dom in Hin. rewrite Hdom in Hin.
    apply elem_of_list_to_set, elem_of_grid in Hin. lia.
Qed.

(** The loops after [n] completed samples: a QUIT event polled after the
    next sample ends the scan with the table filled so far; a failing USB
    call in the next measurement ends it with [USBError]. *)
Lemma scan_interrupted (resolution : Z) (w : World) (n : nat) :
  2 <= resolution ->
  ready w ->
  (n < length (grid resolution))%nat ->
  (forall i, (i < n)%nat -> good_frame w (usb_cursor w + 3 * i)) ->
  (forall i, (i < n)%nat -> no_quit w (ui_cursor w + i)) ->
  (good_frame w (usb_cursor w + 3 * n) ->
   existsb is_QUIT (ui_events w (ui_cursor w + n)) = true ->
   exists table w',
     scan resolution w = (Ok table, w') /\
     size table = S n /\
     dom table = list_to_set (take (S n) (grid resolution))) /\
  (r_ok (usb_replies w (usb_cursor w + 3 * n)) = false \/
   r_ok (usb_replies w (usb_cursor w + 3 * n + 1)) = false \/
   r_ok (usb_replies w (usb_cursor w + 3 * n + 2)) = false ->
   exists w', scan resolution w = (Raise USBError, w')).
Proof.
  intros Hres Hready Hn Hframes Hquiet.
  destruct (lookup_lt_is_Some_2 (grid resolution) n Hn) as [[[r g] b] Hx].
  pose proof (take_drop_middle _ _ _ Hx) as Hsplit.
  assert (Hlen : length (take n (grid resolution)) = n)
    by (rewrite length_take; lia).
  destruct (for_each_samples resolution (take n (grid resolution)) ltac:(lia)
              {| lut := ∅; current_color := 0 |} w Hready)
    as (l1 & w1 & Hrun & Hp & Hdom).
  { intros i Hi. apply Hframes. lia. }
  { intros i Hi. apply Hquiet. lia. }
  rewrite Hlen in Hp. destruct Hp as (P1 & P2 & P3 & P4 & P5 & P6).
  assert (Hready1 : ready w1).
  { destruct Hready as (cal & su & k & H). exists cal, su, k.
    rewrite P1, P2. exact H. }
  cbn [lut] in Hdom. rewrite dom_empty_L, (left_id_L ∅ (∪)) in Hdom.
  assert (Hscan : scan resolution w =
    match for_each ((r, g, b) :: drop (S n) (grid resolution))
            (sample_at resolution) l1 w1 with
    | (Ok (inl l), w') => (Ok (lut l), with_pygame_quit (closed_world w'))
    | (Ok (inr table), w') => (Ok table, w')
    | (Raise e, w') => (Raise e, w')
    end).
  { rewrite scan_eq. rewrite <- Hsplit at 1. rewrite for_each_app, Hrun.
    reflexivity. }
  split.
  - intros Hframe Hquit.
    destruct (sample_measured resolution r g b l1 w1 ltac:(lia) Hready1)
      as (lms & w2 & _ & _ & Hs).
    { unfold good_frame. rewrite P3, P4. exact Hframe. }
    rewrite P5, P6, Hquit in Hs.
    exists (<[(r, g, b) := lms]> (lut l1)), (closed_world (with_pygame_quit w2)).
    assert (Hd : dom (<[(r, g, b) := lms]> (lut l1)) =
                 list_to_set (take (S n) (grid resolution))).
    { rewrite dom_insert_L, Hdom, (take_S_r _ _ _ Hx), list_to_set_app_L.
      cbn. set_solver. }
    split; [|split; [|exact Hd]].
    + rewrite Hscan. cbn [for_each]. unfold sample_at at 1. cbn [fst snd].
      rewrite (bind_ok _ _ _ _ _ Hs). reflexivity.
    + rewrite (size_of_dom _ (take (S n) (grid resolution))); [|  |exact Hd].
      * rewrite length_take. lia.
      * eapply sublist_NoDup; [apply NoDup_grid|apply sublist_take].
  - intros Hfail.
    destruct (sample_usb_fail resolution r g b l1 w1 ltac:(lia) Hready1) as (w2 & Hs).
    { rewrite P3, P4.
      replace (usb_cursor w + 3 * n + 1)%nat with (usb_cursor w + 3 * n + 1)%nat by lia.
      exact Hfail. }
    exists w2. rewrite Hscan. cbn [for_each]. unfold sample_at at 1. cbn [fst snd].
    rewrite (bind_raise _ _ _ _ _ Hs). reflexivity.
Qed.

Lemma generate_lut_from (fuel : nat) (resolution : Z) (w w2 : World) :
  scan_starts_at fuel w w2 ->
  generate_lut fuel resolution w =
  match scan resolution w2 with
  | (Ok table, w') => (Ok (ReturnLut table), w')
  | (Raise e, w') => (Raise e, w')
  end.
Proof.
  intros (w1 & Hpre & Hcal). unfold generate_lut.
  unfold mbind, M_bind in *.
  destruct (SpyderX w) as [[[]|e] wa]; [|discriminate].
  destruct (initialize wa) as [[r|e] wb]; [|discriminate].
  destruct (wait_for_enter fuel wb) as [[ready|e] wc]; [|discriminate].
  injection Hpre as -> ->.
  destruct (screen_fill (0, 0, 0) w1) as [[[]|e] wd]; [|discriminate].
  destruct (calibrate wd) as [[[]|e] we]; [|discriminate].
  injection Hcal as ->.
  destruct (scan resolution w2) as [[table|e] w']; reflexivity.
Qed.

(** C8: for every resolution >= 2, an uninterrupted scan (the part before
    the loops goes through, the device then answers every acquisition with a
    full frame and no QUIT event arrives) makes [generate_lut] return a LUT
    with exactly resolution^3 entries, and every key is a triple of indices
    in [0, resolution - 1]. *)
Theorem generate_lut_complete (fuel : nat) (resolution : Z) (w w2 : World) :
  2 <= resolution ->
  scan_starts_at fuel w w2 ->
  (forall i, (Z.of_nat i < resolution ^ 3) ->
     good_frame w2 (usb_cursor w2 + 3 * i)) ->
  (forall i, (Z.of_nat i < resolution ^ 3) -> no_quit w2 (ui_cursor w2 + i)) ->
  exists table w',
    generate_lut fuel resolution w = (Ok (ReturnLut table), w') /\
    Z.of_nat (size table) = resolution ^ 3 /\
    (forall r g b, is_Some (table !! (r, g, b)) ->
       0 <= r <= resolution - 1 /\ 0 <= g <= resolution - 1 /\
       0 <= b <= resolution - 1).
Proof.
  intros Hres Hstart Hframes Hquiet.
  pose proof (prelude_ready fuel w w2 Hstart) as Hready.
  pose proof (grid_length_Z resolution ltac:(lia)) as Hlen.
  destruct (scan_all_points resolution w2 Hres Hready) as (table & w' & Hscan & Hsize).
  { intros i Hi. apply Hframes. lia. }
  { intros i Hi. apply Hquiet. lia. }
  exists table, w'. split; [|exact Hsize].
  rewrite (generate_lut_from fuel resolution w w2 Hstart), Hscan. reflexivity.
Qed.

(** C3, as amended: when cancellation is signalled after N samples (a QUIT
    event in the batch polled after the N-th sample, none before)
    [generate_lut] stops the scan and returns the partially filled LUT, which
    holds exactly the N completed entries; when a USB transfer of the
    (N+1)-th measurement fails, [generate_lut] ends with that error and
    returns no LUT.  ([n] samples are completed without incident; in the
    first part N = n + 1, in the second N = n.) *)
Theorem generate_lut_cancel_or_fail
  (fuel : nat) (resolution : Z) (w w2 : World) (n : nat) :
  2 <= resolution ->
  scan_starts_at fuel w w2 ->
  Z.of_nat n < resolution ^ 3 ->
  (forall i, (i < n)%nat -> good_frame w2 (usb_cursor w2 + 3 * i)) ->
  (forall i, (i < n)%nat -> no_quit w2 (ui_cursor w2 + i)) ->
  (good_frame w2 (usb_cursor w2 + 3 * n) ->
   existsb is_QUIT (ui_events w2 (ui_cursor w2 + n)) = true ->
   exists table w',
     generate_lut fuel resolution w = (Ok (ReturnLut table), w') /\
     size table = S n /\
     dom table = list_to_set (take (S n) (grid resolution))) /\
  (r_ok (usb_replies w2 (usb_cursor w2 + 3 * n)) = false \/
   r_ok (usb_replies w2 (usb_cursor w2 + 3 * n + 1)) = false \/
   r_ok (usb_replies w2 (usb_cursor w2 + 3 * n + 2)) = false ->
   exists w', generate_lut fuel resolution w = (Raise USBError, w')).
Proof.
  intros Hres Hstart Hn Hframes Hquiet.
  pose proof (prelude_ready fuel w w2 Hstart) as Hready.
  pose proof (grid_length_Z resolution ltac:(lia)) as Hlen.
  destruct (scan_interrupted resolution w2 n Hres Hready ltac:(lia) Hframes Hquiet)
    as [Hcancel Hfail].
  rewrite (generate_lut_from fuel resolution w w2 Hstart). split.
  - intros Hframe Hquit.
    destruct (Hcancel Hframe Hquit) as (table & w' & Hscan & Hsize).
    exists table, w'. rewrite Hscan. split; [reflexivity|exact Hsize].
  - intros Hbad. destruct (Hfail Hbad) as (w' & Hscan).
    exists w'. rewrite Hscan. reflexivity.
Qed.

(** *** Calibration and measurement *)

Lemma np_dot_vec_mat_rows (v : vec3 Z) (m : vec3 (vec3 float)) :
  np_dot_vec_mat v m = row_vector_times_matrix v m.
Proof.
  destruct v as [[x0 x1] x2].
  destruct m as [[[[m00 m01] m02] [[m10 m11] m12]] [[m20 m21] m22]].
  reflexivity.
Qed.

(** C1: on an open session with calibration data [cal] (matrix M) and setup
    data [su] (baseline [s3]), when the device answers the acquisition with a
    full frame, [calibrate] stores as [bcal] the elementwise difference of the
    first three decoded 16-bit fields and the first three bytes of [s3] and
    marks the session black-calibrated, and [measure], on a black-calibrated
    session with black calibration (k0, k1, k2), returns
    (raw[:3] - s3[:3] - bcal) multiplied as a row vector by M.  In the
    scenario of the specification the adjusted vector is (85, 175, 130) and
    the result is (85, 175, 130) . M. *)
Theorem calibrate_measure_formula
  (w : World) (u : UsbDevice) (cal : Calibration) (su : SetUp)
  (hdr : list byte) (a0 a1 b0 b1 c0 c1 d0 d1 x0 x1 x2 : byte) (rest : list byte) :
  default false (isOpen (spyderData w)) = true ->
  dev w = Some u ->
  calibration (spyderData w) = Some cal ->
  settUp (spyderData w) = Some su ->
  0 <= v2 cal < 65536 -> 0 <= s1 su < 256 ->
  s3 su = x0 :: x1 :: x2 :: rest ->
  r_ok (usb_replies w (usb_cursor w)) = true ->
  r_ok (usb_replies w (usb_cursor w + 1)) = true ->
  r_ok (usb_replies w (usb_cursor w + 2)) = true ->
  length hdr = 5%nat ->
  r_data (usb_replies w (usb_cursor w + 2)) = hdr ++ [a0; a1; b0; b1; c0; c1; d0; d1] ->
  let raw0 := uint16_be a0 a1 in
  let raw1 := uint16_be b0 b1 in
  let raw2 := uint16_be c0 c1 in
  (exists w',
     calibrate w = (Ok tt, w') /\
     bcal (spyderData w') =
       Some [raw0 - byteZ x0; raw1 - byteZ x1; raw2 - byteZ x2] /\
     isBlackCal (spyderData w') = Some true) /\
  (forall k0 k1 k2 : Z,
     default false (isBlackCal (spyderData w)) = true ->
     bcal (spyderData w) = Some [k0; k1; k2] ->
     - 2 ^ 62 <= k0 <= 2 ^ 62 -> - 2 ^ 62 <= k1 <= 2 ^ 62 ->
     - 2 ^ 62 <= k2 <= 2 ^ 62 ->
     run measure w =
     Ok (row_vector_times_matrix
           (raw0 - byteZ x0 - k0, raw1 - byteZ x1 - k1, raw2 - byteZ x2 - k2)
           (matrix cal))) /\
  (forall m : vec3 (vec3 float),
     run measure (scenario_world m) =
     Ok (row_vector_times_matrix (85, 175, 130) m)).
Proof.
  intros Hopen Hd Hcal Hsu Hv Hs Hs3 H0 H1 H2 Hlen Hdata raw0 raw1 raw2.
  split; [|split].
  - eexists. split; [|split].
    + apply (calibrate_open w u cal su hdr a0 a1 b0 b1 c0 c1 d0 d1 x0 x1 x2 rest);
        assumption.
    + reflexivity.
    + reflexivity.
  - intros k0 k1 k2 Hbc Hb Hk0 Hk1 Hk2. unfold run.
    rewrite (measure_ok w u cal su hdr a0 a1 b0 b1 c0 c1 d0 d1 x0 x1 x2 rest k0 k1 k2)
      by assumption.
    cbn [fst]. rewrite np_dot_vec_mat_rows. reflexivity.
  - intros m. unfold run.
    rewrite (measure_ok (scenario_world m) SpyderXDevice (scenario_cal m) scenario_setup
               (map byte_of_Z [0; 0; 0; 0; 0])
               (byte_of_Z 0) (byte_of_Z 100) (byte_of_Z 0) (byte_of_Z 200)
               (byte_of_Z 0) (byte_of_Z 150) (byte_of_Z 0) (byte_of_Z 0)
               (byte_of_Z 10) (byte_of_Z 20) (byte_of_Z 15) [byte_of_Z 0] 5 5 5);
      try reflexivity; try (cbn; lia).
    cbn [fst]. rewrite np_dot_vec_mat_rows. reflexivity.
Qed.

(** C4: [measure] fails with [NotInitializedError] whenever the session is
    not open, whatever the black-calibration flag says (so the open check
    comes first), in particular after [close] even if a black calibration was
    performed earlier; it fails with [NotCalibratedError] when the session is
    open but not black-calibrated, in particular on a new session right after
    a successful [initialize]. *)
Theorem measure_requires_open_and_calibrated (w : World) :
  (default false (isOpen (spyderData w)) = false ->
   measure w = (Raise NotInitializedError, w)) /\
  (default false (isOpen (spyderData w)) = true ->
   default false (isBlackCal (spyderData w)) = false ->
   measure w = (Raise NotCalibratedError, w)) /\
  (close;; measure) w = (Raise NotInitializedError, closed_world w) /\
  (forall w1 w2, SpyderX w = (Ok tt, w1) -> initialize w1 = (Ok true, w2) ->
   measure w2 = (Raise NotCalibratedError, w2)).
Proof.
  split; [apply measure_not_open|]. split; [apply measure_not_calibrated|]. split.
  - rewrite (bind_ok _ _ _ _ tt (close_eq w)).
    apply measure_not_open. rewrite closed_world_data. reflexivity.
  - intros w1 w2 Hnew Hinit.
    pose proof (initialize_spec w1 w1 eq_refl) as Hspec. rewrite Hinit in Hspec.
    destruct Hspec as (_ & (_ & Hbc) & Hopen & _).
    apply measure_not_calibrated; [rewrite Hopen; reflexivity|].
    rewrite Hbc. unfold SpyderX in Hnew.
    destruct (backend w); [|discriminate].
    injection Hnew as Heq. rewrite <- Heq. reflexivity.
Qed.

(** C5, as amended: [close] never fails and can be called any number of
    times (a second call leaves the session object as the first one left
    it); it clears the open flag and nothing else, so the black-calibration
    flag and [bcal] survive it, and after [close] followed by a successful
    [initialize] the session is open and black-calibrated exactly when it was
    black-calibrated before [close]. *)
Theorem close_clears_open_flag_only (w : World) :
  close w = (Ok tt, closed_world w) /\
  isOpen (spyderData (closed_world w)) = Some false /\
  isBlackCal (spyderData (closed_world w)) = isBlackCal (spyderData w) /\
  bcal (spyderData (closed_world w)) = bcal (spyderData w) /\
  (exists w', close (closed_world w) = (Ok tt, w') /\
     dev w' = dev (closed_world w) /\
     spyderData w' = spyderData (closed_world w)) /\
  (forall w2, initialize (closed_world w) = (Ok true, w2) ->
     isOpen (spyderData w2) = Some true /\
     isBlackCal (spyderData w2) = isBlackCal (spyderData w) /\
     bcal (spyderData w2) = bcal (spyderData w)).
Proof.
  split; [apply close_eq|]. rewrite closed_world_data.
  split; [reflexivity|]. split; [reflexivity|]. split; [reflexivity|]. split.
  - exists (closed_world (closed_world w)). split; [apply close_eq|].
    split; [apply closed_world_dev|]. rewrite !closed_world_data. reflexivity.
  - intros w2 Hinit.
    pose proof (initialize_spec _ _ (eq_refl (closed_world w))) as Hspec.
    rewrite Hinit in Hspec. destruct Hspec as (_ & (Hb & Hbc) & Hopen & _).
    rewrite closed_world_data in Hb, Hbc. cbn in Hb, Hbc. auto.
Qed.

(** C6, as amended: when [usb.core.find] finds no device, [initialize]
    raises nothing: it returns [False], leaves [self.dev] at [None] and the
    session data, hence the open flag, as they were. *)
Theorem initialize_without_device (w : World) :
  r_ok (usb_replies w (usb_cursor w)) = true ->
  r_flag (usb_replies w (usb_cursor w)) = false ->
  exists w',
    initialize w = (Ok false, w') /\
    dev w' = None /\
    spyderData w' = spyderData w /\
    usb_log w' = Find 0x085C 0x0A00 :: usb_log w.
Proof.
  intros Hok Hflag. eexists. split; [apply initialize_no_device; assumption|].
  repeat split.
Qed.

(** C10, as amended: [calibrate] on a closed session calls [initialize]
    and ignores its result: when [initialize] returns [False], [calibrate]
    goes on with the wake control transfer.  When no device is found it fails
    there with the null-device error ([AttributeError]), and the session data
    is unchanged.  On a session that holds no setup data (one that was never
    initialized successfully) it always fails, with the null-device error,
    with the transport error of the wake transfer, or with a missing-data
    error ([KeyError]), and the session stays closed and not more
    black-calibrated than it was. *)
Theorem calibrate_ignores_failed_initialize (w : World) :
  default false (isOpen (spyderData w)) = false ->
  (forall w1, initialize w = (Ok false, w1) -> calibrate w = calibrate_body w1) /\
  (r_ok (usb_replies w (usb_cursor w)) = true ->
   r_flag (usb_replies w (usb_cursor w)) = false ->
   exists w1,
     initialize w = (Ok false, w1) /\
     calibrate w = (Raise AttributeError, w1) /\
     dev w1 = None /\ spyderData w1 = spyderData w) /\
  (settUp (spyderData w) = None ->
   forall w1, initialize w = (Ok false, w1) ->
   exists e w2,
     calibrate w = (Raise e, w2) /\
     ((e = AttributeError /\ dev w1 = None) \/
      (e = USBError /\ r_ok (usb_replies w1 (usb_cursor w1)) = false) \/
      (e = KeyError "calibration" /\ calibration (spyderData w1) = None) \/
      e = KeyError "settUp") /\
     default false (isOpen (spyderData w2)) = false /\
     isBlackCal (spyderData w2) = isBlackCal (spyderData w) /\
     bcal (spyderData w2) = bcal (spyderData w)).
Proof.
  intros Hclosed. split; [|split].
  - intros w1 Hinit. rewrite (calibrate_closed w Hclosed), Hinit. reflexivity.
  - intros Hok Hflag.
    pose proof (initialize_no_device w Hok Hflag) as Hinit.
    eexists. split; [exact Hinit|].
    rewrite (calibrate_closed w Hclosed), Hinit.
    split; [|split; reflexivity].
    unfold calibrate_body, acquire.
    apply bind_raise, bind_raise. apply control_transfer_no_device. reflexivity.
  - intros Hsu w1 Hinit.
    pose proof (initialize_spec w w eq_refl) as Hspec. rewrite Hinit in Hspec.
    destruct Hspec as (_ & (Hb & Hbc) & (Hopen & Hset)).
    rewrite Hsu in Hset.
    destruct (acquire_without_setup w1 Hset) as (e & w2 & Hacq & Hdata & Hcases).
    exists e, w2. split; [|split; [exact Hcases|]].
    + rewrite (calibrate_closed w Hclosed), Hinit.
      unfold calibrate_body. apply bind_raise, Hacq.
    + rewrite Hdata, Hopen, Hbc, Hb. auto.
Qed.

(** *** Quantization of the grid indices *)

Lemma py_round_div_exact (a b : Z) : 0 < b -> a mod b = 0 -> py_round_div a b = a / b.
Proof.
  intros Hb Hm. unfold py_round_div. rewrite Hm.
  destruct (Z.ltb_spec (2 * 0) b); [reflexivity|lia].
Qed.

(** C2, as amended: for every resolution >= 2 and every index in
    [0, resolution - 1] the driver quantizes the index to
    [int(index * 255 / (resolution - 1))], the quotient rounded down, which
    lies in [0, 255], maps the ends of the range to 0 and 255 and agrees with
    [round(index * 255 / (resolution - 1))] whenever [resolution - 1] divides
    [index * 255]; this is the colour that the loop body shows.  In
    particular, for resolution 2, the grid points (0,0,0) and (0,0,1) map to
    the colours (0,0,0) and (0,0,255). *)
Theorem to_255_rounds_down (index resolution : Z) :
  2 <= resolution -> 0 <= index <= resolution - 1 ->
  to_255 index resolution = Ok (index * 255 / (resolution - 1)) /\
  0 <= index * 255 / (resolution - 1) <= 255 /\
  to_255 0 resolution = Ok 0 /\
  to_255 (resolution - 1) resolution = Ok 255 /\
  ((index * 255) mod (resolution - 1) = 0 ->
   to_255 index resolution = Ok (quantize_spec index resolution)) /\
  (forall g b l w,
     0 <= g <= resolution - 1 -> 0 <= b <= resolution - 1 ->
     ready w -> good_frame w (usb_cursor w) ->
     screen (exec (sample resolution index g b l) w) =
     (index * 255 / (resolution - 1), g * 255 / (resolution - 1),
      b * 255 / (resolution - 1)) :: screen w) /\
  (to_255 0 2, to_255 0 2, to_255 0 2) = (Ok 0, Ok 0, Ok 0) /\
  (to_255 0 2, to_255 0 2, to_255 1 2) = (Ok 0, Ok 0, Ok 255).
Proof.
  intros Hres Hidx.
  assert (Hq : forall i, 0 <= i -> Z.quot (i * 255) (resolution - 1) = i * 255 / (resolution - 1)).
  { intros i Hi. apply Z.quot_div_nonneg; lia. }
  assert (Hto : forall i, 0 <= i -> to_255 i resolution = Ok (i * 255 / (resolution - 1))).
  { intros i Hi. rewrite to_255_ok by lia. rewrite Hq by lia. reflexivity. }
  split; [apply Hto; lia|]. split.
  { split; [apply Z.div_pos; lia|].
    apply Z.div_le_upper_bound; [lia|]. nia. }
  split; [rewrite Hto by lia; reflexivity|]. split.
  { rewrite Hto by lia.
    rewrite (Z.mul_comm (resolution - 1) 255), Z.div_mul by lia. reflexivity. }
  split.
  { intros Hm. rewrite Hto by lia. unfold quantize_spec.
    rewrite py_round_div_exact by (lia || exact Hm). reflexivity. }
  split; [|split; reflexivity].
  intros g b l w Hg Hb Hready Hframe.
  destruct (sample_measured resolution index g b l w ltac:(lia) Hready Hframe)
    as (lms & w' & _ & Hscreen & Hs).
  unfold exec. rewrite Hs, !Hq in * by lia.
  destruct (existsb is_QUIT (ui_events w (ui_cursor w))); cbn [snd].
  - unfold closed_world. destruct (dev (with_pygame_quit w')); cbn; exact Hscreen.
  - exact Hscreen.
Qed.

End SessionFacts.

(** ** More on the byte codec *)

Lemma read_nORD_be_from (acc : Z) (bs : list byte) :
  fold_left (fun a b => 256 * a + byteZ b) bs acc =
  acc * 256 ^ Z.of_nat (length bs) + _read_nORD_be bs.
Proof.
  unfold _read_nORD_be. revert acc. induction bs as [|b bs IH]; intros acc.
  - cbn. lia.
  - cbn [fold_left length].
    rewrite (IH (256 * acc + byteZ b)), (IH (256 * 0 + byteZ b)).
    rewrite Nat2Z.inj_succ, Z.pow_succ_r by lia. ring.
Qed.

Lemma read_nORD_be_cons (b : byte) (bs : list byte) :
  _read_nORD_be (b :: bs) = byteZ b * 256 ^ Z.of_nat (length bs) + _read_nORD_be bs.
Proof.
  unfold _read_nORD_be at 1. cbn [fold_left]. rewrite read_nORD_be_from. ring.
Qed.

Lemma read_nORD_be_range (bs : list byte) :
  0 <= _read_nORD_be bs < 256 ^ Z.of_nat (length bs).
Proof.
  induction bs as [|b bs IH]; [cbn; lia|].
  rewrite read_nORD_be_cons. cbn [length].
  rewrite Nat2Z.inj_succ, Z.pow_succ_r by lia.
  pose proof (byteZ_range b). nia.
Qed.

Lemma read_nORD_be_app (hi lo : list byte) :
  _read_nORD_be (hi ++ lo) =
  _read_nORD_be hi * 256 ^ Z.of_nat (length lo) + _read_nORD_be lo.
Proof.
  induction hi as [|b hi IH]; [cbn [app]; change (_read_nORD_be []) with 0; lia|].
  cbn [app]. rewrite !read_nORD_be_cons, IH, length_app, Nat2Z.inj_add, Z.pow_add_r by lia.
  ring.
Qed.

Lemma byteZ_inj (a b : byte) : byteZ a = byteZ b -> a = b.
Proof. intros H. rewrite <- (byte_of_Z_byteZ a), <- (byte_of_Z_byteZ b), H. reflexivity. Qed.

Lemma read_nORD_be_inj (a b : list byte) :
  length a = length b -> _read_nORD_be a = _read_nORD_be b -> a = b.
Proof.
  revert b. induction a as [|x a IH]; intros [|y b] Hlen Hv; try discriminate;
    [reflexivity|].
  injection Hlen as Hlen. rewrite !read_nORD_be_cons, <- Hlen in Hv.
  pose proof (read_nORD_be_range a) as Ha.
  pose proof (read_nORD_be_range b) as Hb. rewrite <- Hlen in Hb.
  pose proof (byteZ_range x). pose proof (byteZ_range y).
  set (P := 256 ^ Z.of_nat (length a)) in *.
  assert (Hx : byteZ x = byteZ y).
  { destruct (Z.lt_trichotomy (byteZ x) (byteZ y)) as [Hlt|[Heq|Hgt]];
      [exfalso; nia|exact Heq|exfalso; nia]. }
  assert (Hr : _read_nORD_be a = _read_nORD_be b) by (rewrite Hx in Hv; lia).
  f_equal; [apply byteZ_inj, Hx|apply IH; assumption].
Qed.

(** X1: [_read_nORD_be] reads its input as a number in base 256, most
    significant byte first: the value of [n] bytes lies in [0, 256^n), the
    value of a concatenation is the value of the first part shifted by the
    length of the second plus the value of the second, inputs of the same
    length with the same value are equal, and a leading zero byte does not
    change the value. *)
Theorem read_nORD_be_positional :
  (forall bs, 0 <= _read_nORD_be bs < 256 ^ Z.of_nat (length bs)) /\
  (forall hi lo,
     _read_nORD_be (hi ++ lo) =
     _read_nORD_be hi * 256 ^ Z.of_nat (length lo) + _read_nORD_be lo) /\
  (forall a b, length a = length b -> _read_nORD_be a = _read_nORD_be b -> a = b) /\
  (forall bs, _read_nORD_be ("000"%byte :: bs) = _read_nORD_be bs).
Proof.
  split; [exact read_nORD_be_range|]. split; [exact read_nORD_be_app|].
  split; [exact read_nORD_be_inj|].
  intros bs. rewrite read_nORD_be_cons. change (byteZ "000") with 0. lia.
Qed.

(** The decoder on two and on three bytes: the bits after the exponent are
    read as an integer, whatever their number. *)
Lemma read_IEEE754_two (b2 b3 : byte) :
  _read_IEEE754 [b2; b3] =
  Ok (ieee_value (byteZ b3 / 128)
        (2 * (byteZ b3 mod 128) + byteZ b2 / 128) (byteZ b2 mod 128)).
Proof.
  unfold _read_IEEE754. cbn [rev app]. rewrite binary_bits.
  set (L := flat_map bits8 [b3; b2]).
  unfold str_slice, str_from. rewrite !substring_bits, length_str_of_bits.
  replace (take (9 - 1) (drop 1 L)) with (low7 b3 ++ [msb b2]) by reflexivity.
  replace (take (length L - 9) (drop 9 L)) with (low7 b2) by reflexivity.
  replace (str_index (str_of_bits L) 0) with (Ok (A:=ascii) (bit_char (msb b3)))
    by reflexivity.
  cbn [mbind result_bind]. unfold int_of_char. rewrite digit_of_bit.
  rewrite !int_base2_bits by (unfold low7; cbn; congruence).
  cbn [mbind result_bind]. f_equal.
  rewrite msb_val, bits_val_from_app, !low7_val.
  rewrite (bits_val_from_shift [msb b2]).
  change (bits_val_from 0 [msb b2]) with (2 * 0 + Z.b2z (msb b2)).
  rewrite msb_val. f_equal. cbn [length]. lia.
Qed.

Lemma read_IEEE754_three (b1 b2 b3 : byte) :
  _read_IEEE754 [b1; b2; b3] =
  Ok (ieee_value (byteZ b3 / 128)
        (2 * (byteZ b3 mod 128) + byteZ b2 / 128)
        (256 * (byteZ b2 mod 128) + byteZ b1)).
Proof.
  unfold _read_IEEE754. cbn [rev app]. rewrite binary_bits.
  set (L := flat_map bits8 [b3; b2; b1]).
  unfold str_slice, str_from. rewrite !substring_bits, length_str_of_bits.
  replace (take (9 - 1) (drop 1 L)) with (low7 b3 ++ [msb b2]) by reflexivity.
  replace (take (length L - 9) (drop 9 L)) with (low7 b2 ++ bits8 b1) by reflexivity.
  replace (str_index (str_of_bits L) 0) with (Ok (A:=ascii) (bit_char (msb b3)))
    by reflexivity.
  cbn [mbind result_bind]. unfold int_of_char. rewrite digit_of_bit.
  rewrite !int_base2_bits by (unfold low7; cbn; congruence).
  cbn [mbind result_bind]. f_equal.
  rewrite msb_val, !bits_val_from_app, low7_val.
  rewrite (bits_val_from_shift [msb b2]), (bits_val_from_shift (bits8 b1)),
    low7_val, bits8_val.
  change (bits_val_from 0 [msb b2]) with (2 * 0 + Z.b2z (msb b2)).
  rewrite msb_val. f_equal; cbn [length bits8 low7 map]; lia.
Qed.

(** X2: [_read_IEEE754] does not check the length of its input.  The empty
    input fails on [binary[0]] with [IndexError], one byte fails on
    [int('', 2)] with [ValueError], and two or three bytes are accepted:
    sign and exponent are read as for four bytes and the 7 or 15 bits
    that are left count as the low bits of the fraction, so that a
    truncated input does not decode to the value of its zero-padded
    form. *)
Theorem read_IEEE754_input_length :
  _read_IEEE754 [] = Raise IndexError /\
  (forall b, _read_IEEE754 [b] =
             Raise (ValueError "invalid literal for int() with base 2")) /\
  (forall b2 b3,
     _read_IEEE754 [b2; b3] =
     Ok (ieee_value (byteZ b3 / 128)
           (2 * (byteZ b3 mod 128) + byteZ b2 / 128) (byteZ b2 mod 128))) /\
  (forall b1 b2 b3,
     _read_IEEE754 [b1; b2; b3] =
     Ok (ieee_value (byteZ b3 / 128)
           (2 * (byteZ b3 mod 128) + byteZ b2 / 128)
           (256 * (byteZ b2 mod 128) + byteZ b1))) /\
  (exists v v' : Q,
     _read_IEEE754 ["192"%byte; "063"%byte] = Ok v /\
     _read_IEEE754 ["000"%byte; "000"%byte; "192"%byte; "063"%byte] = Ok v' /\
     ~ (v == v')%Q).
Proof.
  split; [reflexivity|]. split.
  { intros b. unfold _read_IEEE754. cbn [rev app]. rewrite binary_bits.
    set (L := flat_map bits8 [b]).
    unfold str_slice, str_from. rewrite !substring_bits, length_str_of_bits.
    replace (take (9 - 1) (drop 1 L)) with (low7 b) by reflexivity.
    replace (take (length L - 9) (drop 9 L)) with (@nil bool) by reflexivity.
    replace (str_index (str_of_bits L) 0) with (Ok (A:=ascii) (bit_char (msb b)))
      by reflexivity.
    cbn [mbind result_bind]. unfold int_of_char. rewrite digit_of_bit.
    rewrite (int_base2_bits (low7 b)) by (unfold low7; cbn; congruence).
    reflexivity. }
  split; [exact read_IEEE754_two|]. split; [exact read_IEEE754_three|].
  eexists _, _. split; [apply read_IEEE754_two|].
  split; [apply read_IEEE754_fields|]. vm_compute. discriminate.
Qed.

Lemma ieee_value_positive (e fr : Z) : 0 <= fr -> (0 < ieee_value 0 e fr)%Q.
Proof.
  intros Hfr. rewrite (ieee_value_scaled 0 e fr) by auto.
  apply Qmult_lt_0_compat; [|apply Qpow2_pos].
  change 0%Q with (inject_Z 0). rewrite <- Zlt_Qlt. lia.
Qed.

(** The value grows with the exponent and, for one exponent, with the
    fraction. *)
Lemma ieee_value_lt (e fr e' fr' : Z) :
  0 <= fr < 2 ^ 23 -> 0 <= fr' < 2 ^ 23 ->
  e * 2 ^ 23 + fr < e' * 2 ^ 23 + fr' ->
  (ieee_value 0 e fr < ieee_value 0 e' fr')%Q.
Proof.
  intros Hfr Hfr' Hlt.
  change (2 ^ 23) with 8388608 in *.
  destruct (Z.eq_dec e e') as [->|Hne].
  - rewrite (ieee_value_scaled 0 e' fr), (ieee_value_scaled 0 e' fr') by auto.
    apply Qmult_lt_compat_r; [apply Qpow2_pos|].
    rewrite <- Zlt_Qlt. change (2 ^ 23) with 8388608. lia.
  - assert (He : e + 1 <= e') by lia.
    destruct (ieee_value_bounds 0 e fr) as [_ Hhi]; [auto|change (2 ^ 23) with 8388608; lia|].
    destruct (ieee_value_bounds 0 e' fr') as [Hlo _]; [auto|change (2 ^ 23) with 8388608; lia|].
    rewrite Qabs_pos in Hhi by (apply Qlt_le_weak, ieee_value_positive; lia).
    rewrite Qabs_pos in Hlo by (apply Qlt_le_weak, ieee_value_positive; lia).
    eapply Qlt_le_trans; [exact Hhi|].
    eapply Qle_trans; [|exact Hlo].
    apply Qpower_le_compat_l; [lia|discriminate].
Qed.

(** X3: the sign of the decoded value is the top bit of the last input
    byte: with that bit clear the value is positive, and setting it negates
    the value. *)
Theorem read_IEEE754_sign_bit (b0 b1 b2 b3 : byte) :
  byteZ b3 < 128 ->
  exists v v' : Q,
    _read_IEEE754 [b0; b1; b2; b3] = Ok v /\
    _read_IEEE754 [b0; b1; b2; byte_of_Z (byteZ b3 + 128)] = Ok v' /\
    (0 < v)%Q /\ (v' == - v)%Q.
Proof.
  intros Hb3. pose proof (byteZ_range b3) as Hr.
  destruct (code_fields_range b0 b1 b2 b3) as (_ & _ & Hfr).
  eexists _, _. split; [apply read_IEEE754_fields|].
  split; [apply read_IEEE754_fields|].
  rewrite byteZ_byte_of_Z.
  replace ((byteZ b3 + 128) mod 256) with (byteZ b3 + 128) by (rewrite Z.mod_small; lia).
  replace ((byteZ b3 + 128) / 128) with 1 by (Z.div_mod_to_equations; lia).
  replace ((byteZ b3 + 128) mod 128) with (byteZ b3 mod 128)
    by (Z.div_mod_to_equations; lia).
  replace (byteZ b3 / 128) with 0 by (Z.div_mod_to_equations; lia).
  split; [apply ieee_value_positive; lia|apply ieee_value_neg].
Qed.

(** X4: on inputs with the sign bit clear the decoder is strictly
    increasing in the number that the reversed bytes spell, which is what
    [_read_nORD_be] returns on them: a larger word decodes to a larger
    value, so two such inputs with the same value are equal. *)
Theorem read_IEEE754_increasing (b0 b1 b2 b3 c0 c1 c2 c3 : byte) :
  byteZ b3 < 128 -> byteZ c3 < 128 ->
  _read_nORD_be (rev [b0; b1; b2; b3]) < _read_nORD_be (rev [c0; c1; c2; c3]) ->
  exists v v' : Q,
    _read_IEEE754 [b0; b1; b2; b3] = Ok v /\
    _read_IEEE754 [c0; c1; c2; c3] = Ok v' /\
    (v < v')%Q.
Proof.
  intros Hb Hc Hlt.
  destruct (code_fields_range b0 b1 b2 b3) as (_ & _ & Hfb).
  destruct (code_fields_range c0 c1 c2 c3) as (_ & _ & Hfc).
  pose proof (byteZ_range b3). pose proof (byteZ_range c3).
  pose proof (byteZ_range b2). pose proof (byteZ_range c2).
  eexists _, _. split; [apply read_IEEE754_fields|].
  split; [apply read_IEEE754_fields|].
  replace (byteZ b3 / 128) with 0 by (Z.div_mod_to_equations; lia).
  replace (byteZ c3 / 128) with 0 by (Z.div_mod_to_equations; lia).
  apply ieee_value_lt; [exact Hfb|exact Hfc|].
  cbn [rev app] in Hlt. unfold _read_nORD_be in Hlt. cbn [fold_left] in Hlt.
  change (2 ^ 23) with 8388608.
  Z.div_mod_to_equations. lia.
Qed.

(** ** The driver, function by function *)

Section DriverFacts.
Context `{E : Externals}.

(** ** The command exchanges of [initialize] *)

Lemma py_index_ok {A : Type} (l : list A) (i : nat) :
  (i < length l)%nat -> exists x, l !! i = Some x /\ py_index l i = Ok x.
Proof.
  intros H. destruct (lookup_lt_is_Some_2 l i H) as [x Hx].
  exists x. split; [exact Hx|]. unfold py_index. rewrite Hx. reflexivity.
Qed.

Lemma py_index_fail {A : Type} (l : list A) (i : nat) :
  (length l <= i)%nat -> py_index l i = Raise IndexError.
Proof.
  intros H. unfold py_index. rewrite (lookup_ge_None_2 l i H). reflexivity.
Qed.

Lemma py_slice_four {A : Type} (l : list A) (a b : nat) :
  b = (a + 4)%nat -> (b <= length l)%nat ->
  exists x0 x1 x2 x3, py_slice l a b = [x0; x1; x2; x3].
Proof.
  intros -> H. unfold py_slice. replace (a + 4 - a)%nat with 4%nat by lia.
  pose proof (length_drop l a) as Hd.
  destruct (drop a l) as [|x0 [|x1 [|x2 [|x3 rest]]]]; cbn in Hd; try lia.
  exists x0, x1, x2, x3. reflexivity.
Qed.

Lemma py_slice_length {A : Type} (l : list A) (a b : nat) :
  (length (py_slice l a b) <= b - a)%nat.
Proof. unfold py_slice. rewrite length_take. lia. Qed.

Lemma read_IEEE754_four (b0 b1 b2 b3 : byte) :
  exists q : Q, _read_IEEE754 [b0; b1; b2; b3] = Ok q /\ ~ (q == 0)%Q.
Proof.
  eexists. split; [apply read_IEEE754_fields|].
  destruct (code_fields_range b0 b1 b2 b3) as (Hs & _ & Hfr).
  destruct (ieee_value_bounds _ (2 * (byteZ b3 mod 128) + byteZ b2 / 128) _ Hs Hfr)
    as [Hlo _].
  intros Hz. rewrite Hz in Hlo.
  pose proof (Qpow2_pos (2 * (byteZ b3 mod 128) + byteZ b2 / 128 - 127)) as Hp.
  change (Qabs 0) with 0%Q in Hlo. apply (Qlt_irrefl 0).
  eapply Qlt_le_trans; [exact Hp|exact Hlo].
Qed.

Lemma read_entry_ok (out : list byte) (i j : nat) :
  ((i * 3 + j) * 4 + 8 <= length out)%nat ->
  exists q : Q,
    _read_IEEE754 (py_slice out ((i * 3 + j) * 4 + 4) ((i * 3 + j) * 4 + 8)) = Ok q /\
    ~ (q == 0)%Q /\
    read_entry out i j = Ok (float_of_Q q).
Proof.
  intros H.
  destruct (py_slice_four out ((i * 3 + j) * 4 + 4) ((i * 3 + j) * 4 + 8))
    as (x0 & x1 & x2 & x3 & Hs); [lia|exact H|].
  destruct (read_IEEE754_four x0 x1 x2 x3) as (q & Hq & Hnz).
  exists q. unfold read_entry. cbv zeta. rewrite Hs, Hq.
  split; [reflexivity|]. split; [exact Hnz|reflexivity].
Qed.

Lemma read_row_ok (out : list byte) (i : nat) :
  ((i * 3 + 2) * 4 + 8 <= length out)%nat ->
  exists row : vec3 float,
    read_row out i = Ok row /\
    forall j, (j < 3)%nat ->
      exists q : Q,
        _read_IEEE754 (py_slice out ((i * 3 + j) * 4 + 4) ((i * 3 + j) * 4 + 8)) = Ok q /\
        ~ (q == 0)%Q /\ vec3_get row j = float_of_Q q.
Proof.
  intros H.
  destruct (read_entry_ok out i 0) as (q0 & H0 & N0 & R0); [lia|].
  destruct (read_entry_ok out i 1) as (q1 & H1 & N1 & R1); [lia|].
  destruct (read_entry_ok out i 2) as (q2 & H2 & N2 & R2); [lia|].
  exists (float_of_Q q0, float_of_Q q1, float_of_Q q2). split.
  - unfold read_row. rewrite R0. cbn [mbind result_bind].
    rewrite R1. cbn [mbind result_bind]. rewrite R2. reflexivity.
  - intros j Hj. destruct j as [|[|[|j]]]; [| | |lia].
    + exists q0. auto.
    + exists q1. auto.
    + exists q2. auto.
Qed.

(** The calibration block, when it is long enough. *)
Lemma get_factory_calibration_ok (w : World) (u : UsbDevice) :
  dev w = Some u ->
  r_ok (usb_replies w (usb_cursor w)) = true ->
  r_ok (usb_replies w (usb_cursor w + 1)) = true ->
  let out := drop 5 (r_data (usb_replies w (usb_cursor w + 1))) in
  let w2 := with_usb (BulkRead 0x81 47) 1
              (with_usb (BulkWrite 1 [0xcb; 0x05; 0x73; 0x00; 0x01; 0x00]) 1 w) in
  (41 <= length out)%nat ->
  exists cal : Calibration,
    _get_factory_calibration w =
      (Ok tt, with_data (set_calibration cal (spyderData w)) w2) /\
    Some (v1 cal) = byteZ <$> out !! 1%nat /\
    v2 cal = _read_nORD_be (py_slice out 2 4) /\
    0 <= v2 cal < 65536 /\
    Some (v3 cal) = byteZ <$> out !! 40%nat /\
    forall i j, (i < 3)%nat -> (j < 3)%nat ->
      exists q : Q,
        _read_IEEE754 (py_slice out ((i * 3 + j) * 4 + 4) ((i * 3 + j) * 4 + 8))
          = Ok q /\
        ~ (q == 0)%Q /\
        matrix_entry (matrix cal) i j = float_of_Q q.
Proof.
  intros Hd H0 H1 out w2 Hlong.
  pose proof (bulk_transfer_ok w u [0xcb; 0x05; 0x73; 0x00; 0x01; 0x00] 47 Hd H0 H1)
    as Hb.
  fold w2 in Hb.
  unfold _get_factory_calibration. rewrite (bind_ok _ _ _ _ _ Hb). cbv zeta.
  fold out.
  destruct (py_index_ok out 1) as (x1 & Hx1 & E1); [lia|].
  destruct (py_index_ok out 40) as (x40 & Hx40 & E40); [lia|].
  destruct (read_row_ok out 0) as (r0 & R0 & M0); [cbn; lia|].
  destruct (read_row_ok out 1) as (r1 & R1 & M1); [cbn; lia|].
  destruct (read_row_ok out 2) as (r2 & R2 & M2); [cbn; lia|].
  rewrite bind_lift, E1, bind_lift, E40, bind_lift, R0, bind_lift, R1,
    bind_lift, R2.
  eexists. split; [reflexivity|]. cbn [v1 v2 v3 matrix].
  rewrite Hx1, Hx40. split; [reflexivity|]. split; [reflexivity|].
  split.
  { pose proof (read_nORD_be_range (py_slice out 2 4)) as Hr.
    pose proof (py_slice_length out 2 4) as Hl.
    assert (256 ^ Z.of_nat (length (py_slice out 2 4)) <= 256 ^ 2)
      by (apply Z.pow_le_mono_r; lia).
    change (256 ^ 2) with 65536 in *. lia. }
  split; [reflexivity|].
  intros i j Hi Hj. unfold matrix_entry.
  destruct i as [|[|[|i]]]; [| | |lia]; cbn [vec3_get].
  - apply (M0 j Hj).
  - apply (M1 j Hj).
  - apply (M2 j Hj).
Qed.

(** The calibration block, when it is too short. *)
Lemma get_factory_calibration_short (w : World) (u : UsbDevice) :
  dev w = Some u ->
  r_ok (usb_replies w (usb_cursor w)) = true ->
  r_ok (usb_replies w (usb_cursor w + 1)) = true ->
  (length (drop 5 (r_data (usb_replies w (usb_cursor w + 1)))) < 41)%nat ->
  _get_factory_calibration w =
  (Raise IndexError,
   with_usb (BulkRead 0x81 47) 1
     (with_usb (BulkWrite 1 [0xcb; 0x05; 0x73; 0x00; 0x01; 0x00]) 1 w)).
Proof.
  intros Hd H0 H1 Hshort.
  unfold _get_factory_calibration.
  rewrite (bind_ok _ _ _ _ _ (bulk_transfer_ok w u _ 47 Hd H0 H1)). cbv zeta.
  set (out := drop 5 (r_data (usb_replies w (usb_cursor w + 1)))) in *.
  rewrite bind_lift.
  destruct (le_lt_dec (length out) 1) as [H1'|H1'].
  - rewrite py_index_fail by exact H1'. reflexivity.
  - destruct (py_index_ok out 1 H1') as (x & _ & ->).
    rewrite bind_lift, py_index_fail by lia. reflexivity.
Qed.

(** X5: [_get_factory_calibration], once the command went out and the
    answer came back, needs an answer of at least 46 bytes: on a shorter one
    it raises [IndexError] (at [out[1]] or [out[40]], before any matrix
    entry is decoded) and stores nothing.  On a longer one it stores [v1],
    [v2], [v3] read at offsets 1, 2..3 and 40 behind the 5-byte header, [v2]
    being a 16-bit number, and the nine matrix entries decoded from the
    4-byte groups at offset [k*4+4]; no entry of the stored matrix is
    decoded from a zero. *)
Theorem get_factory_calibration_cases (w : World) (u : UsbDevice) :
  dev w = Some u ->
  r_ok (usb_replies w (usb_cursor w)) = true ->
  r_ok (usb_replies w (usb_cursor w + 1)) = true ->
  let out := drop 5 (r_data (usb_replies w (usb_cursor w + 1))) in
  let w2 := with_usb (BulkRead 0x81 47) 1
              (with_usb (BulkWrite 1 [0xcb; 0x05; 0x73; 0x00; 0x01; 0x00]) 1 w) in
  ((length out < 41)%nat ->
   _get_factory_calibration w = (Raise IndexError, w2)) /\
  ((41 <= length out)%nat ->
   exists cal : Calibration,
     _get_factory_calibration w =
       (Ok tt, with_data (set_calibration cal (spyderData w)) w2) /\
     Some (v1 cal) = byteZ <$> out !! 1%nat /\
     v2 cal = _read_nORD_be (py_slice out 2 4) /\
     0 <= v2 cal < 65536 /\
     Some (v3 cal) = byteZ <$> out !! 40%nat /\
     forall i j, (i < 3)%nat -> (j < 3)%nat ->
       exists q : Q,
         _read_IEEE754 (py_slice out ((i * 3 + j) * 4 + 4) ((i * 3 + j) * 4 + 8))
           = Ok q /\
         ~ (q == 0)%Q /\
         matrix_entry (matrix cal) i j = float_of_Q q).
Proof.
  intros Hd H0 H1 out w2. split.
  - intros Hshort. exact (get_factory_calibration_short w u Hd H0 H1 Hshort).
  - intros Hlong. exact (get_factory_calibration_ok w u Hd H0 H1 Hlong).
Qed.

Lemma get_hardware_version_ok (w : World) (u : UsbDevice) (s : string) :
  dev w = Some u ->
  r_ok (usb_replies w (usb_cursor w)) = true ->
  r_ok (usb_replies w (usb_cursor w + 1)) = true ->
  utf8_decode (py_slice (r_data (usb_replies w (usb_cursor w + 1))) 5 9) = Some s ->
  _get_hardware_version w =
  (Ok tt, with_data (set_HWvn s (spyderData w))
            (with_usb (BulkRead 0x81 28) 1
               (with_usb (BulkWrite 1 [0xd9; 0x42; 0x33; 0x00; 0x00]) 1 w))).
Proof.
  intros Hd H0 H1 Hs. unfold _get_hardware_version.
  rewrite (bind_ok _ _ _ _ _ (bulk_transfer_ok w u _ 28 Hd H0 H1)).
  unfold decode_str. rewrite Hs. reflexivity.
Qed.

Lemma get_serial_number_ok (w : World) (u : UsbDevice) (s : string) :
  dev w = Some u ->
  r_ok (usb_replies w (usb_cursor w)) = true ->
  r_ok (usb_replies w (usb_cursor w + 1)) = true ->
  utf8_decode (py_slice (r_data (usb_replies w (usb_cursor w + 1))) 9 17) = Some s ->
  _get_serial_number w =
  (Ok tt, with_data (set_serNo s (spyderData w))
            (with_usb (BulkRead 0x81 42) 1
               (with_usb (BulkWrite 1 [0xc2; 0x5c; 0x37; 0x00; 0x00]) 1 w))).
Proof.
  intros Hd H0 H1 Hs. unfold _get_serial_number.
  rewrite (bind_ok _ _ _ _ _ (bulk_transfer_ok w u _ 42 Hd H0 H1)).
  unfold decode_str. rewrite Hs. reflexivity.
Qed.

Lemma get_amb_measure_ok (w : World) (u : UsbDevice)
  (hdr : list byte) (a0 a1 b0 b1 c d : byte) :
  dev w = Some u ->
  r_ok (usb_replies w (usb_cursor w)) = true ->
  r_ok (usb_replies w (usb_cursor w + 1)) = true ->
  length hdr = 5%nat ->
  r_data (usb_replies w (usb_cursor w + 1)) = hdr ++ [a0; a1; b0; b1; c; d] ->
  _get_amb_measure w =
  (Ok tt, with_data (set_amb (uint16_be a0 a1, uint16_be b0 b1, byteZ c, byteZ d)
                       (spyderData w))
            (with_usb (BulkRead 0x81 11) 1
               (with_usb (BulkWrite 1 [0xd4; 0xa1; 0xc5; 0x00; 0x02; 0x65; 0x10]) 1 w))).
Proof.
  intros Hd H0 H1 Hlen Hdata. unfold _get_amb_measure.
  rewrite (bind_ok _ _ _ _ _ (bulk_transfer_ok w u _ 11 Hd H0 H1)).
  rewrite Hdata, drop_app_length' by (symmetry; exact Hlen). reflexivity.
Qed.

Lemma setup_measurement_ok (w : World) (u : UsbDevice) (cal : Calibration) (x : byte) :
  dev w = Some u ->
  calibration (spyderData w) = Some cal ->
  r_ok (usb_replies w (usb_cursor w)) = true ->
  r_ok (usb_replies w (usb_cursor w + 1)) = true ->
  r_data (usb_replies w (usb_cursor w + 1)) !! 5%nat = Some x ->
  _setup_measurement w =
  (Ok tt,
   with_data
     (set_settUp {| s1 := byteZ x;
                    s2 := py_slice (r_data (usb_replies w (usb_cursor w + 1))) 6 10;
                    s3 := py_slice (r_data (usb_replies w (usb_cursor w + 1))) 10 14 |}
        (spyderData w))
     (with_usb (BulkRead 0x81 15) 1
        (with_usb (BulkWrite 1 [0xc3; 0x29; 0x27; 0x00; 0x01; v1 cal]) 1 w))).
Proof.
  intros Hd Hcal H0 H1 Hx. unfold _setup_measurement.
  rewrite (bind_ok _ _ w w cal) by (unfold lookup_key; rewrite Hcal; reflexivity).
  rewrite (bind_ok _ _ _ _ _ (bulk_transfer_ok w u _ 15 Hd H0 H1)).
  rewrite bind_lift. unfold py_index. rewrite Hx. reflexivity.
Qed.

Lemma length_11_split (data : list byte) :
  length data = 11%nat ->
  exists hdr a0 a1 b0 b1 c d,
    length hdr = 5%nat /\ data = hdr ++ [a0; a1; b0; b1; c; d].
Proof.
  intros H.
  do 11 (destruct data as [|? data]; [discriminate|]).
  destruct data; [|discriminate].
  eexists [_; _; _; _; _]. repeat eexists.
Qed.

Lemma try_except_ok {A : Type} (m : M A) (h : exn -> option (M A))
  (w w' : World) (a : A) :
  m w = (Ok a, w') -> try_except m h w = (Ok a, w').
Proof. intros H. unfold try_except. rewrite H. reflexivity. Qed.

(** [set_configuration] may fail: the error is swallowed. *)
Lemma configure_any (w : World) (u : UsbDevice) :
  dev w = Some u ->
  try_except (dev_call SetConfiguration;; mret tt) (only_USBError (mret tt)) w =
  (Ok tt, with_usb SetConfiguration 1 w).
Proof.
  intros Hd. unfold try_except, dev_call, usb_call, mbind, M_bind. rewrite Hd.
  destruct (r_ok (usb_replies w (usb_cursor w))); reflexivity.
Qed.

(** With no kernel driver attached, [claim_interface] is called next, and
    it may fail as well. *)
Lemma claim_any (w : World) (u : UsbDevice) :
  dev w = Some u ->
  r_ok (usb_replies w (usb_cursor w)) = true ->
  r_flag (usb_replies w (usb_cursor w)) = false ->
  try_except
    (r ← dev_call (IsKernelDriverActive 0);
     (if r_flag r then dev_call (DetachKernelDriver 0);; mret tt else mret tt);;
     dev_call (ClaimInterface 0);; mret tt) swallow w =
  (Ok tt, with_usb (ClaimInterface 0) 1 (with_usb (IsKernelDriverActive 0) 1 w)).
Proof.
  intros Hd H0 Hf. unfold try_except, dev_call, usb_call, mbind, M_bind.
  rewrite Hd, H0, Hf. cbn. rewrite Hd.
  destruct (r_ok (usb_replies w (usb_cursor w + 1))); reflexivity.
Qed.

Lemma reply_at_eq (w : World) (n k : nat) :
  n = (usb_cursor w + k)%nat -> usb_replies w n = reply_at w k.
Proof. intros ->. reflexivity. Qed.

Ltac script_step :=
  repeat match goal with x := _ |- _ => progress unfold x end;
  cbn [dev usb_replies usb_cursor spyderData with_usb with_data with_dev
       calibration set_HWvn set_serNo set_calibration set_amb set_settUp];
  match goal with
  | |- Some _ = Some _ => reflexivity
  | H : r_ok (reply_at ?w ?k) = _ |- r_ok (usb_replies ?w ?n) = _ =>
      rewrite (reply_at_eq w n k) by lia; exact H
  | H : r_flag (reply_at ?w ?k) = _ |- r_flag (usb_replies ?w ?n) = _ =>
      rewrite (reply_at_eq w n k) by lia; exact H
  | H : utf8_decode (py_slice (r_data (reply_at ?w ?k)) _ _) = _
    |- utf8_decode (py_slice (r_data (usb_replies ?w ?n)) _ _) = _ =>
      rewrite (reply_at_eq w n k) by lia; exact H
  | H : r_data (reply_at ?w ?k) = _ |- r_data (usb_replies ?w ?n) = _ =>
      rewrite (reply_at_eq w n k) by lia; exact H
  | H : r_data (reply_at ?w ?k) !! _ = _ |- r_data (usb_replies ?w ?n) !! _ = _ =>
      rewrite (reply_at_eq w n k) by lia; exact H
  | H : (_ <= length (drop _ (r_data (reply_at ?w ?k))))%nat
    |- (_ <= length (drop _ (r_data (usb_replies ?w ?n))))%nat =>
      rewrite (reply_at_eq w n k) by lia; exact H
  | |- length _ = _ => assumption
  end.

(** On a cooperative device [initialize] goes through. *)
Lemma initialize_ok (w : World) (hw sn : string) :
  cooperative w hw sn ->
  exists (w' : World) (cal : Calibration) (su : SetUp) (a : Z * Z * Z * Z),
    initialize w = (Ok true, w') /\
    usb_cursor w' = (usb_cursor w + 17)%nat /\
    dev w' = Some SpyderXDevice /\
    spyderData w' =
      {| isOpen := Some true; HWvn := Some hw; serNo := Some sn;
         calibration := Some cal; amb := Some a; settUp := Some su;
         bcal := bcal (spyderData w); isBlackCal := isBlackCal (spyderData w) |} /\
    v2 cal = _read_nORD_be (py_slice (drop 5 (r_data (reply_at w 12))) 2 4) /\
    0 <= v2 cal < 65536 /\ 0 <= s1 su < 256 /\
    s2 su = py_slice (r_data (reply_at w 16)) 6 10 /\
    s3 su = py_slice (r_data (reply_at w 16)) 10 14.
Proof.
  intros (F0 & F0f & F2 & F2f & Hall & Hhw & Hsn & Lcal & Lamb & Lset).
  pose proof (Hall 4%nat ltac:(lia)) as F4. pose proof (Hall 5%nat ltac:(lia)) as F5.
  pose proof (Hall 6%nat ltac:(lia)) as F6. pose proof (Hall 7%nat ltac:(lia)) as F7.
  pose proof (Hall 8%nat ltac:(lia)) as F8. pose proof (Hall 9%nat ltac:(lia)) as F9.
  pose proof (Hall 10%nat ltac:(lia)) as F10. pose proof (Hall 11%nat ltac:(lia)) as F11.
  pose proof (Hall 12%nat ltac:(lia)) as F12. pose proof (Hall 13%nat ltac:(lia)) as F13.
  pose proof (Hall 14%nat ltac:(lia)) as F14. pose proof (Hall 15%nat ltac:(lia)) as F15.
  pose proof (Hall 16%nat ltac:(lia)) as F16. clear Hall.
  destruct (length_11_split _ Lamb) as (hdr & a0 & a1 & b0 & b1 & c & d & Hh & Damb).
  destruct (lookup_lt_is_Some_2 (r_data (reply_at w 16)) 5 ltac:(lia)) as [x Hx].
  assert (Lcal' : (41 <= length (drop 5 (r_data (reply_at w 12))))%nat)
    by (rewrite length_drop; lia).
  set (u := SpyderXDevice).
  assert (Hfind : usb_find 0x085C 0x0A00 w
                  = (Ok (Some u), with_usb (Find 0x085C 0x0A00) 1 w)).
  { unfold usb_find, usb_call, mbind, M_bind.
    unfold reply_at in F0, F0f. rewrite Nat.add_0_r in F0, F0f.
    rewrite F0, F0f. reflexivity. }
  set (w1 := with_dev (Some u) (with_usb (Find 0x085C 0x0A00) 1 w)).
  pose proof (configure_any w1 u eq_refl) as S1.
  set (w2 := with_usb SetConfiguration 1 w1) in S1.
  pose proof (claim_any w2 u eq_refl ltac:(script_step) ltac:(script_step)) as S2.
  set (w3 := with_usb (ClaimInterface 0) 1 (with_usb (IsKernelDriverActive 0) 1 w2)) in S2.
  pose proof (control_transfer_ok w3 u 0x02 1 0 1 eq_refl ltac:(script_step)) as S3.
  set (w4 := with_usb (CtrlTransfer 2 1 0 1) 1 w3) in S3.
  pose proof (control_transfer_ok w4 u 0x02 1 0 129 eq_refl ltac:(script_step)) as S4.
  set (w5 := with_usb (CtrlTransfer 2 1 0 129) 1 w4) in S4.
  pose proof (control_transfer_ok w5 u 0x41 2 2 0 eq_refl ltac:(script_step)) as S5.
  set (w6 := with_usb (CtrlTransfer 65 2 2 0) 1 w5) in S5.
  pose proof (get_hardware_version_ok w6 u hw eq_refl ltac:(script_step)
                ltac:(script_step) ltac:(script_step)) as S6.
  match type of S6 with _ = (_, ?x) => set (w7 := x) in S6 end.
  pose proof (get_serial_number_ok w7 u sn eq_refl ltac:(script_step)
                ltac:(script_step) ltac:(script_step)) as S7.
  match type of S7 with _ = (_, ?x) => set (w8 := x) in S7 end.
  destruct (get_factory_calibration_ok w8 u eq_refl ltac:(script_step)
              ltac:(script_step) ltac:(script_step))
    as (cal & S8 & _ & Hv2 & Hv2r & _).
  match type of S8 with _ = (_, ?x) => set (w9 := x) in S8 end.
  pose proof (get_amb_measure_ok w9 u hdr a0 a1 b0 b1 c d eq_refl ltac:(script_step)
                ltac:(script_step) Hh ltac:(script_step)) as S9.
  match type of S9 with _ = (_, ?x) => set (w10 := x) in S9 end.
  pose proof (setup_measurement_ok w10 u cal x eq_refl eq_refl ltac:(script_step)
                ltac:(script_step) ltac:(script_step)) as S10.
  match type of S10 with _ = (_, ?x) => set (w11 := x) in S10 end.
  eexists _, cal, _, _. split.
  { unfold initialize. apply try_except_ok.
    rewrite (bind_ok _ _ _ _ _ Hfind).
    rewrite (bind_ok _ _ _ w1 tt) by reflexivity.
    cbv beta iota.
    rewrite (bind_ok _ _ _ _ _ S1), (bind_ok _ _ _ _ _ S2), (bind_ok _ _ _ _ _ S3),
      (bind_ok _ _ _ _ _ S4), (bind_ok _ _ _ _ _ S5), (bind_ok _ _ _ _ _ S6),
      (bind_ok _ _ _ _ _ S7), (bind_ok _ _ _ _ _ S8), (bind_ok _ _ _ _ _ S9),
      (bind_ok _ _ _ _ _ S10).
    reflexivity. }
  unfold w11, w10, w9, w8, w7, w6, w5, w4, w3, w2, w1.
  cbn [dev usb_replies usb_cursor spyderData with_usb with_data with_dev
       update_data modify mbind M_bind mret M_ret snd
       set_isOpen set_HWvn set_serNo set_calibration set_amb set_settUp
       isOpen HWvn serNo calibration amb settUp bcal isBlackCal s1 s2 s3].
  split; [lia|]. split; [reflexivity|]. split; [reflexivity|].
  split.
  { rewrite Hv2. unfold w8, w7, w6, w5, w4, w3, w2, w1.
    cbn [usb_replies usb_cursor with_usb with_data with_dev].
    rewrite (reply_at_eq w _ 12) by lia. reflexivity. }
  split; [exact Hv2r|]. split; [apply byteZ_range|].
  split; rewrite (reply_at_eq w _ 16) by lia; reflexivity.
Qed.

(** X6: on a cooperative device [initialize] returns [True] after exactly
    17 calls into the USB stack, whether or not [set_configuration] and
    [claim_interface] fail: the session is open, holds the device handle,
    the two identifiers, the calibration (with a 16-bit [v2]), the ambient
    block and the setup block ([s1] a byte, [s2] and [s3] the slices 6..10
    and 10..14 of the last answer), and its black calibration is as it was
    before. *)
Theorem initialize_cooperative (w : World) (hw sn : string) :
  cooperative w hw sn ->
  exists (w' : World) (cal : Calibration) (su : SetUp) (a : Z * Z * Z * Z),
    initialize w = (Ok true, w') /\
    usb_cursor w' = (usb_cursor w + 17)%nat /\
    dev w' = Some SpyderXDevice /\
    spyderData w' =
      {| isOpen := Some true; HWvn := Some hw; serNo := Some sn;
         calibration := Some cal; amb := Some a; settUp := Some su;
         bcal := bcal (spyderData w); isBlackCal := isBlackCal (spyderData w) |} /\
    v2 cal = _read_nORD_be (py_slice (drop 5 (r_data (reply_at w 12))) 2 4) /\
    0 <= v2 cal < 65536 /\ 0 <= s1 su < 256 /\
    s2 su = py_slice (r_data (reply_at w 16)) 6 10 /\
    s3 su = py_slice (r_data (reply_at w 16)) 10 14.
Proof.
  intros Hc.
  destruct (initialize_ok w hw sn Hc) as (w' & cal & su & a & Hrun & Hrest).
  exists w', cal, su, a. split; [exact Hrun|exact Hrest].
Qed.

(** X7: what [initialize] does in every world.  It never lets a
    [USBError] out and never touches the black calibration, the window
    system or the answers of the USB stack, of which it only consumes some.
    When it returns [True] the session is open and holds a device handle, a
    calibration and a setup block; when it returns [False] or raises, the
    open flag and the setup block are what they were, so that a session
    that was open stays marked open. *)
Theorem initialize_contract (w : World) :
  let '(r, w') := initialize w in
  bcal (spyderData w') = bcal (spyderData w) /\
  isBlackCal (spyderData w') = isBlackCal (spyderData w) /\
  usb_replies w' = usb_replies w /\ (usb_cursor w <= usb_cursor w')%nat /\
  ui_events w' = ui_events w /\ ui_cursor w' = ui_cursor w /\
  screen w' = screen w /\ pygame_running w' = pygame_running w /\
  match r with
  | Ok true =>
      isOpen (spyderData w') = Some true /\ is_Some (dev w') /\
      is_Some (calibration (spyderData w')) /\ is_Some (settUp (spyderData w'))
  | Ok false =>
      isOpen (spyderData w') = isOpen (spyderData w) /\
      settUp (spyderData w') = settUp (spyderData w)
  | Raise e =>
      e <> USBError /\
      isOpen (spyderData w') = isOpen (spyderData w) /\
      settUp (spyderData w') = settUp (spyderData w)
  end.
Proof.
  pose proof (initialize_spec w w eq_refl) as H.
  destruct (initialize w) as [[[|]|e] w'].
  - destruct H as ((Hr & He & Hc & Hs & _ & Hp & Hu) & (Hb & Hbc) & Hopen & Hd & Hcal & Hsu).
    repeat (split; [assumption|]). auto.
  - destruct H as ((Hr & He & Hc & Hs & _ & Hp & Hu) & (Hb & Hbc) & Hopen & Hsu).
    repeat (split; [assumption|]). auto.
  - destruct H as [((Hr & He & Hc & Hs & _ & Hp & Hu) & (Hb & Hbc) & Hopen & Hsu) Hne].
    repeat (split; [assumption|]). auto.
Qed.

(** ** What [measure] and [calibrate] leave alone *)

Lemma consumed_refl (w : World) : consumed w 0 w.
Proof. unfold consumed. rewrite Nat.add_0_r. auto 10. Qed.

Lemma consumed_weaken (w0 : World) (n m : nat) (w : World) :
  (n <= m)%nat -> consumed w0 n w -> consumed_upto w0 m w.
Proof. intros Hle H. exists n. auto. Qed.

Lemma consumed_dev_call (w0 : World) (n : nat) (c : UsbCall) :
  triple (consumed w0 n) (dev_call c)
    (fun _ => consumed w0 (S n)) (fun _ => consumed_upto w0 (S n)).
Proof.
  intros w H. unfold dev_call, usb_call.
  assert (Hs : consumed w0 (S n) (with_usb c 1 w)).
  { unfold consumed in *. cbn. intuition (try congruence; try lia). }
  destruct (dev w).
  - destruct (r_ok (usb_replies w (usb_cursor w))); [exact Hs|].
    apply (consumed_weaken w0 (S n)); [lia|exact Hs].
  - apply (consumed_weaken w0 n); [lia|exact H].
Qed.

Lemma consumed_control_transfer (w0 : World) (n : nat) (a b c d : Z) :
  triple (consumed w0 n) (_control_transfer a b c d)
    (fun _ => consumed w0 (S n)) (fun _ => consumed_upto w0 (S n)).
Proof.
  unfold _control_transfer. eapply triple_bind; [apply consumed_dev_call|].
  intros r. apply triple_ret. auto.
Qed.

Lemma consumed_bulk_transfer (w0 : World) (n : nat) (cmd : list Z) (size : Z) :
  triple (consumed w0 n) (_bulk_transfer cmd size)
    (fun _ => consumed w0 (S (S n))) (fun _ => consumed_upto w0 (S (S n))).
Proof.
  unfold _bulk_transfer. eapply (triple_bind _ _ _ (fun _ => consumed w0 (S n))).
  { eapply triple_conseq; [apply (consumed_dev_call w0 n)|auto|auto|].
    unfold consumed_upto. intros e w (k & Hk & H). exists k. split; [lia|exact H]. }
  intros _. eapply triple_bind; [apply consumed_dev_call|].
  intros r. apply triple_ret. auto.
Qed.

Lemma consumed_pure {A : Type} (w0 : World) (n m : nat) (p : M A) :
  (n <= m)%nat -> inv_step (consumed w0 n) p ->
  triple (consumed w0 n) p (fun _ => consumed w0 n) (fun _ => consumed_upto w0 m).
Proof.
  intros Hle H. eapply triple_conseq; [exact H|auto|auto|].
  intros e w Hw. apply (consumed_weaken w0 n); assumption.
Qed.

(** One acquisition makes three calls when it returns and at most three
    when it raises. *)
Lemma consumed_acquire (w0 : World) :
  triple (consumed w0 0) acquire
    (fun raw w => consumed w0 3 w /\ length raw = 4%nat)
    (fun _ => consumed_upto w0 3).
Proof.
  unfold acquire.
  eapply (triple_bind _ _ _ (fun _ => consumed w0 1)).
  { eapply triple_conseq; [apply (consumed_control_transfer w0 0)|auto|auto|].
    unfold consumed_upto. intros e w (k & Hk & H). exists k. split; [lia|exact H]. }
  intros _.
  eapply triple_bind; [apply (consumed_pure w0 1 3); [lia|apply inv_lookup_key]|].
  intros cal.
  eapply triple_bind; [apply (consumed_pure w0 1 3); [lia|apply inv_lookup_key]|].
  intros su.
  eapply triple_bind; [apply (consumed_pure w0 1 3); [lia|apply inv_lift]|].
  intros send.
  eapply triple_bind; [apply (consumed_bulk_transfer w0 1)|].
  intros out w H. unfold lift.
  destruct (unpack_HHHH (drop 5 out)) as [raw|e] eqn:Hraw.
  - split; [exact H|exact (unpack_HHHH_length _ _ Hraw)].
  - apply (consumed_weaken w0 3); [lia|exact H].
Qed.

Lemma inv_get_flag (J : World -> Prop) (field : SpyderData -> option bool) :
  inv_step J (get_flag field).
Proof. intros w Hw. exact Hw. Qed.

Lemma inv_s3_first3 (J : World -> Prop) : inv_step J s3_first3.
Proof.
  unfold s3_first3. apply inv_bind; [apply inv_lookup_key|]. intros su. apply inv_ret.
Qed.

Lemma consumed_measure (w0 : World) :
  triple (consumed w0 0) measure
    (fun _ => consumed w0 3) (fun _ => consumed_upto w0 3).
Proof.
  unfold measure.
  eapply triple_bind; [apply (consumed_pure w0 0 3); [lia|apply inv_get_flag]|].
  intros opened.
  eapply triple_bind.
  { apply (consumed_pure w0 0 3); [lia|].
    destruct (negb opened); [apply inv_raise|apply inv_ret]. }
  intros ?.
  eapply triple_bind; [apply (consumed_pure w0 0 3); [lia|apply inv_get_flag]|].
  intros calibrated.
  eapply triple_bind.
  { apply (consumed_pure w0 0 3); [lia|].
    destruct (negb calibrated); [apply inv_raise|apply inv_ret]. }
  intros ?.
  eapply (triple_bind _ _ _ (fun _ => consumed w0 3)).
  { eapply triple_conseq; [apply (consumed_acquire w0)|auto| |auto].
    intros raw w [H _]. exact H. }
  intros raw.
  eapply triple_bind; [apply (consumed_pure w0 3 3); [lia|apply inv_s3_first3]|].
  intros s.
  eapply triple_bind; [apply (consumed_pure w0 3 3); [lia|apply inv_lift]|].
  intros d.
  eapply triple_bind; [apply (consumed_pure w0 3 3); [lia|apply inv_lookup_key]|].
  intros b.
  eapply triple_bind; [apply (consumed_pure w0 3 3); [lia|apply inv_lift]|].
  intros adj.
  eapply triple_bind; [apply (consumed_pure w0 3 3); [lia|apply inv_lift]|].
  intros adj3.
  eapply triple_bind; [apply (consumed_pure w0 3 3); [lia|apply inv_lookup_key]|].
  intros cal. apply triple_ret. auto.
Qed.

(** X8: [measure] changes nothing but the position in the conversation
    with the device: whether it returns or raises, the device handle, the
    whole session dictionary and the window are what they were; it makes
    exactly three calls into the USB stack when it returns, and at most
    three when it raises. *)
Theorem measure_changes_nothing (w : World) :
  let '(r, w') := measure w in
  dev w' = dev w /\ spyderData w' = spyderData w /\
  ui_cursor w' = ui_cursor w /\ screen w' = screen w /\
  usb_replies w' = usb_replies w /\
  match r with
  | Ok _ => usb_cursor w' = (usb_cursor w + 3)%nat
  | Raise _ => (usb_cursor w <= usb_cursor w' <= usb_cursor w + 3)%nat
  end.
Proof.
  pose proof (consumed_measure w w (consumed_refl w)) as H.
  destruct (measure w) as [[xyz|e] w'].
  - destruct H as (Hd & Hs & _ & Hr & Hc & _ & Hu & Hsc & _). auto 10.
  - destruct H as (k & Hk & Hd & Hs & _ & Hr & Hc & _ & Hu & Hsc & _).
    repeat (split; [assumption|]). lia.
Qed.

(** [calibrate] after its call of [initialize]: it stores three numbers
    and the flag when it returns, and nothing when it raises. *)
Lemma calibrate_body_frame (w0 : World) :
  triple (consumed w0 0) calibrate_body
    (fun _ w => exists b w3,
       consumed w0 3 w3 /\ length b = 3%nat /\
       w = with_data (set_isBlackCal true (set_bcal b (spyderData w3))) w3)
    (fun _ => consumed_upto w0 3).
Proof.
  unfold calibrate_body.
  eapply triple_bind; [apply consumed_acquire|].
  intros raw. cbv beta.
  intros w [H Hlen].
  destruct raw as [|r0 [|r1 [|r2 [|r3 [|]]]]]; try discriminate.
  pose proof (inv_s3_first3 (consumed w0 3) w H) as Hs.
  unfold mbind, M_bind.
  destruct (s3_first3 w) as [[s|e] w1]; [|apply (consumed_weaken w0 3); [lia|exact Hs]].
  rewrite py_slice_first3. unfold lift.
  destruct (np_sub [r0; r1; r2] s) as [b|e] eqn:Hsub;
    [|apply (consumed_weaken w0 3); [lia|exact Hs]].
  destruct (np_sub_three _ _ _ _ _ Hsub) as [_ Hb].
  exists b, w1. split; [exact Hs|]. split; [exact Hb|reflexivity].
Qed.

(** X9: on an open session [calibrate] talks to the device three times
    and then stores the three black counts and the flag; it touches no other
    entry of the session, and when it raises it has stored nothing. *)
Theorem calibrate_stores_on_success_only (w : World) :
  default false (isOpen (spyderData w)) = true ->
  let '(r, w') := calibrate w in
  dev w' = dev w /\ ui_cursor w' = ui_cursor w /\ screen w' = screen w /\
  match r with
  | Ok _ =>
      usb_cursor w' = (usb_cursor w + 3)%nat /\
      exists b, length b = 3%nat /\
        spyderData w' = set_isBlackCal true (set_bcal b (spyderData w))
  | Raise _ =>
      (usb_cursor w <= usb_cursor w' <= usb_cursor w + 3)%nat /\
      spyderData w' = spyderData w
  end.
Proof.
  intros Hopen. rewrite (calibrate_open_body w Hopen).
  pose proof (calibrate_body_frame w w (consumed_refl w)) as H.
  destruct (calibrate_body w) as [[[]|e] w'].
  - destruct H as (b & w3 & (Hd & Hs & _ & Hr & Hc & _ & Hu & Hsc & _) & Hb & ->).
    cbn. rewrite Hs. split; [exact Hd|]. split; [exact Hu|]. split; [exact Hsc|].
    split; [exact Hc|]. exists b. auto.
  - destruct H as (k & Hk & Hd & Hs & _ & Hr & Hc & _ & Hu & Hsc & _).
    repeat (split; [assumption|]). split; [lia|exact Hs].
Qed.

(** X10: a measurement after a black calibration does not depend on the
    setup baseline: [calibrate] stores [raw - s3] and [measure] subtracts
    both [s3] and that, so the vector that is multiplied by the matrix is
    the difference of the two raw readings.  In particular a reading equal to
    the black reading gives the zero vector. *)
Theorem measure_after_calibrate
  (w : World) (u : UsbDevice) (cal : Calibration) (su : SetUp)
  (hdr hdr' : list byte) (a0 a1 b0 b1 c0 c1 d0 d1 a0' a1' b0' b1' c0' c1' d0' d1'
   x0 x1 x2 : byte) (rest : list byte) :
  default false (isOpen (spyderData w)) = true ->
  dev w = Some u ->
  calibration (spyderData w) = Some cal ->
  settUp (spyderData w) = Some su ->
  0 <= v2 cal < 65536 -> 0 <= s1 su < 256 ->
  s3 su = x0 :: x1 :: x2 :: rest ->
  (forall k, (k < 6)%nat -> r_ok (reply_at w k) = true) ->
  length hdr = 5%nat -> length hdr' = 5%nat ->
  r_data (reply_at w 2) = hdr ++ [a0; a1; b0; b1; c0; c1; d0; d1] ->
  r_data (reply_at w 5) = hdr' ++ [a0'; a1'; b0'; b1'; c0'; c1'; d0'; d1'] ->
  exists w',
    (calibrate;; measure) w =
    (Ok (np_dot_vec_mat
           (uint16_be a0' a1' - uint16_be a0 a1,
            uint16_be b0' b1' - uint16_be b0 b1,
            uint16_be c0' c1' - uint16_be c0 c1) (matrix cal)), w') /\
    usb_cursor w' = (usb_cursor w + 6)%nat.
Proof.
  intros Hopen Hd Hcal Hsu Hv Hs Hs3 Hok Hh Hh' Hdata Hdata'.
  unfold reply_at in *.
  pose proof (Hok 0%nat ltac:(lia)) as K0. rewrite Nat.add_0_r in K0.
  pose proof (Hok 1%nat ltac:(lia)) as K1.
  pose proof (Hok 2%nat ltac:(lia)) as K2.
  pose proof (Hok 3%nat ltac:(lia)) as K3.
  pose proof (Hok 4%nat ltac:(lia)) as K4.
  pose proof (Hok 5%nat ltac:(lia)) as K5.
  pose proof (calibrate_open w u cal su hdr a0 a1 b0 b1 c0 c1 d0 d1 x0 x1 x2 rest
                Hopen Hd Hcal Hsu Hv Hs Hs3 K0 K1 K2 Hh Hdata) as Hc.
  rewrite (bind_ok _ _ _ _ _ Hc).
  match type of Hc with _ = (_, ?x) => set (w1 := x) end.
  pose proof (uint16_be_range a0 a1). pose proof (uint16_be_range b0 b1).
  pose proof (uint16_be_range c0 c1).
  pose proof (uint16_be_range a0' a1'). pose proof (uint16_be_range b0' b1').
  pose proof (uint16_be_range c0' c1').
  pose proof (byteZ_range x0). pose proof (byteZ_range x1).
  pose proof (byteZ_range x2).
  assert (Hm := measure_ok w1 u cal su hdr' a0' a1' b0' b1' c0' c1' d0' d1' x0 x1 x2
    rest (uint16_be a0 a1 - byteZ x0) (uint16_be b0 b1 - byteZ x1)
    (uint16_be c0 c1 - byteZ x2)).
  unfold w1, acquired in Hm.
  cbn [dev spyderData usb_replies usb_cursor with_data with_usb
       isOpen isBlackCal calibration settUp bcal set_isBlackCal set_bcal] in Hm.
  replace (usb_cursor w + 1 + 1 + 1)%nat with (usb_cursor w + 3)%nat in Hm by lia.
  replace (usb_cursor w + 3 + 1)%nat with (usb_cursor w + 4)%nat in Hm by lia.
  replace (usb_cursor w + 3 + 2)%nat with (usb_cursor w + 5)%nat in Hm by lia.
  change (2 ^ 62) with 4611686018427387904 in Hm.
  specialize (Hm Hopen eq_refl Hd Hcal Hsu eq_refl Hv Hs Hs3
                ltac:(lia) ltac:(lia) ltac:(lia) K3 K4 K5 Hh' Hdata').
  fold (acquired cal su w) in Hm.
  eexists. split.
  - unfold w1. rewrite Hm.
    replace (uint16_be a0' a1' - byteZ x0 - (uint16_be a0 a1 - byteZ x0))
      with (uint16_be a0' a1' - uint16_be a0 a1) by lia.
    replace (uint16_be b0' b1' - byteZ x1 - (uint16_be b0 b1 - byteZ x1))
      with (uint16_be b0' b1' - uint16_be b0 b1) by lia.
    replace (uint16_be c0' c1' - byteZ x2 - (uint16_be c0 c1 - byteZ x2))
      with (uint16_be c0' c1' - uint16_be c0 c1) by lia.
    reflexivity.
  - unfold acquired. cbn. lia.
Qed.

(** X11: [_get_amb_measure] unpacks [out[5:]] with the format [>HHBB],
    so the answer must have exactly 11 bytes: any other length raises
    [struct.error] after the exchange and stores nothing; with 11 bytes the
    stored tuple holds two 16-bit numbers and two bytes. *)
Theorem get_amb_measure_cases (w : World) (u : UsbDevice) :
  dev w = Some u ->
  r_ok (usb_replies w (usb_cursor w)) = true ->
  r_ok (usb_replies w (usb_cursor w + 1)) = true ->
  let out := r_data (usb_replies w (usb_cursor w + 1)) in
  let w2 := with_usb (BulkRead 0x81 11) 1
              (with_usb (BulkWrite 1 [0xd4; 0xa1; 0xc5; 0x00; 0x02; 0x65; 0x10]) 1 w) in
  (length out <> 11%nat -> _get_amb_measure w = (Raise StructError, w2)) /\
  (length out = 11%nat ->
   exists a b c d : Z,
     _get_amb_measure w = (Ok tt, with_data (set_amb (a, b, c, d) (spyderData w)) w2) /\
     0 <= a < 65536 /\ 0 <= b < 65536 /\ 0 <= c < 256 /\ 0 <= d < 256).
Proof.
  intros Hd H0 H1 out w2. split.
  - intros Hlen. unfold _get_amb_measure.
    rewrite (bind_ok _ _ _ _ _ (bulk_transfer_ok w u _ 11 Hd H0 H1)).
    fold out. fold w2. rewrite bind_lift.
    assert (Hu : unpack_HHBB (drop 5 out) = Raise StructError).
    { pose proof (length_drop out 5) as Hl. unfold unpack_HHBB.
      destruct (drop 5 out) as [|? [|? [|? [|? [|? [|? [|? ?]]]]]]];
        cbn in Hl; try reflexivity; lia. }
    rewrite Hu. reflexivity.
  - intros Hlen.
    destruct (length_11_split out Hlen) as (hdr & a0 & a1 & b0 & b1 & c & d & Hh & Hdata).
    exists (uint16_be a0 a1), (uint16_be b0 b1), (byteZ c), (byteZ d).
    split; [exact (get_amb_measure_ok w u hdr a0 a1 b0 b1 c d Hd H0 H1 Hh Hdata)|].
    pose proof (uint16_be_range a0 a1). pose proof (uint16_be_range b0 b1).
    pose proof (byteZ_range c). pose proof (byteZ_range d). auto.
Qed.


(** ** The prompt *)

Lemma wait_events_spec (evs : list Event) (waiting : bool) :
  wait_events evs waiting =
  if existsb is_QUIT evs then Returned false
  else Pending (waiting && negb (existsb confirms evs)).
Proof.
  revert waiting. induction evs as [|ev evs IH]; intros waiting.
  - cbn. rewrite andb_true_r. reflexivity.
  - destruct ev as [|key| |]; cbn [wait_events existsb is_QUIT confirms orb].
    + reflexivity.
    + rewrite IH. destruct (existsb is_QUIT evs); [reflexivity|].
      destruct (key =? K_RETURN); cbn [orb negb andb];
        [rewrite andb_false_r; reflexivity|reflexivity].
    + rewrite IH. destruct (existsb is_QUIT evs); [reflexivity|].
      cbn [orb negb andb]. rewrite andb_false_r. reflexivity.
    + rewrite IH. reflexivity.
Qed.

(** The polling loop, when the first [n] batches neither confirm nor quit
    and the next one does. *)
Lemma wait_loop_answer (n fuel : nat) (w : World) :
  (forall i, (i < n)%nat ->
     existsb is_QUIT (ui_events w (ui_cursor w + i)) = false /\
     existsb confirms (ui_events w (ui_cursor w + i)) = false) ->
  (n < fuel)%nat ->
  let evs := ui_events w (ui_cursor w + n) in
  existsb is_QUIT evs || existsb confirms evs = true ->
  exists w',
    wait_loop fuel w = (Ok (Some (negb (existsb is_QUIT evs))), w') /\
    ui_cursor w' = (ui_cursor w + S n)%nat /\ ui_events w' = ui_events w /\
    screen w' = screen w /\
    pygame_running w' = (if existsb is_QUIT evs then false else pygame_running w) /\
    dev w' = dev w /\ spyderData w' = spyderData w /\
    usb_cursor w' = usb_cursor w /\ usb_replies w' = usb_replies w /\
    usb_log w' = usb_log w /\ backend w' = backend w.
Proof.
  revert fuel w. induction n as [|n IH]; intros fuel w Hquiet Hfuel evs Hdec.
  - destruct fuel as [|fuel]; [lia|]. cbn [wait_loop].
    unfold mbind, M_bind, event_get. rewrite wait_events_spec.
    subst evs. rewrite Nat.add_0_r in *.
    destruct (existsb is_QUIT (ui_events w (ui_cursor w))) eqn:Hq.
    + eexists. split; [reflexivity|]. cbn. repeat split; lia.
    + cbn in Hdec. rewrite Hdec. cbn.
      eexists. split; [reflexivity|]. cbn. repeat split; lia.
  - destruct fuel as [|fuel]; [lia|]. cbn [wait_loop].
    unfold mbind, M_bind, event_get. rewrite wait_events_spec.
    destruct (Hquiet 0%nat ltac:(lia)) as [Hq Hc]. rewrite Nat.add_0_r in Hq, Hc.
    rewrite Hq, Hc. cbn [andb negb].
    destruct (IH fuel (with_ui_polled w)) as (w' & Hrun & Hrest).
    + intros i Hi. cbn. rewrite <- Nat.add_succ_r. apply Hquiet. lia.
    + lia.
    + cbn. rewrite <- Nat.add_succ_r. exact Hdec.
    + cbn in Hrun, Hrest.
      replace (S (ui_cursor w + n)) with (ui_cursor w + S n)%nat in Hrun, Hrest by lia.
      exists w'. split; [exact Hrun|].
      destruct Hrest as (H1 & H2 & H3 & H4 & H5 & H6 & H7 & H8 & H9 & H10).
      repeat split; try assumption. lia.
Qed.

(** X13: [wait_for_enter] paints the window white and polls the event
    queue until a batch holds a QUIT, a mouse click or a Return key press.
    It answers [False] exactly when that batch holds a QUIT, wherever the
    QUIT stands in the batch: a click that comes first in the same batch
    does not confirm.  After a QUIT pygame has been shut down.  The session
    and the USB stack are not touched. *)
Theorem wait_for_enter_answer (n fuel : nat) (w : World) :
  (forall i, (i < n)%nat ->
     existsb is_QUIT (ui_events w (ui_cursor w + i)) = false /\
     existsb confirms (ui_events w (ui_cursor w + i)) = false) ->
  (n < fuel)%nat ->
  let evs := ui_events w (ui_cursor w + n) in
  existsb is_QUIT evs || existsb confirms evs = true ->
  exists w',
    wait_for_enter fuel w = (Ok (Some (negb (existsb is_QUIT evs))), w') /\
    ui_cursor w' = (ui_cursor w + S n)%nat /\
    screen w' = (255, 255, 255) :: screen w /\
    pygame_running w' = (if existsb is_QUIT evs then false else pygame_running w) /\
    dev w' = dev w /\ spyderData w' = spyderData w /\
    usb_cursor w' = usb_cursor w /\ usb_log w' = usb_log w.
Proof.
  intros Hquiet Hfuel evs Hdec.
  destruct (wait_loop_answer n fuel (with_screen (255, 255, 255) w) Hquiet Hfuel Hdec)
    as (w' & Hrun & H1 & H2 & H3 & H4 & H5 & H6 & H7 & H8 & H9 & H10).
  exists w'. split; [exact Hrun|]. cbn in *. auto 10.
Qed.

(** ** The scan, entry by entry *)

Lemma ready_with_ready (cal : Calibration) (su : SetUp) (b : list Z) (w : World) :
  ready_with cal su b w -> ready w.
Proof. intros H. exists cal, su, b. exact H. Qed.

Lemma ready_with_session (cal : Calibration) (su : SetUp) (b : list Z) (w w' : World) :
  dev w' = dev w -> spyderData w' = spyderData w ->
  ready_with cal su b w -> ready_with cal su b w'.
Proof. intros Hd Hs H. unfold ready_with. rewrite Hd, Hs. exact H. Qed.

(** The value that [measure] returns on a ready session. *)
Lemma measure_value (cal : Calibration) (su : SetUp) (b : list Z) (w : World) :
  ready_with cal su b w -> good_frame w (usb_cursor w) ->
  exists xyz,
    xyz_of_frame cal su b (r_data (usb_replies w (usb_cursor w + 2))) = Ok xyz /\
    measure w = (Ok xyz, acquired cal su w).
Proof.
  intros (Hd & Hopen & Hbc & Hcal & Hsu & Hb & Hv & Hs & Hs3 & Hlen)
         (H0 & H1 & H2 & Hdata).
  destruct Hd as [u Hd].
  destruct (frame_split _ Hdata) as (hdr & a0 & a1 & b0 & b1 & c0 & c1 & d0 & d1 & Hh & Hdt).
  destruct b as [|k0 [|k1 [|k2 [|]]]]; try discriminate.
  assert (Hsub : exists e0 e1 e2,
    np_sub [uint16_be a0 a1; uint16_be b0 b1; uint16_be c0 c1]
           (map byteZ (py_slice (s3 su) 0 3)) = Ok [e0; e1; e2]).
  { destruct (s3 su) as [|x0 [|x1 [|x2 rest]]]; cbn in Hs3;
      [lia| |lia|rewrite py_slice_first3]; eexists _, _, _; reflexivity. }
  destruct Hsub as (e0 & e1 & e2 & Hsub).
  eexists. split.
  - unfold xyz_of_frame. rewrite Hdt, drop_app_length' by (symmetry; exact Hh).
    cbn [unpack_HHHH mbind result_bind]. unfold adjust.
    rewrite py_slice_first3, Hsub. cbn [mbind result_bind].
    unfold np_sub. cbn [length Nat.eqb zip_with first3 mbind result_bind].
    reflexivity.
  - unfold measure.
    rewrite (bind_ok _ _ w w true) by (rewrite get_flag_eq, Hopen; reflexivity).
    cbn [negb]. rewrite (bind_ok _ _ w w tt) by reflexivity.
    rewrite (bind_ok _ _ w w true) by (rewrite get_flag_eq, Hbc; reflexivity).
    cbn [negb]. rewrite (bind_ok _ _ w w tt) by reflexivity.
    rewrite (bind_ok _ _ _ _ _
      (acquire_ok w u cal su hdr a0 a1 b0 b1 c0 c1 d0 d1
         Hd Hcal Hsu Hv Hs H0 H1 H2 Hh Hdt)).
    set (w3 := acquired cal su w).
    rewrite (bind_ok _ _ _ _ _ (s3_first3_eq w3 su Hsu)).
    rewrite py_slice_first3, bind_lift, Hsub.
    rewrite (bind_ok _ _ w3 w3 [k0; k1; k2])
      by (unfold lookup_key; cbn; rewrite Hb; reflexivity).
    rewrite bind_lift. unfold np_sub. cbn [length Nat.eqb zip_with].
    rewrite bind_lift. cbn [first3].
    rewrite (bind_ok _ _ w3 w3 cal)
      by (unfold lookup_key; cbn; rewrite Hcal; reflexivity).
    reflexivity.
Qed.

(** One pass through the loop body with no QUIT in the batch polled after
    the measurement. *)
Lemma sample_value (cal : Calibration) (su : SetUp) (b : list Z)
  (resolution r g b' : Z) (l : Locals) (w : World) :
  resolution <> 1 -> ready_with cal su b w -> good_frame w (usb_cursor w) ->
  existsb is_QUIT (ui_events w (ui_cursor w)) = false ->
  exists xyz w',
    xyz_of_frame cal su b (r_data (usb_replies w (usb_cursor w + 2))) = Ok xyz /\
    sample resolution r g b' l w =
      (Ok (inl {| lut := <[(r, g, b') := xyz_to_lms xyz]> (lut l);
                  current_color := current_color l + 1 |}), w') /\
    progress 3 1 w w' /\
    screen w' = colour_of resolution (r, g, b') :: screen w /\
    pygame_running w' = pygame_running w /\
    ready_with cal su b w'.
Proof.
  intros Hres Hready Hframe Hq.
  set (c := colour_of resolution (r, g, b')).
  destruct (measure_value cal su b (with_screen c w) Hready Hframe) as (xyz & Hx & Hm).
  cbn [usb_replies usb_cursor with_screen] in Hx.
  exists xyz, (with_ui_polled (acquired cal su (with_screen c w))).
  split; [exact Hx|]. split.
  { unfold sample.
    do 3 (rewrite bind_lift, to_255_ok by exact Hres; cbv beta iota).
    rewrite (bind_ok _ _ w (with_screen c w) tt) by reflexivity.
    rewrite (bind_ok _ _ _ _ _ Hm).
    rewrite (bind_ok _ _ _ (with_ui_polled (acquired cal su (with_screen c w)))
               (ui_events w (ui_cursor w))) by reflexivity.
    rewrite Hq. reflexivity. }
  split; [unfold progress, acquired; cbn; repeat split; lia|].
  split; [reflexivity|]. split; [reflexivity|exact Hready].
Qed.

(** The loop body over a list of distinct points, with full frames and no
    QUIT: the counters, the colours shown and the entries stored. *)
Lemma for_each_entries (cal : Calibration) (su : SetUp) (b : list Z)
  (resolution : Z) (pts : list (Z * Z * Z)) :
  resolution <> 1 -> NoDup pts ->
  forall (l : Locals) (w : World),
    ready_with cal su b w ->
    (forall i, (i < length pts)%nat -> good_frame w (usb_cursor w + 3 * i)) ->
    (forall i, (i < length pts)%nat -> no_quit w (ui_cursor w + i)) ->
    exists l' w',
      for_each pts (sample_at resolution) l w = (Ok (inl l'), w') /\
      progress (3 * length pts) (length pts) w w' /\
      screen w' = rev (map (colour_of resolution) pts) ++ screen w /\
      pygame_running w' = pygame_running w /\
      current_color l' = current_color l + Z.of_nat (length pts) /\
      (forall k, k ∉ pts -> lut l' !! k = lut l !! k) /\
      (forall i p, pts !! i = Some p ->
         exists xyz,
           xyz_of_frame cal su b
             (r_data (usb_replies w (usb_cursor w + 3 * i + 2))) = Ok xyz /\
           lut l' !! p = Some (xyz_to_lms xyz)).
Proof.
  intros Hres Hnd. induction pts as [|p pts IH]; intros l w Hready Hframes Hquiet.
  - exists l, w. split; [reflexivity|]. split.
    { unfold progress. cbn. repeat split; lia. }
    split; [reflexivity|]. split; [reflexivity|]. split; [cbn; lia|].
    split; [reflexivity|]. intros i p Hp. discriminate.
  - destruct p as [[r g] b'].
    apply NoDup_cons in Hnd. destruct Hnd as [Hnotin Hnd].
    assert (Hf0 : good_frame w (usb_cursor w)).
    { specialize (Hframes 0%nat). rewrite Nat.mul_0_r, Nat.add_0_r in Hframes.
      apply Hframes. cbn. lia. }
    assert (Hq0 : existsb is_QUIT (ui_events w (ui_cursor w)) = false).
    { specialize (Hquiet 0%nat). rewrite Nat.add_0_r in Hquiet.
      apply Hquiet. cbn. lia. }
    destruct (sample_value cal su b resolution r g b' l w Hres Hready Hf0 Hq0)
      as (xyz & w1 & Hx & Hs & Hp & Hsc & Hpg & Hready1).
    pose proof Hp as (P1 & P2 & P3 & P4 & P5 & P6).
    destruct (IH Hnd {| lut := <[(r, g, b') := xyz_to_lms xyz]> (lut l);
                        current_color := current_color l + 1 |} w1 Hready1)
      as (l' & w' & Hrun & Hp' & Hsc' & Hpg' & Hcc & Hkeep & Hent).
    { intros i Hi. unfold good_frame. rewrite P3, P4.
      replace (usb_cursor w + 3 + 3 * i)%nat with (usb_cursor w + 3 * S i)%nat by lia.
      apply Hframes. cbn. lia. }
    { intros i Hi. unfold no_quit. rewrite P5, P6.
      replace (ui_cursor w + 1 + i)%nat with (ui_cursor w + S i)%nat by lia.
      apply Hquiet. cbn. lia. }
    exists l', w'. split.
    { cbn [for_each]. unfold sample_at at 1. cbn [fst snd].
      rewrite (bind_ok _ _ _ _ _ Hs). exact Hrun. }
    split.
    { pose proof (progress_trans _ _ _ _ _ _ _ Hp Hp') as Ht.
      replace (3 * length ((r, g, b') :: pts))%nat with (3 + 3 * length pts)%nat
        by (cbn [length]; lia).
      exact Ht. }
    split.
    { rewrite Hsc', Hsc. cbn [map rev]. rewrite <- app_assoc. reflexivity. }
    split; [congruence|].
    split; [rewrite Hcc; cbn [current_color length]; lia|].
    split.
    { intros k Hk. apply not_elem_of_cons in Hk. destruct Hk as [Hne Hk].
      rewrite (Hkeep k Hk). cbn [lut]. apply lookup_insert_ne. congruence. }
    intros i p Hp0. destruct i as [|i].
    + injection Hp0 as <-. exists xyz. split.
      * rewrite Nat.mul_0_r, Nat.add_0_r. exact Hx.
      * rewrite (Hkeep _ Hnotin). cbn [lut]. apply lookup_insert_eq.
    + cbn in Hp0. destruct (Hent i p Hp0) as (xyz' & Hx' & Hl').
      exists xyz'. split; [|exact Hl'].
      rewrite P3, P4 in Hx'.
      replace (usb_cursor w + 3 * S i + 2)%nat with (usb_cursor w + 3 + 3 * i + 2)%nat
        by lia.
      exact Hx'.
Qed.

Lemma closed_world_frame (w : World) :
  usb_cursor (closed_world w) = usb_cursor w /\
  ui_cursor (closed_world w) = ui_cursor w /\
  screen (closed_world w) = screen w /\
  pygame_running (closed_world w) = pygame_running w.
Proof. unfold closed_world. destruct (dev w); cbn; repeat split; lia. Qed.

(** A complete scan, from the first sample to the end of [generate_lut]. *)
Lemma scan_complete (cal : Calibration) (su : SetUp) (b : list Z)
  (resolution : Z) (w : World) :
  2 <= resolution ->
  ready_with cal su b w ->
  (forall i, (i < length (grid resolution))%nat ->
     good_frame w (usb_cursor w + 3 * i)) ->
  (forall i, (i < length (grid resolution))%nat -> no_quit w (ui_cursor w + i)) ->
  exists l' w',
    scan resolution w = (Ok (lut l'), with_pygame_quit (closed_world w')) /\
    progress (3 * length (grid resolution)) (length (grid resolution)) w w' /\
    screen w' = rev (map (colour_of resolution) (grid resolution)) ++ screen w /\
    current_color l' = resolution ^ 3 /\
    (forall i p, grid resolution !! i = Some p ->
       exists xyz,
         xyz_of_frame cal su b
           (r_data (usb_replies w (usb_cursor w + 3 * i + 2))) = Ok xyz /\
         lut l' !! p = Some (xyz_to_lms xyz)).
Proof.
  intros Hres Hready Hframes Hquiet.
  destruct (for_each_entries cal su b resolution (grid resolution) ltac:(lia)
              (NoDup_grid resolution) {| lut := ∅; current_color := 0 |} w
              Hready Hframes Hquiet)
    as (l' & w' & Hrun & Hp & Hsc & _ & Hcc & _ & Hent).
  exists l', w'. split; [rewrite scan_eq, Hrun; reflexivity|].
  split; [exact Hp|]. split; [exact Hsc|]. split; [|exact Hent].
  rewrite Hcc. cbn [current_color]. rewrite grid_length_Z by lia. lia.
Qed.

(** X14: the content of the LUT.  In an uninterrupted scan the entry of
    the [i]-th grid point, in the order of the three nested loops, is the
    LMS conversion of what [measure] computes from the [i]-th frame that the
    device sends after the black calibration: the XYZ value of the counts of
    that frame, with the calibration, the setup block and the black counts
    that the session holds when the loops start. *)
Theorem generate_lut_entries (fuel : nat) (resolution : Z) (w w2 : World) :
  2 <= resolution ->
  scan_starts_at fuel w w2 ->
  (forall i, (Z.of_nat i < resolution ^ 3) ->
     good_frame w2 (usb_cursor w2 + 3 * i)) ->
  (forall i, (Z.of_nat i < resolution ^ 3) -> no_quit w2 (ui_cursor w2 + i)) ->
  exists table w' cal su b,
    generate_lut fuel resolution w = (Ok (ReturnLut table), w') /\
    calibration (spyderData w2) = Some cal /\
    settUp (spyderData w2) = Some su /\
    bcal (spyderData w2) = Some b /\
    forall i p, grid resolution !! i = Some p ->
      exists xyz,
        xyz_of_frame cal su b
          (r_data (usb_replies w2 (usb_cursor w2 + 3 * i + 2))) = Ok xyz /\
        table !! p = Some (xyz_to_lms xyz).
Proof.
  intros Hres Hstart Hframes Hquiet.
  destruct (prelude_ready fuel w w2 Hstart) as (cal & su & b & Hready).
  pose proof (grid_length_Z resolution ltac:(lia)) as Hlen.
  destruct (scan_complete cal su b resolution w2 Hres Hready)
    as (l' & w' & Hscan & _ & _ & _ & Hent).
  { intros i Hi. apply Hframes. lia. }
  { intros i Hi. apply Hquiet. lia. }
  exists (lut l'), (with_pygame_quit (closed_world w')), cal, su, b.
  split; [rewrite (generate_lut_from fuel resolution w w2 Hstart), Hscan; reflexivity|].
  destruct Hready as (_ & _ & _ & Hcal & Hsu & Hb & _). auto.
Qed.

(** X15: the course of an uninterrupted scan.  After the black
    calibration [generate_lut] shows the resolution^3 colours of the grid in
    the order of the loops, the blue index running fastest, each channel
    being the truncated quotient [index * 255 / (resolution - 1)]; it makes
    three calls into the USB stack and polls the event queue once per
    colour; at the end the session is marked closed, still marked
    black-calibrated, and pygame is shut down. *)
Theorem generate_lut_trace (fuel : nat) (resolution : Z) (w w2 : World) :
  2 <= resolution ->
  scan_starts_at fuel w w2 ->
  (forall i, (Z.of_nat i < resolution ^ 3) ->
     good_frame w2 (usb_cursor w2 + 3 * i)) ->
  (forall i, (Z.of_nat i < resolution ^ 3) -> no_quit w2 (ui_cursor w2 + i)) ->
  exists table w',
    generate_lut fuel resolution w = (Ok (ReturnLut table), w') /\
    screen w' = rev (map (colour_of resolution) (grid resolution)) ++ screen w2 /\
    Z.of_nat (usb_cursor w') = Z.of_nat (usb_cursor w2) + 3 * resolution ^ 3 /\
    Z.of_nat (ui_cursor w') = Z.of_nat (ui_cursor w2) + resolution ^ 3 /\
    isOpen (spyderData w') = Some false /\
    isBlackCal (spyderData w') = Some true /\
    pygame_running w' = false.
Proof.
  intros Hres Hstart Hframes Hquiet.
  destruct (prelude_ready fuel w w2 Hstart) as (cal & su & b & Hready).
  pose proof (grid_length_Z resolution ltac:(lia)) as Hlen.
  destruct (scan_complete cal su b resolution w2 Hres Hready)
    as (l' & w' & Hscan & Hp & Hsc & _ & _).
  { intros i Hi. apply Hframes. lia. }
  { intros i Hi. apply Hquiet. lia. }
  exists (lut l'), (with_pygame_quit (closed_world w')).
  split; [rewrite (generate_lut_from fuel resolution w w2 Hstart), Hscan; reflexivity|].
  destruct Hp as (P1 & P2 & P3 & P4 & P5 & P6).
  destruct (closed_world_frame w') as (C1 & C2 & C3 & C4).
  destruct Hready as (_ & _ & Hbc & _).
  cbn [screen usb_cursor ui_cursor spyderData pygame_running with_pygame_quit].
  rewrite C1, C2, C3, closed_world_data, P2, P4, P6, Hsc.
  cbn [isOpen isBlackCal set_isOpen].
  repeat split; try assumption; lia.
Qed.

(** ** The other ways through [generate_lut] *)

Lemma wait_for_enter_loop (fuel : nat) (w : World) :
  wait_for_enter fuel w = wait_loop fuel (with_screen (255, 255, 255) w).
Proof. reflexivity. Qed.

(** A new session object and one call of [initialize]. *)
Lemma new_session_initialize (w wb : World) (r : bool) :
  (SpyderX;; initialize) w = (Ok r, wb) ->
  ui_events wb = ui_events w /\ ui_cursor wb = ui_cursor w /\
  screen wb = screen w /\ pygame_running wb = pygame_running w /\
  bcal (spyderData wb) = None /\ isBlackCal (spyderData wb) = None /\
  (if r then isOpen (spyderData wb) = Some true
   else isOpen (spyderData wb) = None /\ settUp (spyderData wb) = None).
Proof.
  intros H. unfold mbind, M_bind in H.
  destruct (SpyderX w) as [[[]|e] wa] eqn:Hnew; [|discriminate].
  unfold SpyderX in Hnew. destruct (backend w); [|discriminate].
  injection Hnew as <-.
  pose proof (initialize_spec _ _ (eq_refl (with_data empty_data (with_dev None w))))
    as Hspec.
  rewrite H in Hspec. destruct r.
  - destruct Hspec as ((_ & He & Hc & Hs & _ & Hp & _) & (Hb & Hbc) & Hopen & _).
    cbn in *. auto 10.
  - destruct Hspec as ((_ & He & Hc & Hs & _ & Hp & _) & (Hb & Hbc) & Hopen & Hsu).
    cbn in *. auto 10.
Qed.

(** X16: when the operator closes the window at the prompt,
    [generate_lut] returns [None]: the session is marked closed, no black
    calibration and no measurement have taken place (the USB stack was last
    used by [initialize]), the window was painted white only, and pygame is
    shut down. *)
Theorem generate_lut_quit_at_prompt
  (fuel n : nat) (resolution : Z) (w wb : World) (r : bool) :
  (SpyderX;; initialize) w = (Ok r, wb) ->
  (forall i, (i < n)%nat ->
     existsb is_QUIT (ui_events w (ui_cursor w + i)) = false /\
     existsb confirms (ui_events w (ui_cursor w + i)) = false) ->
  (n < fuel)%nat ->
  existsb is_QUIT (ui_events w (ui_cursor w + n)) = true ->
  exists w',
    generate_lut fuel resolution w = (Ok ReturnNone, w') /\
    isOpen (spyderData w') = Some false /\
    isBlackCal (spyderData w') = None /\
    usb_cursor w' = usb_cursor wb /\
    screen w' = (255, 255, 255) :: screen w /\
    pygame_running w' = false.
Proof.
  intros Hinit Hquiet Hfuel Hquit.
  destruct (new_session_initialize w wb r Hinit) as (He & Hc & Hs & _ & _ & Hbc & _).
  destruct (wait_loop_answer n fuel (with_screen (255, 255, 255) wb)) as (w1 & Hrun & Hrest).
  { cbn. rewrite He, Hc. exact Hquiet. }
  { exact Hfuel. }
  { cbn. rewrite He, Hc, Hquit. reflexivity. }
  cbn [ui_events ui_cursor with_screen] in Hrun, Hrest.
  rewrite He, Hc, Hquit in Hrun, Hrest. cbn [negb] in Hrun.
  destruct Hrest as (_ & _ & Hsc & Hpg & Hd & Hdata & Hu & _).
  destruct (closed_world_frame w1) as (C1 & C2 & C3 & C4).
  exists (closed_world w1). split.
  - unfold generate_lut.
    unfold mbind, M_bind in Hinit |- *.
    destruct (SpyderX w) as [[[]|e] wa]; [|discriminate].
    rewrite Hinit, wait_for_enter_loop, Hrun.
    rewrite close_eq. reflexivity.
  - rewrite closed_world_data, C1, C3, C4, Hdata, Hu, Hsc, Hpg.
    cbn. rewrite Hbc, Hs. auto.
Qed.

Lemma py_range_nonpositive (n : Z) : n <= 0 -> py_range n = [].
Proof.
  intros H. unfold py_range, seqZ. replace (Z.to_nat n) with 0%nat by lia. reflexivity.
Qed.

(** X17: the resolutions that draw no grid.  With [resolution <= 0] the
    loops do nothing and [generate_lut] returns an empty table after closing
    the session; with [resolution = 1] the first quantization divides by
    zero: [ZeroDivisionError] leaves [generate_lut] before any colour is
    shown, and the session stays open. *)
Theorem generate_lut_degenerate (fuel : nat) (resolution : Z) (w w2 : World) :
  scan_starts_at fuel w w2 ->
  (resolution <= 0 ->
   generate_lut fuel resolution w =
   (Ok (ReturnLut ∅), with_pygame_quit (closed_world w2))) /\
  (resolution = 1 ->
   generate_lut fuel resolution w = (Raise ZeroDivisionError, w2) /\
   isOpen (spyderData w2) = Some true).
Proof.
  intros Hstart. rewrite (generate_lut_from fuel resolution w w2 Hstart). split.
  - intros Hres. rewrite scan_eq.
    assert (Hg : grid resolution = []).
    { unfold grid. rewrite py_range_nonpositive by exact Hres. reflexivity. }
    rewrite Hg. reflexivity.
  - intros ->. split.
    + rewrite scan_eq. reflexivity.
    + destruct (prelude_ready fuel w w2 Hstart) as (cal & su & b & _ & Hopen & _).
      exact Hopen.
Qed.

(** X18: with no device on the bus [generate_lut] does not stop at
    [initialize]: it prompts the operator, and after the confirmation
    [calibrate] looks for the device once more and then fails on the missing
    handle with [AttributeError].  Nothing is stored in the session, the
    window stays open, painted black. *)
Theorem generate_lut_without_device (fuel n : nat) (resolution : Z) (w : World) :
  backend w = true ->
  r_ok (reply_at w 0) = true -> r_flag (reply_at w 0) = false ->
  r_ok (reply_at w 1) = true -> r_flag (reply_at w 1) = false ->
  (forall i, (i < n)%nat ->
     existsb is_QUIT (ui_events w (ui_cursor w + i)) = false /\
     existsb confirms (ui_events w (ui_cursor w + i)) = false) ->
  (n < fuel)%nat ->
  existsb is_QUIT (ui_events w (ui_cursor w + n)) = false ->
  existsb confirms (ui_events w (ui_cursor w + n)) = true ->
  exists w',
    generate_lut fuel resolution w = (Raise AttributeError, w') /\
    dev w' = None /\ spyderData w' = empty_data /\
    usb_cursor w' = (usb_cursor w + 2)%nat /\
    screen w' = (0, 0, 0) :: (255, 255, 255) :: screen w /\
    pygame_running w' = pygame_running w.
Proof.
  intros Hback H0 F0 H1 F1 Hquiet Hfuel Hnq Hconf.
  unfold reply_at in *. rewrite Nat.add_0_r in H0, F0.
  set (wa := with_data empty_data (with_dev None w)).
  assert (Hnew : SpyderX w = (Ok tt, wa)) by (unfold SpyderX; rewrite Hback; reflexivity).
  pose proof (initialize_no_device wa H0 F0) as Hinit.
  set (wb := with_dev None (with_usb (Find 0x085C 0x0A00) 1 wa)) in Hinit.
  destruct (wait_loop_answer n fuel (with_screen (255, 255, 255) wb) Hquiet Hfuel)
    as (w1 & Hrun & Hrest).
  { cbn. rewrite Hnq, Hconf. reflexivity. }
  cbn [ui_events ui_cursor with_screen with_dev with_usb with_data wa wb] in Hrun, Hrest.
  rewrite Hnq in Hrun, Hrest. cbn [negb] in Hrun.
  destruct Hrest as (_ & _ & Hsc & Hpg & Hd & Hdata & Hu & Hr & _).
  cbn in Hsc, Hpg, Hd, Hdata, Hu, Hr.
  set (wd := with_screen (0, 0, 0) w1).
  assert (Hclosed : default false (isOpen (spyderData wd)) = false)
    by (cbn; rewrite Hdata; reflexivity).
  assert (Hinit2 : initialize wd =
            (Ok false, with_dev None (with_usb (Find 0x085C 0x0A00) 1 wd))).
  { apply initialize_no_device; cbn; rewrite Hr, Hu; assumption. }
  eexists. split.
  - unfold generate_lut.
    rewrite (bind_ok _ _ _ _ _ Hnew), (bind_ok _ _ _ _ _ Hinit).
    rewrite (bind_ok _ _ _ _ _ (eq_trans (wait_for_enter_loop fuel wb) Hrun)).
    cbv beta iota.
    rewrite (bind_ok _ _ w1 wd tt) by reflexivity.
    apply bind_raise.
    rewrite (calibrate_closed wd Hclosed), Hinit2.
    unfold calibrate_body, acquire.
    apply bind_raise, bind_raise. apply control_transfer_no_device. reflexivity.
  - cbn. rewrite Hdata, Hu, Hsc, Hpg. repeat split; lia.
Qed.

(** ** [main] of [spyderx.py] *)

Lemma try_finally_close {A : Type} (m : M A) (w : World) :
  try_finally m close w = (fst (m w), closed_world (snd (m w))).
Proof.
  unfold try_finally. destruct (m w) as [r w']. rewrite close_eq. reflexivity.
Qed.

Lemma closed_world_log (w : World) :
  is_Some (dev (closed_world w)) -> head (usb_log (closed_world w)) = Some DisposeResources.
Proof.
  unfold closed_world. destruct (dev w) eqn:Hd; cbn.
  - reflexivity.
  - rewrite Hd. intros [x Hx]. discriminate.
Qed.

(** X19: [main] closes the session on every way out.  Once the session
    object exists, whatever [initialize], [calibrate] and the measurements
    do, [main] ends with the session marked closed and, if a device handle
    was obtained, with [dispose_resources] as its last call into the USB
    stack; an exception of the body is raised again after that.  When
    [initialize] returns [False], [main] neither calibrates nor measures and
    returns normally.  Only a missing libusb backend escapes this: the
    constructor raises before the [try]. *)
Theorem main_closes_session (n : nat) (w : World) :
  (backend w = false ->
   exists w', main n w =
     (Raise (ValueError "Libusb backend not found. Check if the path is correct."), w') /\
     isOpen (spyderData w') = None /\ usb_log w' = usb_log w) /\
  (backend w = true ->
   let wa := with_data empty_data (with_dev None w) in
   (let '(r, w') := main n w in
    isOpen (spyderData w') = Some false /\
    (is_Some (dev w') -> head (usb_log w') = Some DisposeResources)) /\
   (forall wb, initialize wa = (Ok false, wb) ->
      main n w = (Ok tt, closed_world wb)) /\
   (forall e wb, initialize wa = (Raise e, wb) ->
      main n w = (Raise e, closed_world wb)) /\
   (forall e wb wc, initialize wa = (Ok true, wb) -> calibrate wb = (Raise e, wc) ->
      main n w = (Raise e, closed_world wc))).
Proof.
  split.
  - intros Hb. eexists. split.
    + unfold main. apply bind_raise. unfold SpyderX. rewrite Hb. reflexivity.
    + split; reflexivity.
  - intros Hb wa.
    assert (Hnew : SpyderX w = (Ok tt, wa)) by (unfold SpyderX; rewrite Hb; reflexivity).
    assert (Hmain : forall body : M unit,
              (SpyderX;; try_finally body close) w =
              (fst (body wa), closed_world (snd (body wa)))).
    { intros body. rewrite (bind_ok _ _ _ _ _ Hnew). apply try_finally_close. }
    unfold main. rewrite Hmain. split; [|split; [|split]].
    + cbn [fst snd]. split.
      * rewrite closed_world_data. reflexivity.
      * apply closed_world_log.
    + intros wb Hinit. rewrite (bind_ok _ _ _ _ _ Hinit). reflexivity.
    + intros e wb Hinit. rewrite (bind_raise _ _ _ _ _ Hinit). reflexivity.
    + intros e wb wc Hinit Hcal. rewrite (bind_ok _ _ _ _ _ Hinit).
      rewrite (bind_raise _ _ _ _ _ Hcal). reflexivity.
Qed.

(** The loop of [main] on a ready session whose device keeps sending full
    frames. *)
Lemma measure_loop_ok (cal : Calibration) (su : SetUp) (b : list Z) (n : nat) :
  forall w : World,
    ready_with cal su b w ->
    (forall i, (i < n)%nat -> good_frame w (usb_cursor w + 3 * i)) ->
    exists w', measure_loop n w = (Ok tt, w') /\ usb_advance (3 * n) w w'.
Proof.
  induction n as [|n IH]; intros w Hready Hframes.
  - exists w. split; [reflexivity|].
    unfold usb_advance. cbn. repeat split; lia.
  - assert (Hf0 : good_frame w (usb_cursor w)).
    { specialize (Hframes 0%nat). rewrite Nat.mul_0_r, Nat.add_0_r in Hframes.
      apply Hframes. lia. }
    destruct (measure_value cal su b w Hready Hf0) as (xyz & _ & Hm).
    pose proof (acquired_advance cal su w) as (A1 & A2 & A3 & A4 & A5 & A6 & A7).
    destruct (IH (acquired cal su w)) as (w' & Hrun & B1 & B2 & B3 & B4 & B5 & B6 & B7).
    { apply (ready_with_session cal su b w); assumption. }
    { intros i Hi. unfold good_frame. rewrite A3, A4.
      replace (usb_cursor w + 3 + 3 * i)%nat with (usb_cursor w + 3 * S i)%nat by lia.
      apply Hframes. lia. }
    exists w'. split.
    + cbn [measure_loop]. rewrite (bind_ok _ _ _ _ _ Hm). exact Hrun.
    + unfold usb_advance. rewrite B1, B2, B3, B4, B5, B6, B7, A1, A2, A3, A4, A5, A6, A7.
      repeat split; lia.
Qed.

Lemma py_slice_10_14 {A : Type} (l : list A) :
  (13 <= length l)%nat ->
  exists x0 x1 x2 rest, py_slice l 10 14 = x0 :: x1 :: x2 :: rest.
Proof.
  intros H. unfold py_slice.
  pose proof (length_drop l 10) as Hd.
  destruct (drop 10 l) as [|x0 [|x1 [|x2 rest]]]; cbn in Hd; try lia.
  exists x0, x1, x2, (take 1 rest). reflexivity.
Qed.

Lemma good_frame_replies (w w' : World) (n : nat) :
  usb_replies w' = usb_replies w -> good_frame w n -> good_frame w' n.
Proof. intros Hr H. unfold good_frame. rewrite Hr. exact H. Qed.

(** X20: a whole run of [main] on a cooperative device whose setup answer
    has at least 13 bytes and which sends a full frame for the black
    calibration and for each of the [n] measurements made before the
    operator interrupts: [main] returns normally after 17 + 3 (n + 1) calls
    into the USB stack, followed by [dispose_resources]; the session ends
    marked closed and black-calibrated, with the identifiers that the device
    reported. *)
Theorem main_session (n : nat) (w : World) (hw sn : string) :
  backend w = true ->
  cooperative w hw sn ->
  (13 <= length (r_data (reply_at w 16)))%nat ->
  (forall k, (k <= n)%nat -> good_frame w (usb_cursor w + 17 + 3 * k)) ->
  exists w',
    main n w = (Ok tt, w') /\
    usb_cursor w' = (usb_cursor w + 17 + 3 * S n)%nat /\
    head (usb_log w') = Some DisposeResources /\
    isOpen (spyderData w') = Some false /\
    isBlackCal (spyderData w') = Some true /\
    HWvn (spyderData w') = Some hw /\ serNo (spyderData w') = Some sn.
Proof.
  intros Hb Hcoop Hlen Hframes.
  set (wa := with_data empty_data (with_dev None w)).
  assert (Hnew : SpyderX w = (Ok tt, wa)) by (unfold SpyderX; rewrite Hb; reflexivity).
  destruct (initialize_ok wa hw sn Hcoop)
    as (w1 & cal & su & a & Hinit & Hc1 & Hd1 & Hdata1 & _ & Hv2 & Hs1 & _ & Hs3).
  pose proof (initialize_spec wa wa eq_refl) as Hspec. rewrite Hinit in Hspec.
  destruct Hspec as ((Hr1 & _) & _).
  change (reply_at wa 16) with (reply_at w 16) in Hs3.
  cbn [usb_cursor usb_replies wa with_data with_dev] in Hc1, Hr1.
  destruct (py_slice_10_14 _ Hlen) as (x0 & x1 & x2 & rest & Hsl).
  rewrite Hsl in Hs3.
  destruct (Hframes 0%nat ltac:(lia)) as (F0 & F1 & F2 & Fd).
  rewrite Nat.mul_0_r, Nat.add_0_r in F0, F1, F2, Fd.
  destruct (frame_split _ Fd) as (hdr & a0 & a1 & b0 & b1 & c0 & c1 & d0 & d1 & Hh & Hdt).
  assert (Hcal : calibrate w1 = _) by
    (apply (calibrate_open w1 SpyderXDevice cal su hdr a0 a1 b0 b1 c0 c1 d0 d1
              x0 x1 x2 rest);
     rewrite ?Hdata1, ?Hr1, ?Hc1; try assumption; reflexivity).
  match type of Hcal with _ = (_, ?x) => set (w2 := x) in Hcal end.
  assert (Hready : ready_with cal su
            [uint16_be a0 a1 - byteZ x0; uint16_be b0 b1 - byteZ x1;
             uint16_be c0 c1 - byteZ x2] w2).
  { unfold ready_with, w2, acquired. cbn. rewrite Hd1, Hdata1, Hs3. cbn.
    repeat split; eauto; lia. }
  destruct (measure_loop_ok cal su _ n w2 Hready) as (w3 & Hloop & Hadv).
  { intros i Hi. apply (good_frame_replies w);
      [unfold w2, acquired; cbn [usb_replies with_data with_usb]; exact Hr1|].
    unfold w2, acquired. cbn [usb_cursor with_data with_usb]. rewrite Hc1.
    replace (usb_cursor w + 17 + 1 + 1 + 1 + 3 * i)%nat
      with (usb_cursor w + 17 + 3 * S i)%nat by lia.
    apply Hframes. lia. }
  destruct Hadv as (A1 & A2 & A3 & A4 & A5 & A6 & A7).
  exists (closed_world w3). split.
  - unfold main. rewrite (bind_ok _ _ _ _ _ Hnew), try_finally_close.
    rewrite (bind_ok _ _ _ _ _ Hinit). cbv beta iota.
    rewrite (bind_ok _ _ _ _ _ Hcal), Hloop. reflexivity.
  - destruct (closed_world_frame w3) as (C1 & _).
    rewrite C1, closed_world_data, A2, A4.
    split; [unfold w2, acquired; cbn; lia|].
    split; [apply closed_world_log; rewrite closed_world_dev, A1;
            unfold w2, acquired; cbn; rewrite Hd1; eauto|].
    unfold w2. cbn. rewrite Hdata1. cbn. auto.
Qed.

Lemma unpack_HHHH_short (data : list byte) :
  length data <> 8%nat -> unpack_HHHH data = Raise StructError.
Proof.
  intros H. unfold unpack_HHHH.
  destruct data as [|? [|? [|? [|? [|? [|? [|? [|? [|? ?]]]]]]]]];
    cbn in H; try reflexivity; lia.
Qed.

Lemma measure_short_frame (w : World) :
  ready w ->
  r_ok (usb_replies w (usb_cursor w)) = true ->
  r_ok (usb_replies w (usb_cursor w + 1)) = true ->
  r_ok (usb_replies w (usb_cursor w + 2)) = true ->
  length (r_data (usb_replies w (usb_cursor w + 2))) <> 13%nat ->
  exists w', measure w = (Raise StructError, w').
Proof.
  intros (cal & su & b & Hd & Hopen & Hbc & Hcal & Hsu & Hb & Hv & Hs & Hs3 & Hlen)
         H0 H1 H2 Hshort.
  destruct Hd as [u Hd].
  pose proof (send_in_range cal su Hv Hs) as Hrange.
  eexists. unfold measure.
  rewrite (bind_ok _ _ w w true) by (rewrite get_flag_eq, Hopen; reflexivity).
  cbn [negb]. rewrite (bind_ok _ _ w w tt) by reflexivity.
  rewrite (bind_ok _ _ w w true) by (rewrite get_flag_eq, Hbc; reflexivity).
  cbn [negb]. rewrite (bind_ok _ _ w w tt) by reflexivity.
  apply bind_raise. unfold acquire.
  rewrite (bind_ok _ _ _ _ tt (control_transfer_ok w u _ _ _ _ Hd H0)).
  set (w1 := with_usb (CtrlTransfer 65 2 2 0) 1 w).
  rewrite (bind_ok _ _ w1 w1 cal) by (unfold lookup_key; cbn; rewrite Hcal; reflexivity).
  rewrite (bind_ok _ _ w1 w1 su) by (unfold lookup_key; cbn; rewrite Hsu; reflexivity).
  rewrite bind_lift, (py_bytes_ok _ Hrange), (map_byteZ_byte_of_Z _ Hrange).
  assert (Hb' := bulk_transfer_ok w1 u (acquire_cmd cal su) 13).
  cbn [w1 dev with_usb usb_cursor usb_replies] in Hb'.
  replace (usb_cursor w + 1 + 1)%nat with (usb_cursor w + 2)%nat in Hb' by lia.
  specialize (Hb' Hd H1 H2). unfold acquire_cmd in Hb'.
  rewrite (bind_ok _ _ _ _ _ Hb').
  unfold lift. rewrite unpack_HHHH_short; [reflexivity|].
  rewrite length_drop. lia.
Qed.

(** X21: on a session that is ready (open, black-calibrated, holding the
    data of [initialize]) the outcome of [measure] is decided by the three
    answers of the device alone: when one of the three calls fails it raises
    [USBError]; when all succeed it returns if the frame has 13 bytes and
    raises [struct.error] if it has any other length. *)
Theorem measure_outcomes (w : World) :
  ready w ->
  (r_ok (usb_replies w (usb_cursor w)) = false \/
   r_ok (usb_replies w (usb_cursor w + 1)) = false \/
   r_ok (usb_replies w (usb_cursor w + 2)) = false ->
   exists w', measure w = (Raise USBError, w')) /\
  (r_ok (usb_replies w (usb_cursor w)) = true ->
   r_ok (usb_replies w (usb_cursor w + 1)) = true ->
   r_ok (usb_replies w (usb_cursor w + 2)) = true ->
   (length (r_data (usb_replies w (usb_cursor w + 2))) = 13%nat ->
    exists xyz w', measure w = (Ok xyz, w')) /\
   (length (r_data (usb_replies w (usb_cursor w + 2))) <> 13%nat ->
    exists w', measure w = (Raise StructError, w'))).
Proof.
  intros Hready. split.
  - apply (measure_usb_fail w Hready).
  - intros H0 H1 H2. split.
    + intros Hlen.
      destruct (measure_ready w Hready) as (xyz & w' & Hm & _).
      { unfold good_frame. auto. }
      exists xyz, w'. exact Hm.
    + intros Hlen. exact (measure_short_frame w Hready H0 H1 H2 Hlen).
Qed.

(** X22: [generate_lut] from the first call to the last, under
    assumptions on the outside world only.  With a libusb backend, a
    cooperative device whose setup answer has at least 13 bytes, an operator
    who confirms at the prompt, a full frame for the black calibration and
    for every grid point, and no QUIT event during the scan, [generate_lut]
    returns a table of resolution^3 entries. *)
Theorem generate_lut_end_to_end
  (fuel n : nat) (resolution : Z) (w : World) (hw sn : string) :
  2 <= resolution ->
  backend w = true ->
  cooperative w hw sn ->
  (13 <= length (r_data (reply_at w 16)))%nat ->
  (forall i, (i < n)%nat ->
     existsb is_QUIT (ui_events w (ui_cursor w + i)) = false /\
     existsb confirms (ui_events w (ui_cursor w + i)) = false) ->
  (n < fuel)%nat ->
  existsb is_QUIT (ui_events w (ui_cursor w + n)) = false ->
  existsb confirms (ui_events w (ui_cursor w + n)) = true ->
  (forall k, Z.of_nat k <= resolution ^ 3 ->
     good_frame w (usb_cursor w + 17 + 3 * k)) ->
  (forall i, Z.of_nat i < resolution ^ 3 -> no_quit w (ui_cursor w + S n + i)) ->
  exists table w',
    generate_lut fuel resolution w = (Ok (ReturnLut table), w') /\
    Z.of_nat (size table) = resolution ^ 3.
Proof.
  intros Hres Hb Hcoop Hlen Hquiet Hfuel Hnq Hconf Hframes Hscanq.
  set (wa := with_data empty_data (with_dev None w)).
  assert (Hnew : SpyderX w = (Ok tt, wa)) by (unfold SpyderX; rewrite Hb; reflexivity).
  destruct (initialize_ok wa hw sn Hcoop)
    as (w1 & cal & su & a & Hinit & Hc1 & Hd1 & Hdata1 & _ & Hv2 & Hs1 & _ & Hs3).
  pose proof (initialize_spec wa wa eq_refl) as Hspec. rewrite Hinit in Hspec.
  destruct Hspec as ((Hr1 & He1 & Hu1 & _) & _).
  change (reply_at wa 16) with (reply_at w 16) in Hs3.
  cbn [usb_cursor usb_replies ui_events ui_cursor wa with_data with_dev]
    in Hc1, Hr1, He1, Hu1.
  destruct (py_slice_10_14 _ Hlen) as (x0 & x1 & x2 & rest & Hsl).
  rewrite Hsl in Hs3.
  destruct (wait_loop_answer n fuel (with_screen (255, 255, 255) w1)) as (w1' & Hwait & Hrest).
  { cbn. rewrite He1, Hu1. exact Hquiet. }
  { exact Hfuel. }
  { cbn. rewrite He1, Hu1, Hnq, Hconf. reflexivity. }
  cbn [ui_events ui_cursor with_screen] in Hwait, Hrest.
  rewrite He1, Hu1, Hnq in Hwait, Hrest. cbn [negb] in Hwait.
  destruct Hrest as (Wu & We & _ & _ & Wd & Wdata & Wc & Wr & _).
  cbn in Wd, Wdata, Wc, Wr.
  set (wd := with_screen (0, 0, 0) w1').
  assert (Hf0 : good_frame w (usb_cursor w + 17)).
  { specialize (Hframes 0%nat). rewrite Nat.mul_0_r, Nat.add_0_r in Hframes.
    apply Hframes. assert (0 < resolution ^ 3) by (apply Z.pow_pos_nonneg; lia). lia. }
  destruct Hf0 as (F0 & F1 & F2 & Fd).
  destruct (frame_split _ Fd) as (hdr & a0 & a1 & b0 & b1 & c0 & c1 & d0 & d1 & Hh & Hdt).
  assert (Hcal : calibrate wd = _) by
    (apply (calibrate_open wd SpyderXDevice cal su hdr a0 a1 b0 b1 c0 c1 d0 d1
              x0 x1 x2 rest);
     cbn [wd dev spyderData usb_replies usb_cursor with_screen];
     rewrite ?Wd, ?Wdata, ?Wr, ?Wc, ?Hdata1, ?Hr1, ?Hc1; try assumption; reflexivity).
  match type of Hcal with _ = (_, ?x) => set (w2 := x) in Hcal end.
  assert (Hstart : scan_starts_at fuel w w2).
  { exists w1'. split.
    - rewrite (bind_ok _ _ _ _ _ Hnew), (bind_ok _ _ _ _ _ Hinit).
      rewrite wait_for_enter_loop. exact Hwait.
    - rewrite (bind_ok _ _ w1' wd tt) by reflexivity. exact Hcal. }
  pose proof (prelude_ready fuel w w2 Hstart) as Hready.
  pose proof (grid_length_Z resolution ltac:(lia)) as Hgl.
  assert (Hc2 : usb_cursor w2 = (usb_cursor w + 20)%nat).
  { unfold w2, acquired, wd. cbn [usb_cursor with_data with_usb with_screen].
    rewrite Wc, Hc1. lia. }
  assert (Hr2 : usb_replies w2 = usb_replies w).
  { unfold w2, acquired, wd. cbn [usb_replies with_data with_usb with_screen].
    rewrite Wr, Hr1. reflexivity. }
  assert (Hu2 : ui_cursor w2 = (ui_cursor w + S n)%nat).
  { unfold w2, acquired, wd. cbn [ui_cursor with_data with_usb with_screen].
    exact Wu. }
  assert (He2 : ui_events w2 = ui_events w).
  { unfold w2, acquired, wd. cbn [ui_events with_data with_usb with_screen].
    rewrite We. reflexivity. }
  destruct (scan_all_points resolution w2 Hres Hready) as (table & w' & Hscan & Hsize & _).
  { intros i Hi. apply (good_frame_replies w); [exact Hr2|]. rewrite Hc2.
    replace (usb_cursor w + 20 + 3 * i)%nat with (usb_cursor w + 17 + 3 * S i)%nat by lia.
    apply Hframes. lia. }
  { intros i Hi. unfold no_quit. rewrite He2, Hu2. apply Hscanq. lia. }
  exists table, w'. split; [|exact Hsize].
  rewrite (generate_lut_from fuel resolution w w2 Hstart), Hscan. reflexivity.
Qed.

(** X23: [initialize] catches [USBError] only.  When the device is
    found and answers everything but sends a calibration block of fewer than
    46 bytes, [initialize] does not return [False]: the [IndexError] of
    [_get_factory_calibration] leaves it, after 13 calls into the USB stack.
    The session then holds the device handle and the two identifiers, but no
    new calibration, and its open flag is what it was. *)
Theorem initialize_short_calibration (w : World) (hw sn : string) :
  r_ok (reply_at w 0) = true -> r_flag (reply_at w 0) = true ->
  r_ok (reply_at w 2) = true -> r_flag (reply_at w 2) = false ->
  (forall k, (4 <= k < 13)%nat -> r_ok (reply_at w k) = true) ->
  utf8_decode (py_slice (r_data (reply_at w 8)) 5 9) = Some hw ->
  utf8_decode (py_slice (r_data (reply_at w 10)) 9 17) = Some sn ->
  (length (r_data (reply_at w 12)) < 46)%nat ->
  exists w',
    initialize w = (Raise IndexError, w') /\
    usb_cursor w' = (usb_cursor w + 13)%nat /\
    dev w' = Some SpyderXDevice /\
    HWvn (spyderData w') = Some hw /\ serNo (spyderData w') = Some sn /\
    calibration (spyderData w') = calibration (spyderData w) /\
    isOpen (spyderData w') = isOpen (spyderData w).
Proof.
  intros F0 F0f F2 F2f Hall Hhw Hsn Lcal.
  pose proof (Hall 4%nat ltac:(lia)) as F4. pose proof (Hall 5%nat ltac:(lia)) as F5.
  pose proof (Hall 6%nat ltac:(lia)) as F6. pose proof (Hall 7%nat ltac:(lia)) as F7.
  pose proof (Hall 8%nat ltac:(lia)) as F8. pose proof (Hall 9%nat ltac:(lia)) as F9.
  pose proof (Hall 10%nat ltac:(lia)) as F10. pose proof (Hall 11%nat ltac:(lia)) as F11.
  pose proof (Hall 12%nat ltac:(lia)) as F12. clear Hall.
  assert (Lcal' : (length (drop 5 (r_data (reply_at w 12))) < 41)%nat)
    by (rewrite length_drop; lia).
  set (u := SpyderXDevice).
  assert (Hfind : usb_find 0x085C 0x0A00 w
                  = (Ok (Some u), with_usb (Find 0x085C 0x0A00) 1 w)).
  { unfold usb_find, usb_call, mbind, M_bind.
    unfold reply_at in F0, F0f. rewrite Nat.add_0_r in F0, F0f.
    rewrite F0, F0f. reflexivity. }
  set (w1 := with_dev (Some u) (with_usb (Find 0x085C 0x0A00) 1 w)).
  pose proof (configure_any w1 u eq_refl) as S1.
  set (w2 := with_usb SetConfiguration 1 w1) in S1.
  pose proof (claim_any w2 u eq_refl ltac:(script_step) ltac:(script_step)) as S2.
  set (w3 := with_usb (ClaimInterface 0) 1 (with_usb (IsKernelDriverActive 0) 1 w2)) in S2.
  pose proof (control_transfer_ok w3 u 0x02 1 0 1 eq_refl ltac:(script_step)) as S3.
  set (w4 := with_usb (CtrlTransfer 2 1 0 1) 1 w3) in S3.
  pose proof (control_transfer_ok w4 u 0x02 1 0 129 eq_refl ltac:(script_step)) as S4.
  set (w5 := with_usb (CtrlTransfer 2 1 0 129) 1 w4) in S4.
  pose proof (control_transfer_ok w5 u 0x41 2 2 0 eq_refl ltac:(script_step)) as S5.
  set (w6 := with_usb (CtrlTransfer 65 2 2 0) 1 w5) in S5.
  pose proof (get_hardware_version_ok w6 u hw eq_refl ltac:(script_step)
                ltac:(script_step) ltac:(script_step)) as S6.
  match type of S6 with _ = (_, ?x) => set (w7 := x) in S6 end.
  pose proof (get_serial_number_ok w7 u sn eq_refl ltac:(script_step)
                ltac:(script_step) ltac:(script_step)) as S7.
  match type of S7 with _ = (_, ?x) => set (w8 := x) in S7 end.
  assert (Lcal8 : (length (drop 5 (r_data (usb_replies w8 (usb_cursor w8 + 1)))) < 41)%nat).
  { unfold w8, w7, w6, w5, w4, w3, w2, w1.
    cbn [usb_replies usb_cursor with_usb with_data with_dev].
    rewrite (reply_at_eq w _ 12) by lia. exact Lcal'. }
  pose proof (get_factory_calibration_short w8 u eq_refl ltac:(script_step)
                ltac:(script_step) Lcal8) as S8.
  match type of S8 with _ = (_, ?x) => set (w9 := x) in S8 end.
  exists w9. split.
  { unfold initialize, try_except.
    rewrite (bind_ok _ _ _ _ _ Hfind).
    rewrite (bind_ok _ _ _ w1 tt) by reflexivity.
    cbv beta iota.
    rewrite (bind_ok _ _ _ _ _ S1), (bind_ok _ _ _ _ _ S2), (bind_ok _ _ _ _ _ S3),
      (bind_ok _ _ _ _ _ S4), (bind_ok _ _ _ _ _ S5), (bind_ok _ _ _ _ _ S6),
      (bind_ok _ _ _ _ _ S7), (bind_raise _ _ _ _ _ S8).
    reflexivity. }
  unfold w9, w8, w7, w6, w5, w4, w3, w2, w1.
  cbn [dev usb_replies usb_cursor spyderData with_usb with_data with_dev
       set_HWvn set_serNo isOpen HWvn serNo calibration].
  repeat split; lia.
Qed.

(** ** [main] of [generate_lut.py] *)

(** X24: what [main] of the LUT generator saves.  When the operator
    closes the window after the sample of the [n+1]-th grid point, the table
    of [n + 1] entries that [generate_lut] returns is not empty, so [main]
    passes it to [save_lut] with the output file name: the partial table is
    written like a complete one.  With [resolution <= 0] the table is empty
    and nothing is saved. *)
Theorem lut_main_saves_partial_table
  (fuel : nat) (resolution : Z) (output_file : string) (w w2 : World) (n : nat) :
  scan_starts_at fuel w w2 ->
  (2 <= resolution ->
   Z.of_nat n < resolution ^ 3 ->
   (forall i, (i <= n)%nat -> good_frame w2 (usb_cursor w2 + 3 * i)) ->
   (forall i, (i < n)%nat -> no_quit w2 (ui_cursor w2 + i)) ->
   existsb is_QUIT (ui_events w2 (ui_cursor w2 + n)) = true ->
   exists table w',
     lut_main fuel resolution output_file w = (Ok (Saved output_file table), w') /\
     size table = S n /\
     dom table = list_to_set (take (S n) (grid resolution))) /\
  (resolution <= 0 ->
   exists w', lut_main fuel resolution output_file w = (Ok NotSaved, w')).
Proof.
  intros Hstart. split.
  - intros Hres Hn Hframes Hquiet Hquit.
    pose proof (prelude_ready fuel w w2 Hstart) as Hready.
    pose proof (grid_length_Z resolution ltac:(lia)) as Hlen.
    destruct (scan_interrupted resolution w2 n Hres Hready ltac:(lia)) as [Hcancel _].
    { intros i Hi. apply Hframes. lia. }
    { exact Hquiet. }
    destruct (Hcancel (Hframes n ltac:(lia)) Hquit) as (table & w' & Hscan & Hsize & Hdom).
    exists table, w'. split; [|split; assumption].
    unfold lut_main.
    rewrite (bind_ok _ _ w w' (ReturnLut table))
      by (rewrite (generate_lut_from fuel resolution w w2 Hstart), Hscan; reflexivity).
    rewrite Hsize. reflexivity.
  - intros Hres. exists (with_pygame_quit (closed_world w2)). unfold lut_main.
    assert (Hg : grid resolution = []).
    { unfold grid. rewrite py_range_nonpositive by exact Hres. reflexivity. }
    rewrite (bind_ok _ _ w (with_pygame_quit (closed_world w2)) (ReturnLut ∅)).
    + reflexivity.
    + rewrite (generate_lut_from fuel resolution w w2 Hstart), scan_eq, Hg.
      reflexivity.
Qed.

End DriverFacts.

(** ** Scripted runs

    The theorems above, applied to scripted devices and operators, with the
    exact rationals standing for the floats; and the runs that show where
    the code departs from the wording of the specification. *)

(** A run that was evaluated, as an equation on the monadic computation. *)
Lemma run_exec {A : Type} `{E : Externals} (m : M A) (w : World) (r : result A) :
  run m w = r -> m w = (r, exec m w).
Proof. unfold run, exec. intros <-. destruct (m w); reflexivity. Qed.

(** One third is in the range of the format; encoded and decoded it comes
    back within float32 precision. *)
Lemma decodeReversedIEEE754_roundtrip_witness :
  encodable (1 # 3) /\
  exists v : Q,
    _read_IEEE754 (encodeReversedIEEE754 (1 # 3)) = Ok v /\
    (Qabs (v - (1 # 3)) < Qabs (1 # 3) * 2 ^ (-23))%Q.
Proof.
  assert (H : encodable (1 # 3)).
  { split; [discriminate|reflexivity]. }
  split; [exact H|].
  exact (proj2 decodeReversedIEEE754_roundtrip (1 # 3)%Q H).
Defined.

(** The scenario of the specification: raw counts (100, 200, 150, 0),
    [s3 = (10, 20, 15)], [bcal = (5, 5, 5)]. *)
Lemma calibrate_measure_formula_witness :
  (exists w',
     @calibrate Q_externals (scenario_world lab_matrix) = (Ok tt, w') /\
     bcal (spyderData w') = Some [90; 180; 135] /\
     isBlackCal (spyderData w') = Some true) /\
  run measure (scenario_world lab_matrix) =
  Ok (@row_vector_times_matrix Q_externals (85, 175, 130) lab_matrix).
Proof.
  pose proof (@calibrate_measure_formula Q_externals (scenario_world lab_matrix)
    SpyderXDevice (scenario_cal lab_matrix) scenario_setup
    (map byte_of_Z [0; 0; 0; 0; 0])
    (byte_of_Z 0) (byte_of_Z 100) (byte_of_Z 0) (byte_of_Z 200)
    (byte_of_Z 0) (byte_of_Z 150) (byte_of_Z 0) (byte_of_Z 0)
    (byte_of_Z 10) (byte_of_Z 20) (byte_of_Z 15) [byte_of_Z 0]
    eq_refl eq_refl eq_refl eq_refl) as H.
  specialize (H ltac:(cbn; lia) ltac:(cbn; lia) eq_refl eq_refl eq_refl eq_refl
                eq_refl eq_refl).
  destruct H as (Hc & Hm & _).
  split; [exact Hc|].
  exact (Hm 5 5 5 eq_refl eq_refl ltac:(lia) ltac:(lia) ltac:(lia)).
Defined.

(** [measure] on a session that was never opened, and on a new session
    right after [initialize]. *)
Lemma measure_requires_open_and_calibrated_witness :
  @measure Q_externals no_device_world = (Raise NotInitializedError, no_device_world) /\
  @measure Q_externals (exec initialize (exec SpyderX lab_world)) =
  (Raise NotCalibratedError, exec initialize (exec SpyderX lab_world)).
Proof.
  split.
  - exact (proj1 (@measure_requires_open_and_calibrated Q_externals no_device_world)
             eq_refl).
  - apply (proj2 (proj2 (proj2
             (@measure_requires_open_and_calibrated Q_externals lab_world)))
             (exec SpyderX lab_world) (exec initialize (exec SpyderX lab_world))).
    + apply run_exec. vm_compute. reflexivity.
    + apply run_exec. vm_compute. reflexivity.
Defined.

(** The part of [generate_lut] before the loops, on a scripted world. *)
Lemma scripted_scan_starts (w : @World Q_externals) :
  run (SpyderX;; initialize;; wait_for_enter 3) w = Ok (Some true) ->
  run (screen_fill (0, 0, 0);; calibrate) (confirmed 3 w) = Ok tt ->
  scan_starts_at 3 w (scan_start 3 w).
Proof.
  intros H1 H2. exists (confirmed 3 w). split.
  - apply (run_exec _ _ _ H1).
  - apply (run_exec _ _ _ H2).
Qed.

(** A whole run at resolution 2: eight samples. *)
Lemma generate_lut_complete_witness :
  exists table w',
    @generate_lut Q_externals 3 2 lab_world = (Ok (ReturnLut table), w') /\
    Z.of_nat (size table) = 2 ^ 3 /\
    (forall r g b, is_Some (table !! (r, g, b)) ->
       0 <= r <= 2 - 1 /\ 0 <= g <= 2 - 1 /\ 0 <= b <= 2 - 1).
Proof.
  apply (@generate_lut_complete Q_externals 3 2 lab_world lab_scan_start).
  - lia.
  - apply scripted_scan_starts; vm_compute; reflexivity.
  - intros i Hi. change (2 ^ 3) with 8 in Hi.
    do 8 (destruct i as [|i]; [vm_compute; repeat split; reflexivity|]). lia.
  - intros i Hi. change (2 ^ 3) with 8 in Hi.
    do 8 (destruct i as [|i]; [vm_compute; reflexivity|]). lia.
Defined.

(** At resolution 2: a window closed after the second sample, and a read
    that fails during the second measurement. *)
Lemma generate_lut_cancel_or_fail_witness :
  (exists table w',
     @generate_lut Q_externals 3 2 cancel_world = (Ok (ReturnLut table), w') /\
     size table = 2%nat /\
     dom table = list_to_set (take 2 (grid 2))) /\
  (exists w', @generate_lut Q_externals 3 2 fail_world = (Raise USBError, w')).
Proof.
  split.
  - apply (proj1 (@generate_lut_cancel_or_fail Q_externals 3 2 cancel_world
                    cancel_scan_start 1
                    ltac:(lia)
                    ltac:(apply scripted_scan_starts; vm_compute; reflexivity)
                    ltac:(lia)
                    ltac:(intros i Hi; destruct i as [|i];
                          [vm_compute; repeat split; reflexivity|lia])
                    ltac:(intros i Hi; destruct i as [|i];
                          [vm_compute; reflexivity|lia]))).
    + vm_compute. repeat split; reflexivity.
    + vm_compute. reflexivity.
  - apply (proj2 (@generate_lut_cancel_or_fail Q_externals 3 2 fail_world
                    fail_scan_start 1
                    ltac:(lia)
                    ltac:(apply scripted_scan_starts; vm_compute; reflexivity)
                    ltac:(lia)
                    ltac:(intros i Hi; destruct i as [|i];
                          [vm_compute; repeat split; reflexivity|lia])
                    ltac:(intros i Hi; destruct i as [|i];
                          [vm_compute; reflexivity|lia]))).
    right. left. vm_compute. reflexivity.
Defined.

(** The read of the second measurement fails: one sample was completed, but
    [generate_lut] ends with the transport error and returns no table. *)
Lemma scan_failure_loses_the_table :
  run (generate_lut 3 2) fail_world = Raise USBError /\
  ~ (exists table, run (generate_lut 3 2) fail_world = Ok (ReturnLut table) /\
                   size table = 1%nat).
Proof.
  assert (H : run (generate_lut 3 2) fail_world = Raise USBError)
    by (vm_compute; reflexivity).
  split; [exact H|]. intros (table & Ht & _). rewrite H in Ht. discriminate.
Qed.

(** A session that is initialized, calibrated, closed and initialized
    again. *)
Lemma close_clears_open_flag_only_witness :
  isOpen (spyderData (exec initialize
            (closed_world (exec (SpyderX;; initialize;; calibrate) reopen_world))))
    = Some true /\
  isBlackCal (spyderData (exec initialize
            (closed_world (exec (SpyderX;; initialize;; calibrate) reopen_world))))
    = isBlackCal (spyderData (exec (SpyderX;; initialize;; calibrate) reopen_world)) /\
  bcal (spyderData (exec initialize
            (closed_world (exec (SpyderX;; initialize;; calibrate) reopen_world))))
    = bcal (spyderData (exec (SpyderX;; initialize;; calibrate) reopen_world)).
Proof.
  apply (proj2 (proj2 (proj2 (proj2 (proj2
           (@close_clears_open_flag_only Q_externals
              (exec (SpyderX;; initialize;; calibrate) reopen_world))))))).
  apply run_exec. vm_compute. reflexivity.
Defined.

(** After [close] the session is still marked black-calibrated, and after a
    further [initialize] it is open and black-calibrated: [measure] returns
    without a new [calibrate]. *)
Lemma close_keeps_black_calibration :
  isBlackCal (spyderData (exec (SpyderX;; initialize;; calibrate;; close) reopen_world))
    = Some true /\
  isOpen (spyderData
            (exec (SpyderX;; initialize;; calibrate;; close;; initialize) reopen_world))
    = Some true /\
  isBlackCal (spyderData
            (exec (SpyderX;; initialize;; calibrate;; close;; initialize) reopen_world))
    = Some true /\
  run (SpyderX;; initialize;; calibrate;; close;; initialize;; measure) reopen_world
    = Ok (500, 605, 1045 # 2)%Q.
Proof. repeat split; vm_compute; reflexivity. Qed.

(** No device on the bus. *)
Lemma initialize_without_device_witness :
  exists w',
    @initialize Q_externals no_device_world = (Ok false, w') /\
    dev w' = None /\
    spyderData w' = spyderData no_device_world /\
    usb_log w' = Find 0x085C 0x0A00 :: usb_log no_device_world.
Proof.
  exact (@initialize_without_device Q_externals no_device_world eq_refl eq_refl).
Defined.

(** With no device on the bus [initialize] returns [False]; it raises
    nothing. *)
Lemma initialize_returns_false :
  run (@initialize Q_externals) no_device_world = Ok false /\
  ~ (exists e, run (@initialize Q_externals) no_device_world = Raise e).
Proof.
  assert (H : run (@initialize Q_externals) no_device_world = Ok false)
    by (vm_compute; reflexivity).
  split; [exact H|]. intros (e & He). rewrite H in He. discriminate.
Qed.

(** [calibrate] on a new session with no device on the bus. *)
Lemma calibrate_ignores_failed_initialize_witness :
  exists w1,
    @initialize Q_externals no_device_world = (Ok false, w1) /\
    calibrate no_device_world = (Raise AttributeError, w1) /\
    dev w1 = None /\ spyderData w1 = spyderData no_device_world.
Proof.
  exact (proj1 (proj2 (@calibrate_ignores_failed_initialize Q_externals
                         no_device_world eq_refl)) eq_refl eq_refl).
Defined.

(** A session that was initialized and closed, and a device that fails one
    transfer of the next [initialize]: [initialize] returns [False], and
    [calibrate] goes on with the data of the earlier session, returns, and
    marks the closed session black-calibrated. *)
Lemma calibrate_succeeds_after_failed_initialize :
  default false (isOpen (spyderData hiccup_closed)) = false /\
  run (@initialize Q_externals) hiccup_closed = Ok false /\
  run (@calibrate Q_externals) hiccup_closed = Ok tt /\
  isOpen (spyderData (exec (@calibrate Q_externals) hiccup_closed)) = Some false /\
  isBlackCal (spyderData (exec (@calibrate Q_externals) hiccup_closed)) = Some true.
Proof. repeat split; vm_compute; reflexivity. Qed.

(** Index 1 at resolution 5. *)
Lemma to_255_rounds_down_witness :
  to_255 1 5 = Ok (1 * 255 / (5 - 1)) /\ 0 <= 1 * 255 / (5 - 1) <= 255.
Proof.
  pose proof (@to_255_rounds_down Q_externals 1 5 ltac:(lia) ltac:(lia)) as (H1 & H2 & _).
  exact (conj H1 H2).
Defined.

(** At resolution 5 the index 1 is shown as 63: 255 / 4 = 63.75 is
    truncated, where rounding gives 64. *)
Lemma to_255_is_not_round :
  to_255 1 5 = Ok 63 /\ quantize_spec 1 5 = 64 /\
  to_255 1 5 <> Ok (quantize_spec 1 5).
Proof. repeat split. discriminate. Qed.

(** ** Further scripted runs *)

(** 1.0 and -1.0. *)
Lemma read_IEEE754_sign_bit_witness :
  exists v v' : Q,
    _read_IEEE754 (map byte_of_Z [0; 0; 128; 63]) = Ok v /\
    _read_IEEE754 [byte_of_Z 0; byte_of_Z 0; byte_of_Z 128;
                   byte_of_Z (byteZ (byte_of_Z 63) + 128)] = Ok v' /\
    (0 < v)%Q /\ (v' == - v)%Q.
Proof.
  apply (read_IEEE754_sign_bit (byte_of_Z 0) (byte_of_Z 0) (byte_of_Z 128) (byte_of_Z 63)).
  vm_compute. reflexivity.
Defined.

(** 1.0 and 2.0. *)
Lemma read_IEEE754_increasing_witness :
  exists v v' : Q,
    _read_IEEE754 (map byte_of_Z [0; 0; 128; 63]) = Ok v /\
    _read_IEEE754 (map byte_of_Z [0; 0; 0; 64]) = Ok v' /\
    (v < v')%Q.
Proof.
  apply (read_IEEE754_increasing
           (byte_of_Z 0) (byte_of_Z 0) (byte_of_Z 128) (byte_of_Z 63)
           (byte_of_Z 0) (byte_of_Z 0) (byte_of_Z 0) (byte_of_Z 64));
    vm_compute; reflexivity.
Defined.

(** The calibration block of the scripted device. *)
Lemma get_factory_calibration_cases_witness :
  exists cal : Calibration,
    run _get_factory_calibration calibration_world = Ok tt /\
    calibration (spyderData (exec _get_factory_calibration calibration_world))
      = Some cal /\
    v1 cal = 7 /\ v2 cal = 258 /\ v3 cal = 9.
Proof.
  destruct (proj2 (@get_factory_calibration_cases Q_externals calibration_world
                     SpyderXDevice eq_refl eq_refl eq_refl))
    as (cal & Hrun & H1 & H2 & _ & H3 & _).
  { vm_compute. lia. }
  exists cal. unfold run, exec. rewrite Hrun. cbn [fst snd].
  split; [reflexivity|]. split; [reflexivity|].
  split; [injection H1 as ->; reflexivity|].
  split; [rewrite H2; reflexivity|injection H3 as ->; reflexivity].
Defined.

(** The scripted device of [lab_world] is cooperative. *)
Lemma lab_world_cooperative : cooperative lab_world (nul_string 4) (nul_string 8).
Proof.
  unfold cooperative.
  do 4 (split; [vm_compute; reflexivity|]).
  split.
  { intros k Hk.
    do 17 (destruct k as [|k]; [try lia; vm_compute; reflexivity|]). lia. }
  do 2 (split; [vm_compute; reflexivity|]).
  split; [vm_compute; lia|]. split; [vm_compute; reflexivity|vm_compute; lia].
Qed.

Lemma lab_world_frames (k : nat) :
  (k <= 8)%nat -> good_frame lab_world (usb_cursor lab_world + 17 + 3 * k).
Proof.
  intros Hk.
  do 9 (destruct k as [|k]; [vm_compute; repeat split; reflexivity|]). lia.
Qed.

Lemma initialize_cooperative_witness :
  exists (w' : World) (cal : Calibration) (su : SetUp) (a : Z * Z * Z * Z),
    @initialize Q_externals lab_world = (Ok true, w') /\
    usb_cursor w' = (usb_cursor lab_world + 17)%nat /\
    dev w' = Some SpyderXDevice /\
    spyderData w' =
      {| isOpen := Some true; HWvn := Some (nul_string 4); serNo := Some (nul_string 8);
         calibration := Some cal; amb := Some a; settUp := Some su;
         bcal := bcal (spyderData lab_world);
         isBlackCal := isBlackCal (spyderData lab_world) |} /\
    v2 cal = _read_nORD_be (py_slice (drop 5 (r_data (reply_at lab_world 12))) 2 4) /\
    0 <= v2 cal < 65536 /\ 0 <= s1 su < 256 /\
    s2 su = py_slice (r_data (reply_at lab_world 16)) 6 10 /\
    s3 su = py_slice (r_data (reply_at lab_world 16)) 10 14.
Proof.
  exact (@initialize_cooperative Q_externals lab_world _ _ lab_world_cooperative).
Defined.

(** The session of the scenario: [calibrate] stores (90, 180, 135). *)
Lemma calibrate_stores_on_success_only_witness :
  let '(r, w') := @calibrate Q_externals (scenario_world lab_matrix) in
  dev w' = dev (scenario_world lab_matrix) /\
  ui_cursor w' = ui_cursor (scenario_world lab_matrix) /\
  screen w' = screen (scenario_world lab_matrix) /\
  match r with
  | Ok _ =>
      usb_cursor w' = (usb_cursor (scenario_world lab_matrix) + 3)%nat /\
      exists b, length b = 3%nat /\
        spyderData w' =
        set_isBlackCal true (set_bcal b (spyderData (scenario_world lab_matrix)))
  | Raise _ =>
      (usb_cursor (scenario_world lab_matrix) <= usb_cursor w'
       <= usb_cursor (scenario_world lab_matrix) + 3)%nat /\
      spyderData w' = spyderData (scenario_world lab_matrix)
  end.
Proof.
  exact (@calibrate_stores_on_success_only Q_externals (scenario_world lab_matrix) eq_refl).
Defined.

(** A black frame (15, 25, 20) and a reading (100, 200, 150). *)
Lemma measure_after_calibrate_witness :
  exists w',
    (calibrate;; measure) two_frame_world =
    (Ok (@np_dot_vec_mat Q_externals (85, 175, 130) lab_matrix), w') /\
    usb_cursor w' = 6%nat.
Proof.
  assert (Hok : forall k, (k < 6)%nat -> r_ok (reply_at two_frame_world k) = true).
  { intros k Hk. do 6 (destruct k as [|k]; [vm_compute; reflexivity|]). lia. }
  exact (@measure_after_calibrate Q_externals two_frame_world SpyderXDevice
    (scenario_cal lab_matrix) scenario_setup
    (map byte_of_Z [0; 0; 0; 0; 0]) (map byte_of_Z [0; 0; 0; 0; 0])
    (byte_of_Z 0) (byte_of_Z 15) (byte_of_Z 0) (byte_of_Z 25)
    (byte_of_Z 0) (byte_of_Z 20) (byte_of_Z 0) (byte_of_Z 0)
    (byte_of_Z 0) (byte_of_Z 100) (byte_of_Z 0) (byte_of_Z 200)
    (byte_of_Z 0) (byte_of_Z 150) (byte_of_Z 0) (byte_of_Z 0)
    (byte_of_Z 10) (byte_of_Z 20) (byte_of_Z 15) [byte_of_Z 0]
    eq_refl eq_refl eq_refl eq_refl ltac:(cbn; lia) ltac:(cbn; lia) eq_refl
    Hok eq_refl eq_refl eq_refl eq_refl).
Defined.

Lemma get_amb_measure_cases_witness :
  exists a b c d : Z,
    @_get_amb_measure Q_externals ambient_world =
      (Ok tt, with_data (set_amb (a, b, c, d) (spyderData ambient_world))
                (with_usb (BulkRead 0x81 11) 1
                   (with_usb (BulkWrite 1 [0xd4; 0xa1; 0xc5; 0x00; 0x02; 0x65; 0x10]) 1
                      ambient_world))) /\
    0 <= a < 65536 /\ 0 <= b < 65536 /\ 0 <= c < 256 /\ 0 <= d < 256.
Proof.
  exact (proj2 (@get_amb_measure_cases Q_externals ambient_world SpyderXDevice
                  eq_refl eq_refl eq_refl) eq_refl).
Defined.

(** The operator of [lab_world] clicks at once. *)
Lemma wait_for_enter_answer_witness :
  exists w',
    @wait_for_enter Q_externals 3 lab_world = (Ok (Some true), w') /\
    ui_cursor w' = 1%nat /\
    screen w' = [(255, 255, 255)] /\
    pygame_running w' = true /\
    dev w' = None /\ spyderData w' = empty_data /\
    usb_cursor w' = 0%nat /\ usb_log w' = [].
Proof.
  exact (@wait_for_enter_answer Q_externals 0 3 lab_world
           ltac:(intros i Hi; lia) ltac:(lia) eq_refl).
Defined.

Lemma lab_scan_frames (i : nat) :
  Z.of_nat i < 2 ^ 3 -> good_frame lab_scan_start (usb_cursor lab_scan_start + 3 * i).
Proof.
  intros Hi. change (2 ^ 3) with 8 in Hi.
  do 8 (destruct i as [|i]; [vm_compute; repeat split; reflexivity|]). lia.
Qed.

Lemma lab_scan_quiet (i : nat) :
  Z.of_nat i < 2 ^ 3 -> no_quit lab_scan_start (ui_cursor lab_scan_start + i).
Proof.
  intros Hi. change (2 ^ 3) with 8 in Hi.
  do 8 (destruct i as [|i]; [vm_compute; reflexivity|]). lia.
Qed.

Lemma lab_scan_starts : scan_starts_at 3 lab_world lab_scan_start.
Proof. apply scripted_scan_starts; vm_compute; reflexivity. Qed.

(** A whole run at resolution 2: the eight entries. *)
Lemma generate_lut_entries_witness :
  exists table w' cal su b,
    @generate_lut Q_externals 3 2 lab_world = (Ok (ReturnLut table), w') /\
    calibration (spyderData lab_scan_start) = Some cal /\
    settUp (spyderData lab_scan_start) = Some su /\
    bcal (spyderData lab_scan_start) = Some b /\
    forall i p, grid 2 !! i = Some p ->
      exists xyz,
        xyz_of_frame cal su b
          (r_data (usb_replies lab_scan_start (usb_cursor lab_scan_start + 3 * i + 2)))
          = Ok xyz /\
        table !! p = Some (xyz_to_lms xyz).
Proof.
  exact (@generate_lut_entries Q_externals 3 2 lab_world lab_scan_start
           ltac:(lia) lab_scan_starts lab_scan_frames lab_scan_quiet).
Defined.

(** A whole run at resolution 2: the eight colours. *)
Lemma generate_lut_trace_witness :
  exists table w',
    @generate_lut Q_externals 3 2 lab_world = (Ok (ReturnLut table), w') /\
    screen w' = rev (map (colour_of 2) (grid 2)) ++ screen lab_scan_start /\
    Z.of_nat (usb_cursor w') = Z.of_nat (usb_cursor lab_scan_start) + 3 * 2 ^ 3 /\
    Z.of_nat (ui_cursor w') = Z.of_nat (ui_cursor lab_scan_start) + 2 ^ 3 /\
    isOpen (spyderData w') = Some false /\
    isBlackCal (spyderData w') = Some true /\
    pygame_running w' = false.
Proof.
  exact (@generate_lut_trace Q_externals 3 2 lab_world lab_scan_start
           ltac:(lia) lab_scan_starts lab_scan_frames lab_scan_quiet).
Defined.

(** The operator clicks and closes the window in the second batch. *)
Lemma generate_lut_quit_at_prompt_witness :
  exists w',
    @generate_lut Q_externals 3 2 quit_world = (Ok ReturnNone, w') /\
    isOpen (spyderData w') = Some false /\
    isBlackCal (spyderData w') = None /\
    usb_cursor w' = usb_cursor (exec (SpyderX;; initialize) quit_world) /\
    screen w' = (255, 255, 255) :: screen quit_world /\
    pygame_running w' = false.
Proof.
  apply (@generate_lut_quit_at_prompt Q_externals 3 1 2 quit_world
           (exec (SpyderX;; initialize) quit_world) true).
  - apply run_exec. vm_compute. reflexivity.
  - intros i Hi. destruct i as [|i]; [vm_compute; split; reflexivity|lia].
  - lia.
  - vm_compute. reflexivity.
Defined.

(** Resolution 1 on the scripted device. *)
Lemma generate_lut_degenerate_witness :
  @generate_lut Q_externals 3 1 lab_world = (Raise ZeroDivisionError, lab_scan_start) /\
  isOpen (spyderData lab_scan_start) = Some true.
Proof.
  exact (proj2 (@generate_lut_degenerate Q_externals 3 1 lab_world lab_scan_start
                  lab_scan_starts) eq_refl).
Defined.

Lemma generate_lut_without_device_witness :
  exists w',
    @generate_lut Q_externals 1 2 no_device_return_world = (Raise AttributeError, w') /\
    dev w' = None /\ spyderData w' = empty_data /\
    usb_cursor w' = (usb_cursor no_device_return_world + 2)%nat /\
    screen w' = (0, 0, 0) :: (255, 255, 255) :: screen no_device_return_world /\
    pygame_running w' = pygame_running no_device_return_world.
Proof.
  apply (@generate_lut_without_device Q_externals 1 0 2 no_device_return_world);
    try reflexivity; lia.
Defined.

(** Two measurements before the operator interrupts. *)
Lemma main_session_witness :
  exists w',
    @main Q_externals 2 lab_world = (Ok tt, w') /\
    usb_cursor w' = (usb_cursor lab_world + 17 + 3 * 3)%nat /\
    head (usb_log w') = Some DisposeResources /\
    isOpen (spyderData w') = Some false /\
    isBlackCal (spyderData w') = Some true /\
    HWvn (spyderData w') = Some (nul_string 4) /\
    serNo (spyderData w') = Some (nul_string 8).
Proof.
  apply (@main_session Q_externals 2 lab_world (nul_string 4) (nul_string 8)).
  - reflexivity.
  - exact lab_world_cooperative.
  - vm_compute. lia.
  - intros k Hk. apply lab_world_frames. lia.
Defined.

Lemma scenario_world_ready : ready (scenario_world lab_matrix).
Proof.
  unfold ready. eexists _, _, _.
  split; [eexists; lazy; reflexivity|].
  do 5 (split; [lazy; reflexivity|]).
  split; [lazy; split; discriminate || reflexivity|].
  split; [lazy; split; discriminate || reflexivity|].
  split; [left; lazy; repeat constructor|reflexivity].
Qed.

(** The session of the scenario and a full frame. *)
Lemma measure_outcomes_witness :
  exists xyz w', @measure Q_externals (scenario_world lab_matrix) = (Ok xyz, w').
Proof.
  exact (proj1 (proj2 (@measure_outcomes Q_externals (scenario_world lab_matrix)
                         scenario_world_ready) eq_refl eq_refl eq_refl) eq_refl).
Defined.

(** The whole driver at resolution 2, from the assumptions on the scripted
    device and operator. *)
Lemma generate_lut_end_to_end_witness :
  exists table w',
    @generate_lut Q_externals 3 2 lab_world = (Ok (ReturnLut table), w') /\
    Z.of_nat (size table) = 2 ^ 3.
Proof.
  apply (@generate_lut_end_to_end Q_externals 3 0 2 lab_world (nul_string 4) (nul_string 8)).
  - lia.
  - reflexivity.
  - exact lab_world_cooperative.
  - vm_compute. lia.
  - intros i Hi. lia.
  - lia.
  - reflexivity.
  - reflexivity.
  - intros k Hk. apply lab_world_frames. change (2 ^ 3) with 8 in Hk. lia.
  - intros i Hi. change (2 ^ 3) with 8 in Hi.
    do 8 (destruct i as [|i]; [vm_compute; reflexivity|]). lia.
Defined.

Lemma initialize_short_calibration_witness :
  exists w',
    @initialize Q_externals short_calibration_world = (Raise IndexError, w') /\
    usb_cursor w' = (usb_cursor short_calibration_world + 13)%nat /\
    dev w' = Some SpyderXDevice /\
    HWvn (spyderData w') = Some (nul_string 4) /\
    serNo (spyderData w') = Some (nul_string 8) /\
    calibration (spyderData w') = calibration (spyderData short_calibration_world) /\
    isOpen (spyderData w') = isOpen (spyderData short_calibration_world).
Proof.
  apply (@initialize_short_calibration Q_externals short_calibration_world);
    try (vm_compute; reflexivity).
  - intros k Hk.
    do 13 (destruct k as [|k]; [try lia; vm_compute; reflexivity|]). lia.
  - vm_compute. lia.
Defined.

(** The window is closed after the second sample: [main] saves two entries. *)
Lemma lut_main_saves_partial_table_witness :
  exists table w',
    @lut_main Q_externals 3 2 "lut.npy" cancel_world = (Ok (Saved "lut.npy" table), w') /\
    size table = 2%nat /\
    dom table = list_to_set (take 2 (grid 2)).
Proof.
  apply (proj1 (@lut_main_saves_partial_table Q_externals 3 2 "lut.npy" cancel_world
                  cancel_scan_start 1
                  ltac:(apply scripted_scan_starts; vm_compute; reflexivity))).
  - lia.
  - vm_compute. reflexivity.
  - intros i Hi. destruct i as [|[|i]];
      [vm_compute; repeat split; reflexivity|vm_compute; repeat split; reflexivity|lia].
  - intros i Hi. destruct i as [|i]; [vm_compute; reflexivity|lia].
  - vm_compute. reflexivity.
Defined.
